(** * Testingdata.py: ingestion, alignment and reshaping of the trend exports

    A shallow embedding of [src/Testingdata.py]: the per-file loader
    [load_trends_csv], the sequential inner join on [Time], the monthly
    continuity check, the two [to_csv] writes and the [melt] into the long
    table.  Pandas tables are lists of rows; the row index pandas keeps is a
    field of the row.  Where versions of pandas differ, the embedding follows
    pandas 2.0 and later: [merge] and [melt] raise where earlier versions
    warned. *)

From Stdlib Require Import String ZArith List Bool Lia Permutation Sorted.
Import ListNotations.
Local Open Scope Z_scope.

(** ** Timestamps *)

(** A timestamp is a calendar date, counted in days since 1970-01-01 (the
    exports are monthly and carry no time of day).  [None] is pandas' [NaT]. *)
Definition Timestamp := Z.
Definition NaT : option Timestamp := None.

(** Equality of join and duplicate keys: pandas matches a null key with a
    null key. *)
Definition time_eqb (a b : option Timestamp) : bool :=
  match a, b with
  | Some x, Some y => x =? y
  | None, None => true
  | _, _ => false
  end.

(** The order [sort_values] uses: ascending, nulls last. *)
Definition time_leb (a b : option Timestamp) : bool :=
  match a, b with
  | Some x, Some y => x <=? y
  | _, None => true
  | None, Some _ => false
  end.

Definition time_ltb (a b : option Timestamp) : bool :=
  time_leb a b && negb (time_eqb a b).

(** First occurrences: an element stays when no earlier element is the
    [same].  This is pandas' [keep="first"] and the order [unique] returns. *)
Fixpoint keep_first {A : Type} (same : A -> A -> bool) (l : list A) : list A :=
  match l with
  | [] => []
  | x :: l' => x :: filter (fun y => negb (same x y)) (keep_first same l')
  end.

(** Sorting, by insertion and stable.  Where the script sorts, no two rows
    have the same [Time] (line 38 sorts what [drop_duplicates] left, line 75
    a join of series with unique timestamps), so the place an algorithm
    gives to equal keys does not show. *)
Fixpoint insert_by {A : Type} (leb : A -> A -> bool) (x : A) (l : list A) : list A :=
  match l with
  | [] => [x]
  | y :: l' => if leb x y then x :: l else y :: insert_by leb x l'
  end.

Definition sort_by {A : Type} (leb : A -> A -> bool) (l : list A) : list A :=
  fold_right (insert_by leb) [] l.

(** ** The civil calendar

    Days since 1970-01-01 to year, month, day and back, in the proleptic
    Gregorian calendar pandas uses. *)
Definition days_from_civil (y m d : Z) : Z :=
  let y' := if m <=? 2 then y - 1 else y in
  let era := y' / 400 in
  let yoe := y' - era * 400 in
  let doy := (153 * (if 2 <? m then m - 3 else m + 9) + 2) / 5 + d - 1 in
  let doe := yoe * 365 + yoe / 4 - yoe / 100 + doy in
  era * 146097 + doe - 719468.

Definition civil_from_days (z : Z) : Z * Z * Z :=
  let z' := z + 719468 in
  let era := z' / 146097 in
  let doe := z' - era * 146097 in
  let yoe := (doe - doe / 1460 + doe / 36524 - doe / 146096) / 365 in
  let doy := doe - (365 * yoe + yoe / 4 - yoe / 100) in
  let mp := (5 * doy + 2) / 153 in
  let d := doy - (153 * mp + 2) / 5 + 1 in
  let m := if mp <? 10 then mp + 3 else mp - 9 in
  (if m <=? 2 then yoe + era * 400 + 1 else yoe + era * 400, m, d).

(** Months counted from year 0: the month a date falls in, and the first
    day of a month. *)
Definition month_index (t : Timestamp) : Z :=
  let '(y, m, _) := civil_from_days t in 12 * y + (m - 1).

Definition month_start (k : Z) : Timestamp :=
  days_from_civil (k / 12) (k mod 12 + 1) 1.

Definition is_month_start (t : Timestamp) : bool :=
  let '(_, _, d) := civil_from_days t in d =? 1.

(** The same two through months counted from March of year 0, where the
    civil algorithm works: the month a date falls in, and the day a month
    begins on, counted from 0000-03-01. *)
Definition march_month (z : Z) : Z :=
  let z' := z + 719468 in
  let era := z' / 146097 in
  let doe := z' - era * 146097 in
  let yoe := (doe - doe / 1460 + doe / 36524 - doe / 146096) / 365 in
  let doy := doe - (365 * yoe + yoe / 4 - yoe / 100) in
  12 * (yoe + era * 400) + (5 * doy + 2) / 153.

Definition march_begin (M : Z) : Z :=
  let y := M / 12 in
  let era := y / 400 in
  let yoe := y - era * 400 in
  era * 146097 + yoe * 365 + yoe / 4 - yoe / 100 + (153 * (M mod 12) + 2) / 5.

(** ** What the Python runtime and pandas supply

    The string methods and the two scalar parsers are library code; the
    script only calls them.  They are the parameters of the development. *)
Class Runtime := {
  (** the numeric dtype of a value column *)
  num : Type;
  (** [str.strip] *)
  str_strip : string -> string;
  (** [" ".join(s.split())] *)
  str_squeeze : string -> string;
  (** [str.title] *)
  str_title : string -> string;
  (** how [pd.to_datetime] reads one non-null entry; [None]: it cannot *)
  to_datetime_scalar : string -> option Timestamp;
  (** how [pd.to_numeric] reads one non-null entry; [None]: it cannot *)
  to_numeric_scalar : string -> option num
}.

(** ** Errors that end the run *)
Inductive Error : Type :=
| MissingTimeColumn (file : string) (columns : list string)
| AmbiguousValueColumn (file : string) (value_cols : list string)
| InsufficientInputFiles (expected found : nat) (names : list string)
| UnparsableTimestamp (entry : string)
| DuplicateColumnLabel (label : string)
| MergeError (duplicates : list string)
| RangeBoundIsNaT
| ValueNameIsColumn (value_name : string)
| ListIndexOutOfRange
| DuplicateEntries.

Definition result (A : Type) : Type := (Error + A)%type.

Definition is_ok {A : Type} (r : result A) : bool :=
  match r with inr _ => true | inl _ => false end.

(** ** Tables *)

(** What [pd.read_csv] hands over: the header labels and the body, one list
    of cells per line; [None] is an empty (null) cell. *)
Record RawTable := {
  header : list string;
  body : list (list (option string))
}.

Record CsvFile := {
  fname : string;
  content : RawTable
}.

Section Frames.
Context {RT : Runtime}.

(** A row of a frame: its index label, its [Time] entry and the entries of
    the value columns, in column order.  [None] in [vals] is NaN. *)
Record Row := {
  idx : nat;
  time : option Timestamp;
  vals : list (option num)
}.

(** A frame with a [Time] column: the labels of the value columns, in
    column order, and the rows.  No value column is labelled [Time]: the
    loader raises on the file that would give such a frame. *)
Record DataFrame := {
  labels : list string;
  rows : list Row
}.

Definition times (l : list Row) : list (option Timestamp) := map time l.

(** Number of columns: [Time] and the value columns. *)
Definition ncols (df : DataFrame) : nat := S (length (labels df)).
Definition nrows (df : DataFrame) : nat := length (rows df).

(** *** Column operations of the loader *)

(** [pd.to_datetime(series)] with the default [errors="raise"]: a null
    entry becomes NaT, an entry the parser rejects raises. *)
Fixpoint to_datetime (col : list (option string)) : result (list (option Timestamp)) :=
  match col with
  | [] => inr []
  | None :: col' =>
      match to_datetime col' with
      | inl e => inl e
      | inr ts => inr (NaT :: ts)
      end
  | Some s :: col' =>
      match to_datetime_scalar s with
      | None => inl (UnparsableTimestamp s)
      | Some t =>
          match to_datetime col' with
          | inl e => inl e
          | inr ts => inr (Some t :: ts)
          end
      end
  end.

(** [pd.to_numeric(series, errors="coerce")]: an entry the parser rejects
    becomes NaN. *)
Definition to_numeric_entry (c : option string) : option num :=
  match c with
  | None => None
  | Some s => to_numeric_scalar s
  end.

Definition to_numeric_coerce (col : list (option string)) : list (option num) :=
  map to_numeric_entry col.

(** *** Row operations *)

(** [df.dropna(subset=["Time"])] *)
Definition dropna (l : list Row) : list Row :=
  filter (fun r => match time r with Some _ => true | None => false end) l.

(** [df.drop_duplicates(subset=["Time"])], [keep="first"]: a row stays when
    no earlier row has its [Time]. *)
Definition same_time (r x : Row) : bool := time_eqb (time r) (time x).

Definition drop_duplicates (l : list Row) : list Row := keep_first same_time l.

(** [df.sort_values("Time")]: ascending, nulls last; rows of equal [Time]
    keep their order. *)
Definition row_leb (r x : Row) : bool := time_leb (time r) (time x).

Definition sort_values (l : list Row) : list Row := sort_by row_leb l.

(** [df.reset_index(drop=True)]: the index becomes 0, 1, 2, ... *)
Fixpoint reindex_from (i : nat) (l : list Row) : list Row :=
  match l with
  | [] => []
  | r :: l' => {| idx := i; time := time r; vals := vals r |} :: reindex_from (S i) l'
  end.

Definition reset_index (l : list Row) : list Row := reindex_from 0 l.

(** *** The loader *)

(** [c in df.columns] *)
Definition has_label (c : string) (columns : list string) : bool :=
  existsb (String.eqb c) columns.

Definition count_label (c : string) (columns : list string) : nat :=
  length (filter (String.eqb c) columns).

(** Position of the first label that satisfies [p]. *)
Fixpoint index_where (p : string -> bool) (columns : list string) : nat :=
  match columns with
  | [] => O
  | c :: columns' => if p c then O else S (index_where p columns')
  end.

(** The cells of column [i]; a line that is too short reads as null there. *)
Definition column (i : nat) (b : list (list (option string))) : list (option string) :=
  map (fun line => nth i line None) b.

(** The two-column frame of a parsed [Time] column and a numeric value
    column, under the index [i], [i+1], ... that [read_csv] gave the lines. *)
Fixpoint frame_rows (i : nat) (ts : list (option Timestamp)) (vs : list (option num))
  : list Row :=
  match ts, vs with
  | t :: ts', v :: vs' =>
      {| idx := i; time := t; vals := [v] |} :: frame_rows (S i) ts' vs'
  | _, _ => []
  end.

Definition is_not_time (c : string) : bool := negb (c =? "Time")%string.

(** Lines 37-38: drop null [Time], drop duplicate [Time], sort, reindex. *)
Definition basic_checks (l : list Row) : list Row :=
  reset_index (sort_values (drop_duplicates (dropna l))).

(** The labels of the frame after line 12, and the cells under the [Time]
    label and under the other label. *)
Definition stripped_columns (f : CsvFile) : list string :=
  map str_strip (header (content f)).

Definition time_entries (f : CsvFile) : list (option string) :=
  column (index_where (String.eqb "Time") (stripped_columns f)) (body (content f)).

Definition value_entries (f : CsvFile) : list (option string) :=
  column (index_where is_not_time (stripped_columns f)) (body (content f)).

(** [load_trends_csv(path)], lines 8-40.  Selecting a label that two
    columns carry does not give a series, and both [pd.to_datetime] (line
    17) and [pd.to_numeric] (line 34) raise on what it gives. *)
Definition load_trends_csv (f : CsvFile) : result DataFrame :=
  let columns := stripped_columns f in
  if negb (has_label "Time" columns) then
    inl (MissingTimeColumn (fname f) columns)
  else if (1 <? count_label "Time" columns)%nat then
    inl (DuplicateColumnLabel "Time")
  else
    match to_datetime (time_entries f) with
    | inl e => inl e
    | inr time_col =>
        match filter is_not_time columns with
        | [value_col] =>
            let trend_name := str_strip value_col in
            let trend_name_clean := str_title (str_squeeze trend_name) in
            if (trend_name_clean =? "Time")%string then
              inl (DuplicateColumnLabel "Time")
            else
              let value := to_numeric_coerce (value_entries f) in
              inr {| labels := [trend_name_clean];
                     rows := basic_checks (frame_rows 0 time_col value) |}
        | value_cols => inl (AmbiguousValueColumn (fname f) value_cols)
        end
    end.

(** *** Merging on [Time], lines 70-75 *)

(** Column labels of [left.merge(right, on="Time")]: a value label both
    sides carry gets the default suffixes, [_x] on the left and [_y] on the
    right. *)
Definition left_labels (l r : list string) : list string :=
  map (fun c => if has_label c r then (c ++ "_x")%string else c) l.

Definition right_labels (l r : list string) : list string :=
  map (fun c => if has_label c l then (c ++ "_y")%string else c) r.

Definition merge_labels (l r : list string) : list string :=
  left_labels l r ++ right_labels l r.

(** The labels the suffixes have made duplicates, pandas'
    [new[new.duplicated() & ~old.duplicated()]]: the label at a position is
    one when an earlier position of [new] holds it and no earlier position of
    [old] held what it was before. *)
Fixpoint suffix_duplicates (seen_old seen_new old new : list string) : list string :=
  match old, new with
  | o :: old', n :: new' =>
      (if has_label n seen_new && negb (has_label o seen_old) then [n] else []) ++
      suffix_duplicates (o :: seen_old) (n :: seen_new) old' new'
  | _, _ => []
  end.

(** The duplicates on the left and on the right; [Time], which the two
    sides share as the key, takes no suffix and is no duplicate. *)
Definition merge_duplicates (l r : list string) : list string :=
  suffix_duplicates [] [] l (left_labels l r) ++
  suffix_duplicates [] [] r (right_labels l r).

(** The rows of an inner join on [Time]: every left row, in order, with
    every right row of the same [Time]; the entries of the left value
    columns come first. *)
Definition join_rows (L R : list Row) : list Row :=
  flat_map (fun l =>
              map (fun r => {| idx := O; time := time l; vals := vals l ++ vals r |})
                  (filter (same_time l) R)) L.

(** The frame [left.merge(right, on="Time", how="inner")] returns, when it
    returns; the result has a fresh index. *)
Definition merge_result (left right : DataFrame) : DataFrame :=
  {| labels := merge_labels (labels left) (labels right);
     rows := reset_index (join_rows (rows left) (rows right)) |}.

(** [left.merge(right, on="Time", how="inner")], line 72: pandas (2.0 and
    later) raises [MergeError] when the suffixes have made a label a
    duplicate. *)
Definition merge_inner (left right : DataFrame) : result DataFrame :=
  match merge_duplicates (labels left) (labels right) with
  | [] => inr (merge_result left right)
  | duplicates => inl (MergeError duplicates)
  end.

(** The loop of lines 70-72. *)
Fixpoint merge_loop (merged : DataFrame) (dfs : list DataFrame) : result DataFrame :=
  match dfs with
  | [] => inr merged
  | df :: dfs' =>
      match merge_inner merged df with
      | inl e => inl e
      | inr merged' => merge_loop merged' dfs'
      end
  end.

(** Lines 70-75 for [dfs = first :: rest]. *)
Definition merge_all (first : DataFrame) (rest : list DataFrame) : result DataFrame :=
  match merge_loop first rest with
  | inl e => inl e
  | inr merged =>
      inr {| labels := labels merged;
             rows := reset_index (sort_values (rows merged)) |}
  end.

(** What lines 70-75 leave in [merged] when no merge raises. *)
Definition merge_all_result (first : DataFrame) (rest : list DataFrame) : DataFrame :=
  let merged := fold_left merge_result rest first in
  {| labels := labels merged;
     rows := reset_index (sort_values (rows merged)) |}.

(** [dfs[0]] raises on an empty list. *)
Definition merged_of (dfs : list DataFrame) : result DataFrame :=
  match dfs with
  | [] => inl ListIndexOutOfRange
  | first :: rest => merge_all first rest
  end.

(** *** The continuity check, lines 79-85 *)

(** [series.min()] and [series.max()]: nulls are skipped; the result is NaT
    when nothing is left. *)
Fixpoint series_min (ts : list (option Timestamp)) : option Timestamp :=
  match ts with
  | [] => NaT
  | None :: ts' => series_min ts'
  | Some t :: ts' =>
      match series_min ts' with
      | None => Some t
      | Some m => Some (Z.min t m)
      end
  end.

Fixpoint series_max (ts : list (option Timestamp)) : option Timestamp :=
  match ts with
  | [] => NaT
  | None :: ts' => series_max ts'
  | Some t :: ts' =>
      match series_max ts' with
      | None => Some t
      | Some m => Some (Z.max t m)
      end
  end.

(** [pd.date_range(start, end, freq="MS")]: the first days of the months
    from [start] to [end]; it raises when a bound is NaT. *)
Definition date_range_MS (start stop : option Timestamp) : result (list Timestamp) :=
  match start, stop with
  | Some s, Some e =>
      let k0 := if is_month_start s then month_index s else month_index s + 1 in
      let k1 := month_index e in
      inr (map (fun i => month_start (k0 + Z.of_nat i))
               (seq 0 (Z.to_nat (k1 - k0 + 1))))
  | _, _ => inl RangeBoundIsNaT
  end.

(** [(merged["Time"].values == expected.values).all()], evaluated when the
    lengths agree. *)
Fixpoint all_equal (ts : list (option Timestamp)) (expected : list Timestamp) : bool :=
  match ts, expected with
  | t :: ts', e :: expected' => time_eqb t (Some e) && all_equal ts' expected'
  | _, _ => true
  end.

(** [expected.difference(merged["Time"])]; [expected] is ascending and
    without repetition already. *)
Definition difference (expected : list Timestamp) (ts : list (option Timestamp))
  : list Timestamp :=
  filter (fun e => negb (existsb (time_eqb (Some e)) ts)) expected.

(** What the script prints, as far as it is modelled. *)
Inductive Output : Type :=
| FoundRawCsvs (names : list string)
| FoundCsvs (names : list string)
| ContinuityWarning
| MissingMonths (shown : list Timestamp) (ellipsis : bool).

(** Lines 79-85: the lines the check prints, or the exception of
    [pd.date_range]. *)
Definition continuity_check (merged : DataFrame) : result (list Output) :=
  let ts := times (rows merged) in
  match date_range_MS (series_min ts) (series_max ts) with
  | inl e => inl e
  | inr expected =>
      if negb (length expected =? length ts)%nat || negb (all_equal ts expected) then
        let missing := difference expected ts in
        inr (ContinuityWarning ::
             (if (0 <? length missing)%nat
              then [MissingMonths (firstn 10 missing) (10 <? length missing)%nat]
              else []))
      else inr []
  end.

(** *** The long table, line 92 *)

Record LongRow := {
  l_idx : nat;
  l_time : option Timestamp;
  trend : string;
  interest : option num
}.

(** The rows [melt] makes of the value column at position [j]. *)
Definition melt_column (rs : list Row) (j : nat) (name : string) : list LongRow :=
  map (fun r => {| l_idx := O; l_time := time r; trend := name;
                   interest := nth j (vals r) None |}) rs.

Fixpoint melt_columns (rs : list Row) (j : nat) (names : list string) : list LongRow :=
  match names with
  | [] => []
  | name :: names' => melt_column rs j name ++ melt_columns rs (S j) names'
  end.

Fixpoint long_reindex_from (i : nat) (l : list LongRow) : list LongRow :=
  match l with
  | [] => []
  | e :: l' =>
      {| l_idx := i; l_time := l_time e; trend := trend e; interest := interest e |}
        :: long_reindex_from (S i) l'
  end.

(** The long table [melt] returns, when it returns: the value columns one
    after the other, under a fresh index. *)
Definition melted (df : DataFrame) : list LongRow :=
  long_reindex_from 0 (melt_columns (rows df) 0 (labels df)).

(** [merged.melt(id_vars="Time", var_name="Trend", value_name="Interest")]:
    pandas (2.0 and later) raises [ValueError] when [value_name] is a column
    of the frame already. *)
Definition melt (df : DataFrame) : result (list LongRow) :=
  if has_label "Interest" (labels df)
  then inl (ValueNameIsColumn "Interest")
  else inr (melted df).

(** *** The run, lines 46-94 *)

(** What [to_csv(..., index=False)] writes: the labels and the lines,
    without the index. *)
Inductive Written : Type :=
| WideCsv (columns : list string) (lines : list (option Timestamp * list (option num)))
| LongCsv (lines : list (option Timestamp * string * option num)).

Definition wide_csv (df : DataFrame) : Written :=
  WideCsv (labels df) (map (fun r => (time r, vals r)) (rows df)).

Definition long_csv (l : list LongRow) : Written :=
  LongCsv (map (fun e => (l_time e, trend e, interest e)) l).

(** The world the script acts on: the console and the files it has
    written under [data/]. *)
Record World := {
  stdout : list Output;
  disk : list (string * Written)
}.

(** A step of the script: it changes the world and returns or raises. *)
Definition Script (A : Type) : Type := World -> World * result A.

Definition ret {A : Type} (a : A) : Script A := fun w => (w, inr a).

Definition raise {A : Type} (e : Error) : Script A := fun w => (w, inl e).

Definition bind {A B : Type} (c : Script A) (k : A -> Script B) : Script B :=
  fun w =>
    match c w with
    | (w', inl e) => (w', inl e)
    | (w', inr a) => k a w'
    end.

Definition lift {A : Type} (r : result A) : Script A := fun w => (w, r).

Definition print (o : Output) : Script unit :=
  fun w => ({| stdout := stdout w ++ [o]; disk := disk w |}, inr tt).

Definition to_csv (path : string) (t : Written) : Script unit :=
  fun w => ({| stdout := stdout w; disk := (path, t) :: disk w |}, inr tt).

Notation "x <- c ;; k" := (bind c (fun x => k))
  (at level 61, c at next level, right associativity).
Notation "c ;; k" := (bind c (fun _ => k))
  (at level 61, right associativity).

Fixpoint print_all (os : list Output) : Script unit :=
  match os with
  | [] => ret tt
  | o :: os' => print o ;; print_all os'
  end.

(** [[load_trends_csv(f) for f in files]] *)
Fixpoint load_all (files : list CsvFile) : result (list DataFrame) :=
  match files with
  | [] => inr []
  | f :: files' =>
      match load_trends_csv f with
      | inl e => inl e
      | inr df =>
          match load_all files' with
          | inl e => inl e
          | inr dfs => inr (df :: dfs)
          end
      end
  end.

Definition out_wide : string := "data/trends_merged_GB_monthly.csv".
Definition out_long : string := "data/trends_long_GB_monthly.csv".

(** Lines 49-53 and 59-60. *)
Definition require_four (files : list CsvFile) : Script unit :=
  if (length files <? 4)%nat
  then raise (InsufficientInputFiles 4 (length files) (map fname files))
  else ret tt.

(** The script from the glob to the second [to_csv]; [files] is what
    [DATA_DIR.glob("time_series_*.csv")] found. *)
Definition run (files : list CsvFile) : Script unit :=
  require_four files ;;
  print (FoundRawCsvs (map fname files)) ;;
  require_four files ;;
  print (FoundCsvs (map fname files)) ;;
  dfs <- lift (load_all files) ;;
  merged <- lift (merged_of dfs) ;;
  warnings <- lift (continuity_check merged) ;;
  print_all warnings ;;
  to_csv out_wide (wide_csv merged) ;;
  long_df <- lift (melt merged) ;;
  to_csv out_long (long_csv long_df).

Definition fresh_world : World := {| stdout := []; disk := [] |}.

(** The world once both lists of files are printed, lines 55-64. *)
Definition announced (files : list CsvFile) (w : World) : World :=
  {| stdout := (stdout w ++ [FoundRawCsvs (map fname files)])
                 ++ [FoundCsvs (map fname files)];
     disk := disk w |}.

End Frames.

(** ** The statements of the specification, as definitions *)

Section Specification.
Context {RT : Runtime}.

(** A series has unique timestamps. *)
Definition unique_times (df : DataFrame) : Prop := NoDup (times (rows df)).

(** A frame is rectangular: every row has one entry per value label. *)
Definition rectangular (df : DataFrame) : Prop :=
  Forall (fun r => length (vals r) = length (labels df)) (rows df).

(** A canonical series: one value column, unique timestamps. *)
Definition canonical (df : DataFrame) : Prop :=
  length (labels df) = 1%nat /\ rectangular df /\ unique_times df.

(** Ascending order of the [Time] column, nulls last. *)
Definition time_le (a b : option Timestamp) : Prop := time_leb a b = true.
Definition time_lt (a b : option Timestamp) : Prop := time_ltb a b = true.

(** The order of rows by their [Time]. *)
Definition row_le (a b : Row) : Prop := row_leb a b = true.
Definition row_lt (a b : Row) : Prop := time_lt (time a) (time b).

(** What a row holds, the index apart. *)
Definition cells (r : Row) : option Timestamp * list (option num) := (time r, vals r).

(** The first row of a given [Time]. *)
Definition first_at (t : option Timestamp) (l : list Row) : option Row :=
  find (fun x => time_eqb t (time x)) l.

(** The value a series holds at a timestamp, NaN when it has no row there. *)
Definition value_at (df : DataFrame) (t : option Timestamp) : option num :=
  match first_at t (rows df) with
  | Some r => hd None (vals r)
  | None => None
  end.

(** The rows of a frame at a timestamp. *)
Definition rows_at (t : option Timestamp) (l : list Row) : list Row :=
  filter (fun r => time_eqb t (time r)) l.

(** How an entry of the [Time] column reads, and whether it reads at all. *)
Definition read_time (c : option string) : option Timestamp :=
  match c with
  | None => NaT
  | Some s => to_datetime_scalar s
  end.

Definition readable_time (c : option string) : bool :=
  match c with
  | None => true
  | Some s => match to_datetime_scalar s with Some _ => true | None => false end
  end.

(** The frame of a file as it stands after line 34, when every entry of
    the [Time] column reads. *)
Definition parsed_rows (f : CsvFile) : list Row :=
  frame_rows 0 (map read_time (time_entries f)) (to_numeric_coerce (value_entries f)).

(** The header passes lines 15-34: [Time] labels one column, one other
    column remains, and its cleaned label is not [Time] again. *)
Definition header_ok (f : CsvFile) : bool :=
  has_label "Time" (stripped_columns f) &&
  negb (1 <? count_label "Time" (stripped_columns f))%nat &&
  match filter is_not_time (stripped_columns f) with
  | [value_col] => negb (str_title (str_squeeze (str_strip value_col)) =? "Time")%string
  | _ => false
  end.

(** What the specification asks of a file with an unreadable timestamp:
    the load returns a series, and the series has no null timestamp. *)
Definition drops_unreadable_times (f : CsvFile) : Prop :=
  exists df, load_trends_csv f = inr df /\ Forall (fun r => time r <> NaT) (rows df).

(** What the specification asks of a file with non-numeric values: the
    load returns a series, and every line whose timestamp reads has a row
    there, with its value coerced. *)
Definition retains_every_timed_line (f : CsvFile) : Prop :=
  exists df, load_trends_csv f = inr df /\
    forall i tc vc t,
      nth_error (time_entries f) i = Some tc ->
      nth_error (value_entries f) i = Some vc ->
      read_time tc = Some t ->
      exists r, In r (rows df) /\ time r = Some t /\ vals r = [to_numeric_entry vc].

(** The tuples of a long table, without the index. *)
Definition tuples (l : list LongRow) : list (option Timestamp * string * option num) :=
  map (fun e => (l_time e, trend e, interest e)) l.

(** The enumeration the specification words for the long table: the rows in
    their order, and within a row the metric columns in their order. *)
Fixpoint row_tuples (r : Row) (j : nat) (names : list string)
  : list (option Timestamp * string * option num) :=
  match names with
  | [] => []
  | name :: names' => (time r, name, nth j (vals r) None) :: row_tuples r (S j) names'
  end.

Definition tidy_row_major (df : DataFrame)
  : list (option Timestamp * string * option num) :=
  flat_map (fun r => row_tuples r 0 (labels df)) (rows df).








End Specification.

(** ** A runtime for ASCII text

    Dates written YYYY-MM-DD and unsigned decimal integers, with the string
    methods on ASCII text.  The examples below run on it. *)
Module AsciiRuntime.

Import Ascii.

Definition is_space (c : ascii) : bool :=
  let n := nat_of_ascii c in
  ((n =? 32) || ((9 <=? n) && (n <=? 13)))%nat.

Definition is_upper (c : ascii) : bool :=
  let n := nat_of_ascii c in ((65 <=? n) && (n <=? 90))%nat.

Definition is_lower (c : ascii) : bool :=
  let n := nat_of_ascii c in ((97 <=? n) && (n <=? 122))%nat.

Definition to_upper (c : ascii) : ascii :=
  if is_lower c then ascii_of_nat (nat_of_ascii c - 32) else c.

Definition to_lower (c : ascii) : ascii :=
  if is_upper c then ascii_of_nat (nat_of_ascii c + 32) else c.

Fixpoint drop_while (p : ascii -> bool) (l : list ascii) : list ascii :=
  match l with
  | [] => []
  | c :: l' => if p c then drop_while p l' else l
  end.

Definition strip (s : string) : string :=
  string_of_list_ascii
    (rev (drop_while is_space (rev (drop_while is_space (list_ascii_of_string s))))).

(** The maximal runs of characters that are not separators. *)
Fixpoint fields (sep : ascii -> bool) (cur : list ascii) (l : list ascii)
  : list (list ascii) :=
  match l with
  | [] => match cur with [] => [] | _ => [rev cur] end
  | c :: l' =>
      if sep c then
        match cur with
        | [] => fields sep [] l'
        | _ => rev cur :: fields sep [] l'
        end
      else fields sep (c :: cur) l'
  end.

Fixpoint join (sep : ascii) (ws : list (list ascii)) : list ascii :=
  match ws with
  | [] => []
  | [w] => w
  | w :: ws' => w ++ sep :: join sep ws'
  end.

Definition squeeze (s : string) : string :=
  string_of_list_ascii (join " "%char (fields is_space [] (list_ascii_of_string s))).

Fixpoint title_chars (in_word : bool) (l : list ascii) : list ascii :=
  match l with
  | [] => []
  | c :: l' =>
      if is_upper c || is_lower c
      then (if in_word then to_lower c else to_upper c) :: title_chars true l'
      else c :: title_chars false l'
  end.

Definition title (s : string) : string :=
  string_of_list_ascii (title_chars false (list_ascii_of_string s)).

Fixpoint digits (acc : Z) (l : list ascii) : option Z :=
  match l with
  | [] => Some acc
  | c :: l' =>
      let n := nat_of_ascii c in
      if ((48 <=? n) && (n <=? 57))%nat
      then digits (10 * acc + Z.of_nat (n - 48)) l'
      else None
  end.

Definition decimal (l : list ascii) : option Z :=
  match l with
  | [] => None
  | _ => digits 0 l
  end.

Definition parse_decimal (s : string) : option Z :=
  decimal (list_ascii_of_string s).

Definition parse_iso_date (s : string) : option Timestamp :=
  match fields (Ascii.eqb "-"%char) [] (list_ascii_of_string s) with
  | [ys; ms; ds] =>
      match decimal ys, decimal ms, decimal ds with
      | Some y, Some m, Some d =>
          let t := days_from_civil y m d in
          let '(y', m', d') := civil_from_days t in
          if (y' =? y) && (m' =? m) && (d' =? d) then Some t else None
      | _, _, _ => None
      end
  | _ => None
  end.

#[export] Instance ascii_runtime : Runtime := {|
  num := Z;
  str_strip := strip;
  str_squeeze := squeeze;
  str_title := title;
  to_datetime_scalar := parse_iso_date;
  to_numeric_scalar := parse_decimal
|}.

End AsciiRuntime.

(** ** Example files *)

Module Examples.

Import AsciiRuntime.

Definition csv (name label : string) (lines : list (string * string)) : CsvFile :=
  {| fname := name;
     content := {| header := ["Time"; label]%string;
                   body := map (fun '(t, v) => [Some t; Some v]) lines |} |}.

(** An export with an empty timestamp, a repeated timestamp, two entries
    that are not numbers, and lines out of order. *)
Definition jeans_csv : CsvFile :=
  {| fname := "time_series_jeans.csv";
     content := {| header := ["Time"; " skinny  jeans "]%string;
                   body := [ [Some "2020-01-01"; Some "5"];
                             [Some "2020-02-01"; Some "<1"];
                             [None; Some "9"];
                             [Some "2020-01-01"; Some "N/A"];
                             [Some "2019-12-01"; Some "7"] ]%string |} |}.

(** An export with one entry in the [Time] column that is not a date. *)
Definition soon_csv : CsvFile :=
  csv "time_series_soon.csv" "jeans"
      [("2020-01-01", "5"); ("soon", "7")]%string.

(** An export whose second line repeats the timestamp of the first and
    carries a value that is not a number. *)
Definition repeat_csv : CsvFile :=
  csv "time_series_repeat.csv" "jeans"
      [("2020-01-01", "5"); ("2020-01-01", "N/A")]%string.

(** Four exports; the last shares no month with the others. *)
Definition jan_mar_csv : CsvFile :=
  csv "time_series_a.csv" "boots"
      [("2020-01-01", "1"); ("2020-02-01", "2"); ("2020-03-01", "3")]%string.

Definition feb_apr_csv : CsvFile :=
  csv "time_series_b.csv" "scarf"
      [("2020-02-01", "10"); ("2020-03-01", "20"); ("2020-04-01", "30")]%string.

Definition jan_apr_csv : CsvFile :=
  csv "time_series_c.csv" "coat"
      [("2020-01-01", "4"); ("2020-02-01", "5"); ("2020-03-01", "6");
       ("2020-04-01", "7")]%string.

Definition feb_mar_csv : CsvFile :=
  csv "time_series_d.csv" "hat"
      [("2020-03-01", "8"); ("2020-02-01", "9")]%string.

Definition summer_csv : CsvFile :=
  csv "time_series_e.csv" "sandals"
      [("2020-07-01", "50"); ("2020-08-01", "60")]%string.

Definition overlapping_files : list CsvFile :=
  [jan_mar_csv; feb_apr_csv; jan_apr_csv; feb_mar_csv].

Definition disjoint_files : list CsvFile :=
  [jan_mar_csv; feb_apr_csv; jan_apr_csv; summer_csv].

(** The canonical series of the four exports and of the summer export. *)
Definition series (label : string) (entries : list (Timestamp * Z)) : DataFrame :=
  {| labels := [label];
     rows := reset_index
               (map (fun '(t, v) => {| idx := O; time := Some t; vals := [Some v] |})
                    entries) |}.

Definition boots : DataFrame := series "Boots" [(18262, 1); (18293, 2); (18322, 3)].
Definition scarf : DataFrame := series "Scarf" [(18293, 10); (18322, 20); (18353, 30)].
Definition coat : DataFrame :=
  series "Coat" [(18262, 4); (18293, 5); (18322, 6); (18353, 7)].
Definition hat : DataFrame := series "Hat" [(18293, 9); (18322, 8)].
Definition sandals : DataFrame := series "Sandals" [(18444, 50); (18475, 60)].

(** The canonical series of [jeans_csv]. *)
Definition skinny_jeans : DataFrame :=
  {| labels := ["Skinny Jeans"%string];
     rows := [ {| idx := 0; time := Some 18231; vals := [Some 7] |};
               {| idx := 1; time := Some 18262; vals := [Some 5] |};
               {| idx := 2; time := Some 18293; vals := [None] |} ] |}.

(** An export with two value columns, and the same with two entries of
    the [Time] column that are not dates. *)
Definition two_metrics_csv : CsvFile :=
  {| fname := "time_series_two.csv";
     content := {| header := ["Time"; "boots"; "scarf"]%string;
                   body := [ [Some "2020-01-01"; Some "1"; Some "10"];
                             [Some "2020-02-01"; Some "2"; Some "20"] ]%string |} |}.

Definition two_metrics_soon_csv : CsvFile :=
  {| fname := "time_series_two.csv";
     content := {| header := ["Time"; "boots"; "scarf"]%string;
                   body := [ [Some "2020-01-01"; Some "1"; Some "10"];
                             [Some "soon"; Some "2"; Some "20"];
                             [Some "later"; Some "3"; Some "30"] ]%string |} |}.

(** The lines of [feb_mar_csv] in ascending order. *)
Definition mar_feb_sorted_csv : CsvFile :=
  csv "time_series_d.csv" "hat"
      [("2020-02-01", "9"); ("2020-03-01", "8")]%string.

(** January and March, without February. *)
Definition jan_and_mar : DataFrame := series "Boots" [(18262, 1); (18322, 3)].

(** The merged table of [overlapping_files]: February and March 2020. *)
Definition four_wide : DataFrame :=
  {| labels := ["Boots"; "Scarf"; "Coat"; "Hat"]%string;
     rows := [ {| idx := 0; time := Some 18293;
                  vals := [Some 2; Some 10; Some 5; Some 9] |};
               {| idx := 1; time := Some 18322;
                  vals := [Some 3; Some 20; Some 6; Some 8] |} ] |}.

(** The world after the run on [overlapping_files]. *)
Definition after_overlapping : World := fst (run overlapping_files fresh_world).

(** The merged table of [boots] and [sandals], which share no month. *)
Definition boots_sandals : DataFrame :=
  {| labels := ["Boots"; "Sandals"]%string; rows := [] |}.

(** Four exports of one trend name, and their canonical series. *)
Definition boots_north_csv : CsvFile :=
  csv "time_series_f.csv" "boots" [("2020-02-01", "11"); ("2020-03-01", "12")]%string.

Definition boots_south_csv : CsvFile :=
  csv "time_series_g.csv" "boots" [("2020-02-01", "21"); ("2020-03-01", "22")]%string.

Definition boots_west_csv : CsvFile :=
  csv "time_series_h.csv" "boots" [("2020-02-01", "31"); ("2020-03-01", "32")]%string.

Definition same_name_files : list CsvFile :=
  [jan_mar_csv; boots_north_csv; boots_south_csv; boots_west_csv].

Definition boots_north : DataFrame := series "Boots" [(18293, 11); (18322, 12)].
Definition boots_south : DataFrame := series "Boots" [(18293, 21); (18322, 22)].
Definition boots_west : DataFrame := series "Boots" [(18293, 31); (18322, 32)].

(** An export whose value column is headed [interest], with three of the
    exports above; the merged table of the four, and the world after the
    run on them. *)
Definition interest_csv : CsvFile :=
  csv "time_series_i.csv" "interest" [("2020-02-01", "40"); ("2020-03-01", "41")]%string.

Definition interest_files : list CsvFile :=
  [jan_mar_csv; feb_apr_csv; jan_apr_csv; interest_csv].


Definition interest_wide : DataFrame :=
  {| labels := ["Boots"; "Scarf"; "Coat"; "Interest"]%string;
     rows := [ {| idx := 0; time := Some 18293;
                  vals := [Some 2; Some 10; Some 5; Some 40] |};
               {| idx := 1; time := Some 18322;
                  vals := [Some 3; Some 20; Some 6; Some 41] |} ] |}.

Definition after_interest : World := fst (run interest_files fresh_world).

(** Two frames with a repeated timestamp: February 2020 twice on the left,
    three times on the right. *)
Definition two_februaries : DataFrame :=
  {| labels := ["Boots"%string];
     rows := [ {| idx := 0; time := Some 18293; vals := [Some 1] |};
               {| idx := 1; time := Some 18293; vals := [Some 2] |};
               {| idx := 2; time := Some 18322; vals := [Some 3] |} ] |}.

Definition three_februaries : DataFrame :=
  {| labels := ["Scarf"%string];
     rows := [ {| idx := 0; time := Some 18293; vals := [Some 10] |};
               {| idx := 1; time := Some 18293; vals := [Some 20] |};
               {| idx := 2; time := Some 18293; vals := [Some 30] |} ] |}.

End Examples.

(** * Proofs *)

(** ** Timestamps as keys *)

Lemma time_eqb_eq (a b : option Timestamp) : time_eqb a b = true <-> a = b.
Proof.
  destruct a as [x|], b as [y|]; simpl; split; intro H;
    try discriminate; try reflexivity.
  - apply Z.eqb_eq in H. now subst.
  - inversion H. apply Z.eqb_refl.
Qed.

Lemma time_eqb_refl (a : option Timestamp) : time_eqb a a = true.
Proof. now apply time_eqb_eq. Qed.

Lemma time_eqb_neq (a b : option Timestamp) : time_eqb a b = false <-> a <> b.
Proof.
  rewrite <- time_eqb_eq. destruct (time_eqb a b); split; congruence.
Qed.

Lemma time_eqb_sym (a b : option Timestamp) : time_eqb a b = time_eqb b a.
Proof.
  destruct (time_eqb b a) eqn:E.
  - apply time_eqb_eq. apply time_eqb_eq in E. now symmetry.
  - apply time_eqb_neq. apply time_eqb_neq in E. congruence.
Qed.

Lemma time_leb_refl (a : option Timestamp) : time_leb a a = true.
Proof. destruct a; simpl; [apply Z.leb_refl | reflexivity]. Qed.

Lemma time_leb_trans (a b c : option Timestamp) :
  time_leb a b = true -> time_leb b c = true -> time_leb a c = true.
Proof.
  destruct a, b, c; simpl; try congruence; rewrite ?Z.leb_le; lia.
Qed.

Lemma time_leb_total (a b : option Timestamp) :
  time_leb a b = true \/ time_leb b a = true.
Proof.
  destruct a as [x|], b as [y|]; simpl; auto.
  destruct (Z.leb_spec x y); [now left | right]. apply Z.leb_le. lia.
Qed.

Lemma time_leb_antisym (a b : option Timestamp) :
  time_leb a b = true -> time_leb b a = true -> a = b.
Proof.
  destruct a, b; simpl; try congruence. rewrite !Z.leb_le. intros. f_equal. lia.
Qed.

Lemma time_leb_false (a b : option Timestamp) :
  time_leb a b = false -> time_ltb b a = true.
Proof.
  unfold time_ltb. destruct a as [x|], b as [y|]; simpl; try congruence.
  rewrite Z.leb_gt. intro H. apply andb_true_iff. split.
  - apply Z.leb_le. lia.
  - apply negb_true_iff, Z.eqb_neq. lia.
Qed.

Lemma time_ltb_leb (a b : option Timestamp) :
  time_ltb a b = true -> time_leb a b = true.
Proof. unfold time_ltb. intro H. now apply andb_true_iff in H. Qed.

Lemma time_ltb_neq (a b : option Timestamp) : time_ltb a b = true -> a <> b.
Proof.
  unfold time_ltb. intro H. apply andb_true_iff in H. destruct H as [_ H].
  apply negb_true_iff in H. now apply time_eqb_neq.
Qed.

Lemma time_ltb_intro (a b : option Timestamp) :
  time_leb a b = true -> a <> b -> time_ltb a b = true.
Proof.
  intros H N. unfold time_ltb. rewrite H. simpl.
  apply negb_true_iff. now apply time_eqb_neq.
Qed.

(** ** First occurrences *)

Section KeepFirst.
Context {A K : Type} (key : A -> K) (keqb : K -> K -> bool).
Hypothesis keqb_eq : forall a b, keqb a b = true <-> a = b.

Let same (x y : A) : bool := keqb (key x) (key y).

Lemma keep_first_incl (l : list A) : incl (keep_first same l) l.
Proof.
  induction l as [|x l IH]; simpl; intros y Hy; [easy|].
  destruct Hy as [->|Hy]; [now left|].
  right. apply IH. now apply filter_In in Hy.
Qed.

Lemma keep_first_length (l : list A) : (length (keep_first same l) <= length l)%nat.
Proof.
  induction l as [|x l IH]; simpl; [lia|].
  pose proof (filter_length_le (fun y => negb (same x y)) (keep_first same l)). lia.
Qed.

Lemma keep_first_keys (l : list A) (k : K) :
  In k (map key (keep_first same l)) <-> In k (map key l).
Proof.
  induction l as [|x l IH]; simpl; [tauto|].
  split.
  - intros [H|H]; [now left|]. right. apply IH.
    apply in_map_iff in H. destruct H as (y & <- & Hy).
    apply filter_In in Hy. apply in_map. tauto.
  - intros [H|H]; [now left|].
    destruct (keqb (key x) k) eqn:E.
    + left. now apply keqb_eq.
    + right. apply IH in H. apply in_map_iff in H. destruct H as (y & <- & Hy).
      apply in_map. apply filter_In. split; [assumption|].
      unfold same. now rewrite E.
Qed.

Lemma keep_first_NoDup (l : list A) : NoDup (map key (keep_first same l)).
Proof.
  induction l as [|x l IH]; simpl; constructor.
  - intro H. apply in_map_iff in H. destruct H as (y & Hk & Hy).
    apply filter_In in Hy. destruct Hy as [_ Hy].
    unfold same in Hy. apply negb_true_iff in Hy.
    assert (keqb (key x) (key y) = true) by (apply keqb_eq; congruence).
    congruence.
  - clear -IH. induction (keep_first same l) as [|y m IHm]; simpl; [constructor|].
    inversion IH; subst.
    destruct (negb (same x y)); simpl; auto.
    constructor; auto.
    intro H. apply H1. apply in_map_iff in H. destruct H as (z & Hz & Hin).
    apply filter_In in Hin. apply in_map_iff. exists z. tauto.
Qed.

(** A list without repeated keys is its own list of first occurrences. *)
Lemma keep_first_id (l : list A) : NoDup (map key l) -> keep_first same l = l.
Proof.
  induction l as [|x l IH]; simpl; intro H; [reflexivity|].
  inversion H; subst. rewrite IH by assumption. f_equal.
  apply forallb_filter_id. apply forallb_forall. intros y Hy.
  apply negb_true_iff. unfold same.
  destruct (keqb (key x) (key y)) eqn:E; [|reflexivity].
  apply keqb_eq in E. exfalso. apply H2. rewrite E. now apply in_map.
Qed.

(** The first element of a key is the same before and after. *)
Lemma keep_first_find (l : list A) (k : K) :
  find (fun x => keqb k (key x)) (keep_first same l) = find (fun x => keqb k (key x)) l.
Proof.
  induction l as [|x l IH]; simpl; [reflexivity|].
  destruct (keqb k (key x)) eqn:E; [reflexivity|].
  rewrite <- IH. clear IH.
  induction (keep_first same l) as [|y m IHm]; simpl; [reflexivity|].
  destruct (negb (same x y)) eqn:F; simpl.
  - now rewrite IHm.
  - destruct (keqb k (key y)) eqn:G; [|assumption].
    exfalso. apply negb_false_iff in F. unfold same in F.
    apply keqb_eq in F, G. subst k. rewrite F in E.
    assert (keqb (key y) (key y) = true) by now apply keqb_eq. congruence.
Qed.

End KeepFirst.

(** ** Sorting by a key *)

Section SortBy.
Context {A K : Type} (key : A -> K) (kleb keqb : K -> K -> bool).
Hypothesis keqb_eq : forall a b, keqb a b = true <-> a = b.
Hypothesis kleb_refl : forall a, kleb a a = true.
Hypothesis kleb_total : forall a b, kleb a b = true \/ kleb b a = true.
Hypothesis kleb_trans : forall a b c, kleb a b = true -> kleb b c = true -> kleb a c = true.

Let leb (x y : A) : bool := kleb (key x) (key y).
Let le (x y : A) : Prop := leb x y = true.

Lemma insert_by_perm (x : A) (l : list A) : Permutation (insert_by leb x l) (x :: l).
Proof.
  induction l as [|y l IH]; simpl; [reflexivity|].
  destruct (leb x y); [reflexivity|].
  rewrite IH. apply perm_swap.
Qed.

Lemma sort_by_perm (l : list A) : Permutation (sort_by leb l) l.
Proof.
  induction l as [|x l IH]; simpl; [reflexivity|].
  unfold sort_by in *. simpl. rewrite insert_by_perm. now constructor.
Qed.

Lemma sort_by_length (l : list A) : length (sort_by leb l) = length l.
Proof. apply Permutation_length, sort_by_perm. Qed.


Lemma insert_by_sorted (x : A) (l : list A) :
  StronglySorted le l -> StronglySorted le (insert_by leb x l).
Proof.
  induction 1 as [|y l Hl IH Hy]; simpl.
  - repeat constructor.
  - destruct (leb x y) eqn:E.
    + constructor; [now constructor|].
      constructor; [exact E|].
      eapply Forall_impl; [|exact Hy]. intros z Hz.
      unfold le, leb in *. eauto.
    + constructor; [exact IH|].
      assert (Hyx : le y x).
      { unfold le, leb in *. destruct (kleb_total (key x) (key y)); congruence. }
      eapply Permutation_Forall; [symmetry; apply insert_by_perm|].
      now constructor.
Qed.

Lemma sort_by_sorted (l : list A) : StronglySorted le (sort_by leb l).
Proof.
  induction l as [|x l IH]; [constructor|].
  unfold sort_by in *. simpl. now apply insert_by_sorted.
Qed.

(** Sorting what is sorted changes nothing. *)
Lemma sort_by_id (l : list A) : StronglySorted le l -> sort_by leb l = l.
Proof.
  induction 1 as [|x l Hl IH Hx]; [reflexivity|].
  unfold sort_by in *. simpl. rewrite IH.
  destruct l as [|y l]; [reflexivity|]. simpl.
  inversion Hx; subst. unfold le in H1. now rewrite H1.
Qed.

(** The sort is stable: the first element of a key is the same before and
    after. *)
Lemma insert_by_find (x : A) (l : list A) (k : K) :
  find (fun z => keqb k (key z)) (insert_by leb x l) =
  if keqb k (key x) then Some x else find (fun z => keqb k (key z)) l.
Proof.
  induction l as [|y l IH]; simpl; [reflexivity|].
  destruct (leb x y) eqn:E; simpl; [reflexivity|].
  rewrite IH.
  destruct (keqb k (key y)) eqn:Fy; [|reflexivity].
  destruct (keqb k (key x)) eqn:Fx; [|reflexivity].
  exfalso. apply keqb_eq in Fx, Fy. unfold leb in E.
  rewrite <- Fx, <- Fy, kleb_refl in E. discriminate.
Qed.

Lemma sort_by_find (l : list A) (k : K) :
  find (fun z => keqb k (key z)) (sort_by leb l) = find (fun z => keqb k (key z)) l.
Proof.
  induction l as [|x l IH]; [reflexivity|].
  unfold sort_by in *. simpl. rewrite insert_by_find, IH. reflexivity.
Qed.

Lemma filter_sorted (p : A -> bool) (l : list A) :
  StronglySorted le l -> StronglySorted le (filter p l).
Proof.
  induction 1 as [|x l Hl IH Hx]; simpl; [constructor|].
  destruct (p x); [|assumption].
  constructor; [assumption|].
  apply Forall_forall. intros y Hy. apply filter_In in Hy.
  rewrite Forall_forall in Hx. now apply Hx.
Qed.

Lemma keep_first_sorted (same : A -> A -> bool) (l : list A) :
  StronglySorted le l -> StronglySorted le (keep_first same l).
Proof.
  induction 1 as [|x l Hl IH Hx]; simpl; [constructor|].
  constructor.
  - now apply filter_sorted.
  - apply Forall_forall. intros y Hy. apply filter_In in Hy. destruct Hy as [Hy _].
    rewrite Forall_forall in Hx. apply Hx.
    clear -Hy. revert y Hy. induction l as [|z l IH]; simpl; intros y Hy; [easy|].
    destruct Hy as [->|Hy]; [now left|]. right. apply IH.
    now apply filter_In in Hy.
Qed.

End SortBy.

(** ** Rows: index, order, first occurrences *)

Section RowFacts.
Context {RT : Runtime}.

Lemma reindex_from_times (i : nat) (l : list Row) : times (reindex_from i l) = times l.
Proof. revert i. induction l as [|r l IH]; intro i; simpl; [|rewrite IH]; reflexivity. Qed.

Lemma reindex_from_cells (i : nat) (l : list Row) :
  map cells (reindex_from i l) = map cells l.
Proof. revert i. induction l as [|r l IH]; intro i; simpl; [|rewrite IH]; reflexivity. Qed.


Lemma reindex_from_length (i : nat) (l : list Row) :
  length (reindex_from i l) = length l.
Proof. revert i. induction l as [|r l IH]; intro i; simpl; [|rewrite IH]; reflexivity. Qed.

Lemma reindex_from_idx (i : nat) (l : list Row) :
  map idx (reindex_from i l) = seq i (length l).
Proof. revert i. induction l as [|r l IH]; intro i; simpl; [|rewrite IH]; reflexivity. Qed.

Lemma reset_index_times (l : list Row) : times (reset_index l) = times l.
Proof. apply reindex_from_times. Qed.

Lemma reset_index_cells (l : list Row) : map cells (reset_index l) = map cells l.
Proof. apply reindex_from_cells. Qed.

Lemma reset_index_length (l : list Row) : length (reset_index l) = length l.
Proof. apply reindex_from_length. Qed.

Lemma reset_index_idx (l : list Row) :
  map idx (reset_index l) = seq 0 (length (reset_index l)).
Proof. unfold reset_index. now rewrite reindex_from_idx, reindex_from_length. Qed.

Lemma reindex_from_Forall_vals (P : list (option num) -> Prop) (i : nat) (l : list Row) :
  Forall (fun r => P (vals r)) l -> Forall (fun r => P (vals r)) (reindex_from i l).
Proof.
  intro H. revert i. induction H as [|r l Hr Hl IH]; intro i; simpl; constructor; auto.
Qed.

Lemma sort_values_perm (l : list Row) : Permutation (sort_values l) l.
Proof.
  exact (sort_by_perm time time_leb l).
Qed.

Lemma sort_values_times_perm (l : list Row) :
  Permutation (times (sort_values l)) (times l).
Proof. apply Permutation_map, sort_values_perm. Qed.

Lemma sort_values_sorted (l : list Row) : StronglySorted row_le (sort_values l).
Proof.
  exact (sort_by_sorted time time_leb time_leb_total time_leb_trans l).
Qed.

Lemma sort_values_first_at (l : list Row) (t : option Timestamp) :
  first_at t (sort_values l) = first_at t l.
Proof.
  exact (sort_by_find time time_leb time_eqb time_eqb_eq time_leb_refl l t).
Qed.

Lemma drop_duplicates_first_at (l : list Row) (t : option Timestamp) :
  first_at t (drop_duplicates l) = first_at t l.
Proof.
  exact (keep_first_find time time_eqb time_eqb_eq l t).
Qed.

Lemma drop_duplicates_NoDup (l : list Row) : NoDup (times (drop_duplicates l)).
Proof.
  exact (keep_first_NoDup time time_eqb time_eqb_eq l).
Qed.

Lemma drop_duplicates_times (l : list Row) (t : option Timestamp) :
  In t (times (drop_duplicates l)) <-> In t (times l).
Proof.
  exact (keep_first_keys time time_eqb time_eqb_eq l t).
Qed.

Lemma drop_duplicates_id (l : list Row) : NoDup (times l) -> drop_duplicates l = l.
Proof.
  exact (keep_first_id time time_eqb time_eqb_eq l).
Qed.

(** Ascending without repetition is strictly ascending. *)
Lemma sorted_NoDup_strict (l : list Row) :
  StronglySorted row_le l -> NoDup (times l) -> StronglySorted row_lt l.
Proof.
  induction 1 as [|x l Hl IH Hx]; simpl; intro N; [constructor|].
  inversion N; subst. constructor; [auto|].
  apply Forall_forall. intros y Hy. rewrite Forall_forall in Hx.
  apply time_ltb_intro; [now apply Hx|].
  intro E. apply H1. rewrite E. now apply in_map.
Qed.


Lemma strict_sorted_le (l : list Row) : StronglySorted row_lt l -> StronglySorted row_le l.
Proof.
  induction 1 as [|x l Hl IH Hx]; constructor; [assumption|].
  eapply Forall_impl; [|exact Hx]. intros y Hy. now apply time_ltb_leb.
Qed.

Lemma sorted_times (R : option Timestamp -> option Timestamp -> Prop) (l : list Row) :
  StronglySorted (fun a b => R (time a) (time b)) l <-> StronglySorted R (times l).
Proof.
  induction l as [|x l IH]; simpl; split; intro H; try constructor;
    inversion H; subst.
  - now apply IH.
  - apply Forall_forall. intros t Ht. apply in_map_iff in Ht.
    destruct Ht as (y & <- & Hy). rewrite Forall_forall in H3. now apply H3.
  - now apply IH.
  - apply Forall_forall. intros y Hy. rewrite Forall_forall in H3.
    apply H3. now apply in_map.
Qed.

Lemma first_at_above (a : Row) (l : list Row) :
  Forall (row_lt a) l -> first_at (time a) l = None.
Proof.
  induction 1 as [|y l Hy Hl IH]; simpl; [reflexivity|].
  apply time_ltb_neq in Hy. apply time_eqb_neq in Hy. now rewrite Hy.
Qed.

Lemma first_at_In (t : option Timestamp) (l : list Row) (r : Row) :
  first_at t l = Some r -> In r l /\ time r = t.
Proof.
  intro H. apply find_some in H. destruct H as [H E].
  apply time_eqb_eq in E. auto.
Qed.

(** Two strictly ascending lists with the same first row at every
    timestamp are the same list. *)
Lemma strict_sorted_ext (l1 l2 : list Row) :
  StronglySorted row_lt l1 -> StronglySorted row_lt l2 ->
  (forall t, first_at t l1 = first_at t l2) -> l1 = l2.
Proof.
  intro S1. revert l2. induction S1 as [|a l1 S1 IH Ha]; intros l2 S2 H.
  - destruct l2 as [|b l2]; [reflexivity|].
    specialize (H (time b)). simpl in H. rewrite time_eqb_refl in H. discriminate.
  - destruct S2 as [|b l2 S2 Hb].
    + specialize (H (time a)). simpl in H. rewrite time_eqb_refl in H. discriminate.
    + assert (E : a = b).
      { pose proof (H (time a)) as H1. pose proof (H (time b)) as H2.
        simpl in H1, H2. rewrite time_eqb_refl in H1, H2.
        destruct (time_eqb (time a) (time b)) eqn:Eab; [congruence|].
        rewrite time_eqb_sym, Eab in H2.
        symmetry in H1. apply first_at_In in H1. apply first_at_In in H2.
        destruct H1 as [H1 _], H2 as [H2 _].
        rewrite Forall_forall in Ha, Hb. apply Ha in H2. apply Hb in H1.
        apply time_ltb_leb in H1, H2. apply time_eqb_neq in Eab.
        exfalso. apply Eab. now apply time_leb_antisym. }
      subst b. f_equal. apply IH; [assumption|].
      intro t. specialize (H t). simpl in H.
      destruct (time_eqb t (time a)) eqn:Et; [|assumption].
      apply time_eqb_eq in Et. subst t.
      now rewrite !first_at_above.
Qed.

(** Dropping duplicates and then sorting, as line 38 does, gives what
    sorting and then keeping the first row of every group gives. *)
Lemma sort_drop_duplicates (l : list Row) :
  sort_values (drop_duplicates l) = drop_duplicates (sort_values l).
Proof.
  apply strict_sorted_ext.
  - apply sorted_NoDup_strict; [apply sort_values_sorted|].
    eapply Permutation_NoDup; [symmetry; apply sort_values_times_perm|].
    apply drop_duplicates_NoDup.
  - apply sorted_NoDup_strict; [|apply drop_duplicates_NoDup].
    apply (keep_first_sorted time time_leb). apply sort_values_sorted.
  - intro t.
    now rewrite sort_values_first_at, !drop_duplicates_first_at, sort_values_first_at.
Qed.

End RowFacts.

(** ** The loader *)

Section LoaderFacts.
Context {RT : Runtime}.

Lemma to_datetime_inr (col : list (option string)) (ts : list (option Timestamp)) :
  to_datetime col = inr ts ->
  ts = map read_time col /\ forallb readable_time col = true.
Proof.
  revert ts. induction col as [|c col IH]; simpl; intros ts H.
  - inversion H. auto.
  - destruct c as [s|].
    + destruct (to_datetime_scalar s) as [t|] eqn:E; [|discriminate].
      destruct (to_datetime col) as [e|ts']; [discriminate|].
      inversion H; subst. destruct (IH ts' eq_refl) as [E1 E2].
      simpl. rewrite E, E2, <- E1. auto.
    + destruct (to_datetime col) as [e|ts']; [discriminate|].
      inversion H; subst. destruct (IH ts' eq_refl) as [E1 E2].
      simpl. rewrite E2, <- E1. auto.
Qed.

Lemma to_datetime_inl (col : list (option string)) (e : Error) :
  to_datetime col = inl e ->
  exists s, e = UnparsableTimestamp s /\ In (Some s) col /\ to_datetime_scalar s = None.
Proof.
  induction col as [|c col IH]; simpl; intro H; [discriminate|].
  destruct c as [s|].
  - destruct (to_datetime_scalar s) as [t|] eqn:E.
    + destruct (to_datetime col) as [e'|ts']; [|discriminate].
      inversion H; subst. destruct (IH eq_refl) as (s' & ? & ? & ?).
      exists s'. auto.
    + inversion H; subst. exists s. auto.
  - destruct (to_datetime col) as [e'|ts']; [|discriminate].
    inversion H; subst. destruct (IH eq_refl) as (s' & ? & ? & ?).
    exists s'. auto.
Qed.

Lemma to_datetime_readable (col : list (option string)) :
  forallb readable_time col = true -> to_datetime col = inr (map read_time col).
Proof.
  induction col as [|c col IH]; simpl; intro H; [reflexivity|].
  apply andb_true_iff in H. destruct H as [Hc H]. rewrite (IH H).
  destruct c as [s|]; simpl in *; [|reflexivity].
  destruct (to_datetime_scalar s); [reflexivity|discriminate].
Qed.

Lemma to_datetime_is_ok (col : list (option string)) :
  is_ok (to_datetime col) = forallb readable_time col.
Proof.
  destruct (forallb readable_time col) eqn:E.
  - now rewrite to_datetime_readable.
  - destruct (to_datetime col) as [e|ts] eqn:F; [reflexivity|].
    apply to_datetime_inr in F. destruct F. congruence.
Qed.

(** Past the header, the load is the parse of the [Time] column followed
    by the basic checks. *)
Lemma load_header_ok (f : CsvFile) :
  header_ok f = true ->
  exists label,
    load_trends_csv f =
    match to_datetime (time_entries f) with
    | inl e => inl e
    | inr ts => inr {| labels := [label];
                       rows := basic_checks
                                 (frame_rows 0 ts (to_numeric_coerce (value_entries f))) |}
    end.
Proof.
  unfold header_ok, load_trends_csv. intro H.
  apply andb_true_iff in H. destruct H as [H H3].
  apply andb_true_iff in H. destruct H as [H1 H2].
  rewrite H1. simpl. apply negb_true_iff in H2. rewrite H2.
  destruct (filter is_not_time (stripped_columns f)) as [|v [|v' vs]]; try discriminate.
  apply negb_true_iff in H3. rewrite H3.
  eexists. reflexivity.
Qed.

Lemma load_inr (f : CsvFile) (df : DataFrame) :
  load_trends_csv f = inr df ->
  header_ok f = true /\
  forallb readable_time (time_entries f) = true /\
  length (labels df) = 1%nat /\
  rows df = basic_checks (parsed_rows f).
Proof.
  unfold load_trends_csv, header_ok, parsed_rows. intro H.
  destruct (has_label "Time" (stripped_columns f)); simpl in *; [|discriminate].
  destruct (1 <? count_label "Time" (stripped_columns f))%nat; simpl in *; [discriminate|].
  destruct (to_datetime (time_entries f)) as [e|ts] eqn:E; [discriminate|].
  apply to_datetime_inr in E. destruct E as [-> E].
  destruct (filter is_not_time (stripped_columns f)) as [|v [|v' vs]]; try discriminate.
  destruct (str_title (str_squeeze (str_strip v)) =? "Time")%string; [discriminate|].
  inversion H; subst. simpl. auto.
Qed.

Lemma load_readable (f : CsvFile) :
  header_ok f = true ->
  forallb readable_time (time_entries f) = true ->
  exists df, load_trends_csv f = inr df.
Proof.
  intros H R. destruct (load_header_ok f H) as (label & ->).
  rewrite (to_datetime_readable _ R). eauto.
Qed.

Lemma load_is_ok (f : CsvFile) :
  header_ok f = true ->
  is_ok (load_trends_csv f) = forallb readable_time (time_entries f).
Proof.
  intro H. destruct (load_header_ok f H) as (label & ->).
  rewrite <- to_datetime_is_ok. now destruct (to_datetime (time_entries f)).
Qed.

(** *** The basic checks *)

Lemma dropna_In (l : list Row) (r : Row) :
  In r (dropna l) <-> In r l /\ time r <> NaT.
Proof.
  unfold dropna. rewrite filter_In. unfold NaT.
  destruct (time r); intuition congruence.
Qed.

Lemma dropna_first_at (l : list Row) (t : Timestamp) :
  first_at (Some t) (dropna l) = first_at (Some t) l.
Proof.
  induction l as [|r l IH]; simpl; [reflexivity|].
  destruct (time r) as [x|] eqn:E; simpl.
  - rewrite E, IH. reflexivity.
  - exact IH.
Qed.

Lemma reindex_from_first_at (i : nat) (l : list Row) (t : option Timestamp) :
  option_map cells (first_at t (reindex_from i l)) = option_map cells (first_at t l).
Proof.
  revert i. induction l as [|r l IH]; intro i; simpl; [reflexivity|].
  destruct (time_eqb t (time r)); [reflexivity|apply IH].
Qed.

Lemma basic_checks_first_at (l : list Row) (t : Timestamp) :
  option_map cells (first_at (Some t) (basic_checks l)) =
  option_map cells (first_at (Some t) l).
Proof.
  unfold basic_checks, reset_index.
  now rewrite reindex_from_first_at, sort_values_first_at,
    drop_duplicates_first_at, dropna_first_at.
Qed.

Lemma basic_checks_times (l : list Row) (t : option Timestamp) :
  In t (times (basic_checks l)) <-> t <> NaT /\ In t (times l).
Proof.
  unfold basic_checks. rewrite reset_index_times.
  assert (H : In t (times (sort_values (drop_duplicates (dropna l)))) <->
              In t (times (dropna l))).
  { rewrite <- (drop_duplicates_times (dropna l)). split; apply Permutation_in;
      [|symmetry]; apply sort_values_times_perm. }
  rewrite H. unfold times. rewrite !in_map_iff. split.
  - intros (r & <- & Hr). apply dropna_In in Hr. destruct Hr. split; eauto.
  - intros (N & r & <- & Hr). exists r. split; [reflexivity|]. now apply dropna_In.
Qed.

Lemma basic_checks_NoDup (l : list Row) : NoDup (times (basic_checks l)).
Proof.
  unfold basic_checks. rewrite reset_index_times.
  eapply Permutation_NoDup; [symmetry; apply sort_values_times_perm|].
  apply drop_duplicates_NoDup.
Qed.

Lemma basic_checks_strict (l : list Row) :
  StronglySorted time_lt (times (basic_checks l)).
Proof.
  pose proof (basic_checks_NoDup l) as N.
  unfold basic_checks in *. rewrite reset_index_times in *.
  apply sorted_times. apply sorted_NoDup_strict; [apply sort_values_sorted|exact N].
Qed.

Lemma frame_rows_vals (i : nat) (ts : list (option Timestamp)) (vs : list (option num)) :
  Forall (fun r => length (vals r) = 1%nat) (frame_rows i ts vs).
Proof.
  revert i vs. induction ts as [|t ts IH]; intros i [|v vs]; simpl; constructor; auto.
Qed.

Lemma frame_rows_first_at (ts : list (option Timestamp)) (vs : list (option num))
      (k i : nat) (t : Timestamp) (v : option num) :
  nth_error ts i = Some (Some t) ->
  nth_error vs i = Some v ->
  (forall j t', (j < i)%nat -> nth_error ts j = Some t' -> t' <> Some t) ->
  first_at (Some t) (frame_rows k ts vs) =
  Some {| idx := k + i; time := Some t; vals := [v] |}.
Proof.
  unfold first_at.
  revert ts vs k. induction i as [|i IH]; intros [|t0 ts] [|v0 vs] k Ht Hv Hfirst;
    cbn -[time_eqb] in *; try discriminate.
  - inversion Ht; inversion Hv; subst. rewrite time_eqb_refl.
    now rewrite Nat.add_0_r.
  - assert (N : t0 <> Some t) by (apply (Hfirst O); [lia|reflexivity]).
    apply not_eq_sym in N. apply time_eqb_neq in N. rewrite N.
    rewrite (IH ts vs (S k) Ht Hv).
    + do 2 f_equal. lia.
    + intros j t' Hj. apply (Hfirst (S j)). lia.
Qed.

Lemma frame_rows_In (k : nat) (ts : list (option Timestamp)) (vs : list (option num))
      (r : Row) :
  In r (frame_rows k ts vs) ->
  exists i, nth_error ts i = Some (time r) /\ nth_error vs i = Some (hd None (vals r)) /\
            vals r = [hd None (vals r)].
Proof.
  revert k vs. induction ts as [|t ts IH]; intros k [|v vs] H; simpl in H; try easy.
  destruct H as [<-|H].
  - exists O. simpl. auto.
  - destruct (IH _ _ H) as (i & H1 & H2 & H3). exists (S i). simpl. auto.
Qed.

Lemma reindex_from_In (i : nat) (l : list Row) (r : Row) :
  In r (reindex_from i l) -> exists r', In r' l /\ cells r' = cells r.
Proof.
  revert i. induction l as [|x l IH]; intros i H; simpl in H; [easy|].
  destruct H as [<-|H].
  - exists x. split; [now left|reflexivity].
  - destruct (IH _ H) as (r' & H1 & H2). exists r'. split; [now right|assumption].
Qed.

Lemma basic_checks_In (l : list Row) (r : Row) :
  In r (basic_checks l) -> exists r', In r' l /\ cells r' = cells r.
Proof.
  unfold basic_checks, reset_index. intro H.
  apply reindex_from_In in H. destruct H as (r' & H & E).
  exists r'. split; [|assumption].
  apply (Permutation_in _ (sort_values_perm _)) in H.
  apply (keep_first_incl time time_eqb) in H.
  now apply dropna_In in H.
Qed.

Lemma basic_checks_vals (l : list Row) :
  Forall (fun r => length (vals r) = 1%nat) l ->
  Forall (fun r => length (vals r) = 1%nat) (basic_checks l).
Proof.
  intro H. unfold basic_checks, reset_index.
  apply (reindex_from_Forall_vals (fun v => length v = 1%nat)).
  apply Forall_forall. intros r Hr. rewrite Forall_forall in H. apply H.
  apply (Permutation_in _ (sort_values_perm _)) in Hr.
  apply (keep_first_incl time time_eqb) in Hr.
  now apply dropna_In in Hr.
Qed.

End LoaderFacts.


(** ** What the loader guarantees *)

Section LoaderGuarantees.
Context {RT : Runtime}.

(** C2, as the code has it.  Past the header checks, [load_trends_csv]
    raises exactly when an entry of the [Time] column does not parse: such
    an entry is fatal.  Empty entries are not: when the load returns, no
    row of the series has a null timestamp, and the timestamps of the
    series are the entries that parsed. *)
Theorem load_unreadable_time_is_fatal (f : CsvFile) :
  header_ok f = true ->
  is_ok (load_trends_csv f) = forallb readable_time (time_entries f) /\
  (forall e, load_trends_csv f = inl e ->
     exists s, e = UnparsableTimestamp s /\ In (Some s) (time_entries f) /\
               to_datetime_scalar s = None) /\
  (forall df, load_trends_csv f = inr df ->
     Forall (fun r => time r <> NaT) (rows df) /\
     forall t, In (Some t) (times (rows df)) <->
               In (Some t) (map read_time (time_entries f))).
Proof.
  intro H. split; [now apply load_is_ok|]. split.
  - intros e He. destruct (load_header_ok f H) as (label & E). rewrite E in He.
    destruct (to_datetime (time_entries f)) as [e'|ts] eqn:D; [|discriminate].
    inversion He; subst. now apply to_datetime_inl.
  - intros df Hdf. destruct (load_header_ok f H) as (label & E). rewrite E in Hdf.
    destruct (to_datetime (time_entries f)) as [e'|ts] eqn:D; [discriminate|].
    inversion Hdf; subst; clear Hdf. simpl.
    apply to_datetime_inr in D. destruct D as [-> D].
    set (l := frame_rows 0 _ _).
    assert (T : forall t, In t (times l) <-> In t (map read_time (time_entries f))).
    { subst l. unfold value_entries, time_entries, column, to_numeric_coerce.
      rewrite !map_map.
      generalize (body (content f)) as b. generalize O at 1 as k.
      intros k b. revert k. induction b as [|line b IH]; intros k t; simpl; [tauto|].
      now rewrite IH. }
    split.
    + apply Forall_forall. intros r Hr E'.
      assert (Hin : In (time r) (times (basic_checks l))) by now apply in_map.
      apply basic_checks_times in Hin. tauto.
    + intro t. rewrite basic_checks_times, T. unfold NaT. intuition congruence.
Qed.

(** C4.  When [load_trends_csv] returns, its rows are those of the parsed
    frame without null timestamps, sorted ascending, the first row of every
    timestamp kept, reindexed; so every timestamp of the parsed frame has
    one row, the timestamps ascend strictly, and the index is 0, 1, 2, ... *)
Theorem load_dedup_sort_reindex (f : CsvFile) (df : DataFrame) :
  load_trends_csv f = inr df ->
  rows df = reset_index (drop_duplicates (sort_values (dropna (parsed_rows f)))) /\
  (forall t, In (Some t) (times (parsed_rows f)) ->
     exists r, filter (fun x => time_eqb (Some t) (time x)) (rows df) = [r] /\
               option_map cells (first_at (Some t) (sort_values (dropna (parsed_rows f))))
               = Some (cells r)) /\
  StronglySorted time_lt (times (rows df)) /\
  map idx (rows df) = seq 0 (nrows df).
Proof.
  intro H. apply load_inr in H. destruct H as (_ & _ & _ & H).
  unfold nrows. rewrite H. clear H. set (l := parsed_rows f).
  split; [|split; [|split]].
  - unfold basic_checks. now rewrite sort_drop_duplicates.
  - intros t Ht.
    assert (Hin : In (Some t) (times (basic_checks l))).
    { apply basic_checks_times. split; [discriminate|assumption]. }
    pose proof (basic_checks_NoDup l) as N.
    pose proof (basic_checks_first_at l t) as F.
    rewrite sort_values_first_at, dropna_first_at, <- F. clear F.
    unfold first_at.
    induction (basic_checks l) as [|x m IH]; cbn -[time_eqb] in *; [easy|].
    inversion N; subst.
    destruct (time_eqb (Some t) (time x)) eqn:E.
    + exists x. split; [|reflexivity]. f_equal.
      apply time_eqb_eq in E.
      clear -H1 E. induction m as [|y m IH]; cbn -[time_eqb] in *; [reflexivity|].
      destruct (time_eqb (Some t) (time y)) eqn:F.
      * apply time_eqb_eq in F. exfalso. apply H1. left. congruence.
      * apply IH. tauto.
    + destruct Hin as [Hin|Hin].
      * apply time_eqb_neq in E. congruence.
      * apply IH; assumption.
  - apply basic_checks_strict.
  - unfold basic_checks. apply reset_index_idx.
Qed.

(** C8, as the code has it.  Past the header checks and with a [Time]
    column that parses, [load_trends_csv] returns whatever the value
    entries are.  A line whose timestamp reads, and which no earlier line
    shares, has its row in the series, with its value as [pd.to_numeric]
    coerces it: NaN for an entry that is not a number.  And every row of the
    series is a line of the file, with its value so coerced. *)
Theorem load_coerces_values (f : CsvFile) :
  header_ok f = true ->
  forallb readable_time (time_entries f) = true ->
  exists df, load_trends_csv f = inr df /\
    (forall i tc vc t,
      nth_error (time_entries f) i = Some tc ->
      nth_error (value_entries f) i = Some vc ->
      read_time tc = Some t ->
      (forall j tc', (j < i)%nat -> nth_error (time_entries f) j = Some tc' ->
                     read_time tc' <> Some t) ->
      exists r, In r (rows df) /\ time r = Some t /\ vals r = [to_numeric_entry vc]) /\
    (forall r, In r (rows df) ->
      exists i tc vc,
        nth_error (time_entries f) i = Some tc /\
        nth_error (value_entries f) i = Some vc /\
        time r = read_time tc /\ vals r = [to_numeric_entry vc]).
Proof.
  intros H R. destruct (load_readable f H R) as (df & Hdf).
  exists df. split; [assumption|].
  apply load_inr in Hdf. destruct Hdf as (_ & _ & _ & Hrows).
  split.
  2:{ intros r Hr. rewrite Hrows in Hr.
      apply basic_checks_In in Hr. destruct Hr as (r' & Hr' & E).
      apply frame_rows_In in Hr'. destruct Hr' as (i & H1 & H2 & H3).
      rewrite nth_error_map in H1. unfold to_numeric_coerce in H2.
      rewrite nth_error_map in H2.
      destruct (nth_error (time_entries f) i) as [tc|] eqn:Et; [|discriminate].
      destruct (nth_error (value_entries f) i) as [vc|] eqn:Ev; [|discriminate].
      exists i, tc, vc. unfold cells in E. simpl in H1, H2.
      injection E as E1 E2. injection H1 as H1. injection H2 as H2.
      repeat split; [exact Et | exact Ev | |].
      - now rewrite <- E1, <- H1.
      - now rewrite <- E2, H3, <- H2. }
  intros i tc vc t Ht Hv Hr Hfirst.
  pose proof (basic_checks_first_at (parsed_rows f) t) as F.
  unfold parsed_rows in F at 2.
  rewrite (frame_rows_first_at _ _ 0 i t (to_numeric_entry vc)) in F.
  - rewrite <- Hrows in F.
    destruct (first_at (Some t) (rows df)) as [r|] eqn:G; [|discriminate].
    apply first_at_In in G. destruct G as [G1 G2].
    exists r. simpl in F. inversion F. auto.
  - rewrite nth_error_map, Ht. simpl. now rewrite Hr.
  - unfold to_numeric_coerce. now rewrite nth_error_map, Hv.
  - intros j t' Hj Hn. rewrite nth_error_map in Hn.
    destruct (nth_error (time_entries f) j) as [tc'|] eqn:Ej; [|discriminate].
    inversion Hn; subst. now apply (Hfirst j).
Qed.

End LoaderGuarantees.

(** ** The inner join on [Time] *)

Section MergeFacts.
Context {RT : Runtime}.

Lemma join_rows_times (L R : list Row) (t : option Timestamp) :
  In t (times (join_rows L R)) <-> In t (times L) /\ In t (times R).
Proof.
  unfold times, join_rows. rewrite in_map_iff. split.
  - intros (x & <- & Hx). apply in_flat_map in Hx. destruct Hx as (l & Hl & Hx).
    apply in_map_iff in Hx. destruct Hx as (r & <- & Hr).
    apply filter_In in Hr. destruct Hr as [Hr E]. apply time_eqb_eq in E.
    simpl. split; [now apply in_map|]. rewrite E. now apply in_map.
  - intros [Hl Hr]. apply in_map_iff in Hl, Hr.
    destruct Hl as (l & <- & Hl), Hr as (r & E & Hr).
    exists {| idx := O; time := time l; vals := vals l ++ vals r |}.
    split; [reflexivity|]. apply in_flat_map. exists l. split; [assumption|].
    apply in_map_iff. exists r. split; [reflexivity|].
    apply filter_In. split; [assumption|]. unfold same_time. now apply time_eqb_eq.
Qed.

(** A series with unique timestamps has at most one row at a timestamp. *)
Lemma at_most_one_match (R : list Row) (t : option Timestamp) :
  NoDup (times R) ->
  (length (filter (fun r => time_eqb t (time r)) R) <= 1)%nat.
Proof.
  induction R as [|r R IH]; cbn -[time_eqb]; intro N; [lia|].
  inversion N; subst.
  destruct (time_eqb t (time r)) eqn:E; [|auto].
  apply time_eqb_eq in E. subst t. cbn -[time_eqb].
  assert (Z0 : filter (fun x => time_eqb (time r) (time x)) R = []).
  { clear -H1. induction R as [|y R IH]; cbn -[time_eqb] in *; [reflexivity|].
    destruct (time_eqb (time r) (time y)) eqn:F.
    - apply time_eqb_eq in F. exfalso. apply H1. now left.
    - apply IH. tauto. }
  rewrite Z0. simpl. lia.
Qed.

Lemma join_rows_NoDup (L R : list Row) :
  NoDup (times L) -> NoDup (times R) -> NoDup (times (join_rows L R)).
Proof.
  intros NL NR. induction L as [|l L IH]; simpl; [constructor|].
  inversion NL; subst. specialize (IH H2).
  unfold times in *. rewrite map_app, map_map. simpl.
  pose proof (at_most_one_match R (time l) NR) as M.
  unfold same_time.
  destruct (filter (fun r => time_eqb (time l) (time r)) R) as [|r [|r' m]];
    simpl in *; try lia; [assumption|].
  constructor; [|assumption].
  intro Hin. apply (join_rows_times L R (time l)) in Hin. tauto.
Qed.

Lemma join_rows_vals (L R : list Row) (n m : nat) :
  Forall (fun r => length (vals r) = n) L ->
  Forall (fun r => length (vals r) = m) R ->
  Forall (fun r => length (vals r) = (n + m)%nat) (join_rows L R).
Proof.
  intros HL HR. apply Forall_forall. intros x Hx.
  apply in_flat_map in Hx. destruct Hx as (l & Hl & Hx).
  apply in_map_iff in Hx. destruct Hx as (r & <- & Hr).
  apply filter_In in Hr. destruct Hr as [Hr _].
  rewrite Forall_forall in HL, HR. simpl.
  rewrite length_app, (HL l Hl), (HR r Hr). reflexivity.
Qed.

Lemma merge_labels_length (l r : list string) :
  length (merge_labels l r) = (length l + length r)%nat.
Proof.
  unfold merge_labels, left_labels, right_labels.
  now rewrite length_app, !length_map.
Qed.

Lemma merge_result_times (L R : DataFrame) (t : option Timestamp) :
  In t (times (rows (merge_result L R))) <->
  In t (times (rows L)) /\ In t (times (rows R)).
Proof. simpl. rewrite reset_index_times. apply join_rows_times. Qed.

Lemma merge_result_unique (L R : DataFrame) :
  unique_times L -> unique_times R -> unique_times (merge_result L R).
Proof.
  unfold unique_times. simpl. rewrite reset_index_times. apply join_rows_NoDup.
Qed.

Lemma merge_result_rectangular (L R : DataFrame) :
  rectangular L -> rectangular R -> rectangular (merge_result L R).
Proof.
  unfold rectangular. simpl. intros HL HR. rewrite merge_labels_length.
  apply (reindex_from_Forall_vals
           (fun v => length v = (length (labels L) + length (labels R))%nat)).
  now apply join_rows_vals.
Qed.

Lemma merge_result_nrows_l (L R : DataFrame) :
  unique_times L -> unique_times R -> (nrows (merge_result L R) <= nrows L)%nat.
Proof.
  intros HL HR. pose proof (merge_result_unique L R HL HR) as N.
  unfold nrows, unique_times, times in *.
  rewrite <- (length_map time (rows (merge_result L R))), <- (length_map time (rows L)).
  apply NoDup_incl_length; [assumption|].
  intros t Ht. now apply (merge_result_times L R t) in Ht.
Qed.

Lemma merge_result_nrows_r (L R : DataFrame) :
  unique_times L -> unique_times R -> (nrows (merge_result L R) <= nrows R)%nat.
Proof.
  intros HL HR. pose proof (merge_result_unique L R HL HR) as N.
  unfold nrows, unique_times, times in *.
  rewrite <- (length_map time (rows (merge_result L R))), <- (length_map time (rows R)).
  apply NoDup_incl_length; [assumption|].
  intros t Ht. now apply (merge_result_times L R t) in Ht.
Qed.

(** The loop of lines 70-72. *)
Lemma fold_merge_times (rest : list DataFrame) (first : DataFrame) (t : option Timestamp) :
  In t (times (rows (fold_left merge_result rest first))) <->
  forall df, In df (first :: rest) -> In t (times (rows df)).
Proof.
  revert first. induction rest as [|df rest IH]; intro first; simpl.
  - split; [intros H df [<-|[]]; assumption | intro H; apply H; now left].
  - rewrite IH. split.
    + intros H x [<-|[<-|Hx]].
      * apply (merge_result_times first df t). apply H. now left.
      * apply (merge_result_times first df t). apply H. now left.
      * apply H. now right.
    + intros H x [<-|Hx].
      * apply merge_result_times. split; apply H; auto.
      * apply H. auto.
Qed.

Lemma fold_merge_unique (rest : list DataFrame) (first : DataFrame) :
  unique_times first -> Forall unique_times rest ->
  unique_times (fold_left merge_result rest first).
Proof.
  revert first. induction rest as [|df rest IH]; intros first H1 H2; simpl;
    [assumption|].
  inversion H2; subst. apply IH; [|assumption]. now apply merge_result_unique.
Qed.

Lemma fold_merge_nrows (rest : list DataFrame) (first : DataFrame) :
  unique_times first -> Forall unique_times rest ->
  forall df, In df (first :: rest) ->
             (nrows (fold_left merge_result rest first) <= nrows df)%nat.
Proof.
  revert first. induction rest as [|x rest IH]; intros first H1 H2 df Hdf; simpl.
  - destruct Hdf as [<-|[]]. lia.
  - inversion H2; subst.
    assert (U : unique_times (merge_result first x)) by now apply merge_result_unique.
    pose proof (IH _ U H4 (merge_result first x) (or_introl eq_refl)) as B.
    destruct Hdf as [<-|[<-|Hdf]].
    + pose proof (merge_result_nrows_l first x H1 H3). lia.
    + pose proof (merge_result_nrows_r first x H1 H3). lia.
    + apply IH; [assumption|assumption|now right].
Qed.

Lemma fold_merge_labels (rest : list DataFrame) (first : DataFrame) :
  Forall (fun df => length (labels df) = 1%nat) rest ->
  length (labels (fold_left merge_result rest first)) =
  (length (labels first) + length rest)%nat.
Proof.
  revert first. induction rest as [|x rest IH]; intros first H; simpl; [lia|].
  inversion H; subst. rewrite IH by assumption. simpl.
  rewrite merge_labels_length. lia.
Qed.

Lemma fold_merge_rectangular (rest : list DataFrame) (first : DataFrame) :
  rectangular first -> Forall rectangular rest ->
  rectangular (fold_left merge_result rest first).
Proof.
  revert first. induction rest as [|x rest IH]; intros first H1 H2; simpl;
    [assumption|].
  inversion H2; subst. apply IH; [|assumption]. now apply merge_result_rectangular.
Qed.

Lemma left_labels_disjoint (l r : list string) :
  (forall c, In c l -> ~ In c r) -> left_labels l r = l.
Proof.
  intro H. unfold left_labels.
  rewrite <- (map_id l) at 2. apply map_ext_in. intros c Hc.
  destruct (has_label c r) eqn:E; [|reflexivity].
  exfalso. unfold has_label in E. apply existsb_exists in E.
  destruct E as (c' & Hc' & E). apply String.eqb_eq in E. subst c'.
  now apply (H c).
Qed.

Lemma right_labels_disjoint (l r : list string) :
  (forall c, In c l -> ~ In c r) -> right_labels l r = r.
Proof.
  intro H. unfold right_labels.
  rewrite <- (map_id r) at 2. apply map_ext_in. intros c Hc.
  destruct (has_label c l) eqn:E; [|reflexivity].
  exfalso. unfold has_label in E. apply existsb_exists in E.
  destruct E as (c' & Hc' & E). apply String.eqb_eq in E. subst c'.
  now apply (H c).
Qed.

Lemma merge_labels_disjoint (l r : list string) :
  (forall c, In c l -> ~ In c r) -> merge_labels l r = l ++ r.
Proof.
  intro H. unfold merge_labels.
  now rewrite (left_labels_disjoint l r H), (right_labels_disjoint l r H).
Qed.

Lemma NoDup_app_disjoint {A : Type} (l l' : list A) :
  NoDup (l ++ l') -> forall x, In x l -> ~ In x l'.
Proof.
  induction l as [|a l IH]; simpl; intros N x Hx; [easy|].
  inversion N; subst. destruct Hx as [->|Hx].
  - intro Hin. apply H1. apply in_or_app. now right.
  - now apply IH.
Qed.

Lemma fold_merge_labels_distinct (rest : list DataFrame) (acc : DataFrame) :
  NoDup (labels acc ++ concat (map labels rest)) ->
  labels (fold_left merge_result rest acc) = labels acc ++ concat (map labels rest).
Proof.
  revert acc. induction rest as [|df rest IH]; intros acc N; simpl in *.
  - now rewrite app_nil_r.
  - assert (D : merge_labels (labels acc) (labels df) = labels acc ++ labels df).
    { apply merge_labels_disjoint. intros c Hc Hd.
      apply (NoDup_app_disjoint _ _ N c Hc). apply in_or_app. now left. }
    rewrite IH; simpl; rewrite D, <- app_assoc; [reflexivity|assumption].
Qed.

(** When it returns, the merge returns [merge_result]. *)
Lemma merge_inner_inr (left right merged : DataFrame) :
  merge_inner left right = inr merged -> merged = merge_result left right.
Proof.
  unfold merge_inner. destruct (merge_duplicates _ _); intro H; now inversion H.
Qed.

Lemma merge_loop_inr (rest : list DataFrame) (first merged : DataFrame) :
  merge_loop first rest = inr merged -> merged = fold_left merge_result rest first.
Proof.
  revert first. induction rest as [|df rest IH]; simpl; intros first H.
  - now inversion H.
  - destruct (merge_inner first df) as [e|m] eqn:E; [discriminate|].
    apply merge_inner_inr in E. subst m. now apply IH.
Qed.

Lemma merge_all_inr (first : DataFrame) (rest : list DataFrame) (merged : DataFrame) :
  merge_all first rest = inr merged -> merged = merge_all_result first rest.
Proof.
  unfold merge_all, merge_all_result.
  destruct (merge_loop first rest) as [e|m] eqn:E; [discriminate|].
  apply merge_loop_inr in E. subst m. intro H. now inversion H.
Qed.

(** The only error of lines 70-75 is the [MergeError] of line 72. *)
Lemma merge_loop_inl (rest : list DataFrame) (first : DataFrame) (e : Error) :
  merge_loop first rest = inl e -> exists duplicates, e = MergeError duplicates.
Proof.
  revert first. induction rest as [|df rest IH]; simpl; intros first H; [discriminate|].
  destruct (merge_inner first df) as [e'|m] eqn:E; [|now apply (IH m)].
  unfold merge_inner in E. destruct (merge_duplicates _ _) as [|d ds]; [discriminate|].
  inversion E; subst. inversion H; subst. eauto.
Qed.

Lemma merge_all_inl (first : DataFrame) (rest : list DataFrame) (e : Error) :
  merge_all first rest = inl e -> exists duplicates, e = MergeError duplicates.
Proof.
  unfold merge_all. destruct (merge_loop first rest) as [e'|m] eqn:E; [|discriminate].
  intro H. inversion H; subst. now apply (merge_loop_inl rest first).
Qed.

(** Labels that are not renamed give no duplicate. *)
Lemma suffix_duplicates_same (seen l : list string) :
  suffix_duplicates seen seen l l = [].
Proof.
  revert seen. induction l as [|c l IH]; intro seen; simpl; [reflexivity|].
  rewrite andb_negb_r. simpl. apply IH.
Qed.

Lemma merge_duplicates_disjoint (l r : list string) :
  (forall c, In c l -> ~ In c r) -> merge_duplicates l r = [].
Proof.
  intro H. unfold merge_duplicates.
  rewrite (left_labels_disjoint l r H), (right_labels_disjoint l r H).
  now rewrite !suffix_duplicates_same.
Qed.

Lemma merge_inner_disjoint (left right : DataFrame) :
  (forall c, In c (labels left) -> ~ In c (labels right)) ->
  merge_inner left right = inr (merge_result left right).
Proof.
  intro H. unfold merge_inner. now rewrite (merge_duplicates_disjoint _ _ H).
Qed.

(** Series whose labels are all different merge without an error. *)
Lemma merge_loop_distinct (rest : list DataFrame) (acc : DataFrame) :
  NoDup (labels acc ++ concat (map labels rest)) ->
  merge_loop acc rest = inr (fold_left merge_result rest acc).
Proof.
  revert acc. induction rest as [|df rest IH]; intros acc N; simpl in *; [reflexivity|].
  assert (D : forall c, In c (labels acc) -> ~ In c (labels df)).
  { intros c Hc Hd. apply (NoDup_app_disjoint _ _ N c Hc). apply in_or_app. now left. }
  rewrite (merge_inner_disjoint acc df D). apply IH. simpl.
  rewrite (merge_labels_disjoint _ _ D), <- app_assoc. exact N.
Qed.

Lemma merge_all_distinct (first : DataFrame) (rest : list DataFrame) :
  NoDup (concat (map labels (first :: rest))) ->
  merge_all first rest = inr (merge_all_result first rest).
Proof.
  intro N. unfold merge_all, merge_all_result. simpl in N.
  now rewrite (merge_loop_distinct rest first N).
Qed.

Lemma merge_all_result_labels (first : DataFrame) (rest : list DataFrame) :
  Forall canonical (first :: rest) ->
  length (labels (merge_all_result first rest)) = length (first :: rest).
Proof.
  intro H. inversion H as [|? ? Hf Hr]; subst.
  unfold merge_all_result. simpl. rewrite fold_merge_labels.
  - destruct Hf as (L & _). now rewrite L.
  - eapply Forall_impl; [|exact Hr]. intros df (L & _). exact L.
Qed.

Lemma merge_all_result_times (first : DataFrame) (rest : list DataFrame) :
  Permutation (times (rows (merge_all_result first rest)))
              (times (rows (fold_left merge_result rest first))).
Proof.
  unfold merge_all_result. simpl. rewrite reset_index_times. apply sort_values_times_perm.
Qed.

Lemma merge_all_result_nrows (first : DataFrame) (rest : list DataFrame) :
  nrows (merge_all_result first rest) = nrows (fold_left merge_result rest first).
Proof.
  unfold nrows, merge_all_result. simpl. rewrite reset_index_length.
  apply Permutation_length, sort_values_perm.
Qed.

Lemma merge_all_result_strict (first : DataFrame) (rest : list DataFrame) :
  unique_times first -> Forall unique_times rest ->
  StronglySorted time_lt (times (rows (merge_all_result first rest))).
Proof.
  intros H1 H2. unfold merge_all_result. simpl. rewrite reset_index_times.
  apply sorted_times. apply sorted_NoDup_strict; [apply sort_values_sorted|].
  eapply Permutation_NoDup; [symmetry; apply sort_values_times_perm|].
  now apply fold_merge_unique.
Qed.

Lemma merge_all_result_rectangular (first : DataFrame) (rest : list DataFrame) :
  rectangular first -> Forall rectangular rest -> rectangular (merge_all_result first rest).
Proof.
  intros H1 H2. pose proof (fold_merge_rectangular rest first H1 H2) as R.
  unfold rectangular, merge_all_result in *. simpl.
  apply (reindex_from_Forall_vals
           (fun v => length v = length (labels (fold_left merge_result rest first)))).
  apply Forall_forall. intros r Hr. rewrite Forall_forall in R. apply R.
  now apply (Permutation_in _ (sort_values_perm _)) in Hr.
Qed.

End MergeFacts.

(** ** What the merge guarantees *)

Section MergeGuarantees.
Context {RT : Runtime}.

(** What [load_trends_csv] returns is a canonical series. *)
Lemma load_canonical (f : CsvFile) (df : DataFrame) :
  load_trends_csv f = inr df -> canonical df.
Proof.
  intro H. apply load_inr in H. destruct H as (_ & _ & L & R).
  unfold canonical, rectangular, unique_times. rewrite R, L.
  split; [reflexivity|]. split.
  - apply basic_checks_vals, frame_rows_vals.
  - apply basic_checks_NoDup.
Qed.

Lemma canonical_unique (df : DataFrame) : canonical df -> unique_times df.
Proof. unfold canonical. tauto. Qed.

Lemma le_list_min (n : nat) (first : nat) (rest : list nat) :
  (n <= first)%nat -> Forall (fun m => (n <= m)%nat) rest ->
  (n <= fold_right Nat.min first rest)%nat.
Proof.
  intros H1 H2. induction H2 as [|m rest Hm Hrest IH]; simpl; [assumption|].
  apply Nat.min_glb; assumption.
Qed.

(** C1, as the code has it.  Series whose labels are all different merge
    without an error, and the only error of lines 70-75 is the [MergeError]
    of line 72, raised when the suffixes repeat a label.  Whenever the lines
    return a merged table of series with unique timestamps, a timestamp is
    in it exactly when it is in every series, and the merged timestamps
    ascend strictly. *)
Theorem merge_times_are_intersection (first : DataFrame) (rest : list DataFrame) :
  unique_times first ->
  Forall unique_times rest ->
  (NoDup (concat (map labels (first :: rest))) ->
     exists merged, merge_all first rest = inr merged) /\
  (forall e, merge_all first rest = inl e ->
     exists duplicates, e = MergeError duplicates) /\
  (forall merged, merge_all first rest = inr merged ->
     (forall t, In t (times (rows merged)) <->
                forall df, In df (first :: rest) -> In t (times (rows df))) /\
     StronglySorted time_lt (times (rows merged))).
Proof.
  intros H1 H2. split; [|split].
  - intro N. eexists. now apply merge_all_distinct.
  - apply merge_all_inl.
  - intros merged M. apply merge_all_inr in M. subst merged.
    split; [|now apply merge_all_result_strict].
    intro t. rewrite <- fold_merge_times.
    split; apply Permutation_in; [|symmetry]; apply merge_all_result_times.
Qed.

(** C5, as the code has it.  Canonical series whose labels are all
    different merge without an error.  Whenever lines 70-75 return the merge
    of N canonical series, it has at most as many rows as the shortest of
    them, and N + 1 columns: [Time] and one value column per series, every
    row with one entry per value column. *)
Theorem merge_shape (first : DataFrame) (rest : list DataFrame) :
  Forall canonical (first :: rest) ->
  (NoDup (concat (map labels (first :: rest))) ->
     exists merged, merge_all first rest = inr merged) /\
  (forall merged, merge_all first rest = inr merged ->
     (nrows merged <= fold_right Nat.min (nrows first) (map nrows rest))%nat /\
     ncols merged = S (length (first :: rest)) /\
     rectangular merged).
Proof.
  intro H. split; [intro N; eexists; now apply merge_all_distinct|].
  intros merged M. apply merge_all_inr in M. subst merged.
  inversion H as [|? ? Hf Hr]; subst.
  assert (U1 : unique_times first) by now apply canonical_unique.
  assert (U2 : Forall unique_times rest).
  { eapply Forall_impl; [|exact Hr]. apply canonical_unique. }
  split; [|split].
  - rewrite merge_all_result_nrows. apply le_list_min.
    + apply fold_merge_nrows; auto. now left.
    + apply Forall_forall. intros m Hm. apply in_map_iff in Hm.
      destruct Hm as (df & <- & Hdf). apply fold_merge_nrows; auto. now right.
  - unfold ncols. now rewrite merge_all_result_labels.
  - apply merge_all_result_rectangular.
    + now destruct Hf as (_ & R & _).
    + eapply Forall_impl; [|exact Hr]. intros df (_ & R & _). exact R.
Qed.

End MergeGuarantees.

(** ** The long table *)

Section MeltFacts.
Context {RT : Runtime}.

Lemma long_reindex_from_length (i : nat) (l : list LongRow) :
  length (long_reindex_from i l) = length l.
Proof. revert i. induction l as [|e l IH]; intro i; simpl; [|rewrite IH]; reflexivity. Qed.

Lemma long_reindex_from_tuples (i : nat) (l : list LongRow) :
  tuples (long_reindex_from i l) = tuples l.
Proof. revert i. induction l as [|e l IH]; intro i; simpl; [|rewrite IH]; reflexivity. Qed.

Lemma long_reindex_from_nth (i k : nat) (l : list LongRow) (e : LongRow) :
  nth_error l k = Some e ->
  nth_error (long_reindex_from i l) k =
  Some {| l_idx := i + k; l_time := l_time e; trend := trend e; interest := interest e |}.
Proof.
  revert i k. induction l as [|x l IH]; intros i [|k] H; simpl in *; try discriminate.
  - inversion H; subst. now rewrite Nat.add_0_r.
  - rewrite (IH (S i) k H). do 2 f_equal. lia.
Qed.

Lemma melt_column_length (rs : list Row) (j : nat) (name : string) :
  length (melt_column rs j name) = length rs.
Proof. apply length_map. Qed.

Lemma melt_columns_length (rs : list Row) (j : nat) (names : list string) :
  length (melt_columns rs j names) = (length names * length rs)%nat.
Proof.
  revert j. induction names as [|name names IH]; intro j; simpl; [reflexivity|].
  now rewrite length_app, melt_column_length, IH.
Qed.

Lemma melt_columns_nth (rs : list Row) (names : list string) (k j i : nat)
      (name : string) (r : Row) :
  nth_error names j = Some name ->
  nth_error rs i = Some r ->
  nth_error (melt_columns rs k names) (j * length rs + i) =
  Some {| l_idx := O; l_time := time r; trend := name;
          interest := nth (k + j) (vals r) None |}.
Proof.
  revert k j. induction names as [|x names IH]; intros k [|j] Hn Hr; simpl in *;
    try discriminate.
  - inversion Hn; subst.
    rewrite nth_error_app1.
    + unfold melt_column. rewrite nth_error_map, Hr. simpl. now rewrite Nat.add_0_r.
    + rewrite melt_column_length. apply nth_error_Some. congruence.
  - rewrite nth_error_app2; rewrite melt_column_length; [|lia].
    replace (length rs + j * length rs + i - length rs)%nat
      with (j * length rs + i)%nat by lia.
    rewrite (IH (S k) j Hn Hr). do 3 f_equal. lia.
Qed.

Lemma flat_map_cons_perm {A B : Type} (f : A -> B) (g : A -> list B) (l : list A) :
  Permutation (flat_map (fun a => f a :: g a) l) (map f l ++ flat_map g l).
Proof.
  induction l as [|a l IH]; simpl; [reflexivity|].
  constructor. rewrite IH, !app_assoc.
  apply Permutation_app_tail, Permutation_app_comm.
Qed.

Lemma melt_columns_perm (rs : list Row) (j : nat) (names : list string) :
  Permutation (tuples (melt_columns rs j names))
              (flat_map (fun r => row_tuples r j names) rs).
Proof.
  revert j. induction names as [|name names IH]; intro j; simpl.
  - induction rs; simpl; auto.
  - unfold tuples in *. rewrite map_app, IH.
    rewrite (flat_map_cons_perm
               (fun r => (time r, name, nth j (vals r) None))
               (fun r => row_tuples r (S j) names)).
    apply Permutation_app_tail. unfold melt_column. rewrite map_map. reflexivity.
Qed.

Lemma melt_inr (df : DataFrame) (long : list LongRow) :
  melt df = inr long -> long = melted df.
Proof. unfold melt. destruct (has_label _ _); intro H; now inversion H. Qed.

Lemma melt_is_ok (df : DataFrame) :
  is_ok (melt df) = negb (has_label "Interest" (labels df)).
Proof. unfold melt. now destruct (has_label _ _). Qed.

Lemma melted_length (df : DataFrame) :
  length (melted df) = (nrows df * length (labels df))%nat.
Proof.
  unfold melted, nrows. rewrite long_reindex_from_length, melt_columns_length. lia.
Qed.

(** C6, as the code has it.  [melt] returns unless a metric column is
    itself labelled [Interest].  What it returns has one tuple for each pair
    of a row and a metric column, so as many rows as the merged table has
    rows times metrics; it enumerates them column by column: the tuple of
    row [i] and column [j] stands at position [j * nrows + i]. *)
Theorem melt_is_column_major (df : DataFrame) :
  is_ok (melt df) = negb (has_label "Interest" (labels df)) /\
  forall long, melt df = inr long ->
    length long = (nrows df * length (labels df))%nat /\
    Permutation (tuples long) (tidy_row_major df) /\
    forall j i name r,
      nth_error (labels df) j = Some name ->
      nth_error (rows df) i = Some r ->
      nth_error long (j * nrows df + i) =
      Some {| l_idx := j * nrows df + i; l_time := time r; trend := name;
              interest := nth j (vals r) None |}.
Proof.
  split; [apply melt_is_ok|].
  intros long M. apply melt_inr in M. subst long.
  split; [apply melted_length|]. unfold melted, nrows. split.
  - rewrite long_reindex_from_tuples. apply melt_columns_perm.
  - intros j i name r Hn Hr.
    erewrite long_reindex_from_nth; [|apply melt_columns_nth; eassumption].
    reflexivity.
Qed.

End MeltFacts.

(** ** The run *)

Section RunFacts.
Context {RT : Runtime}.

Lemma print_all_run (os : list Output) (w : World) :
  print_all os w = ({| stdout := stdout w ++ os; disk := disk w |}, inr tt).
Proof.
  revert w. induction os as [|o os IH]; intro w; simpl.
  - unfold ret. rewrite app_nil_r. now destruct w.
  - unfold bind, print. rewrite IH. simpl. now rewrite <- app_assoc.
Qed.

(** The run, step by step. *)
Lemma run_steps (files : list CsvFile) (w : World) :
  run files w =
  if (length files <? 4)%nat then
    (w, inl (InsufficientInputFiles 4 (length files) (map fname files)))
  else
    match load_all files with
    | inl e => (announced files w, inl e)
    | inr dfs =>
        match merged_of dfs with
        | inl e => (announced files w, inl e)
        | inr merged =>
            match continuity_check merged with
            | inl e => (announced files w, inl e)
            | inr warnings =>
                match melt merged with
                | inl e =>
                    ({| stdout := stdout (announced files w) ++ warnings;
                        disk := (out_wide, wide_csv merged) :: disk w |},
                     inl e)
                | inr long_df =>
                    ({| stdout := stdout (announced files w) ++ warnings;
                        disk := (out_long, long_csv long_df)
                                  :: (out_wide, wide_csv merged) :: disk w |},
                     inr tt)
                end
            end
        end
    end.
Proof.
  unfold run, require_four, bind.
  destruct (length files <? 4)%nat; [reflexivity|].
  unfold ret, print, lift. simpl.
  destruct (load_all files) as [e|dfs]; [reflexivity|].
  destruct (merged_of dfs) as [e|merged]; [reflexivity|].
  destruct (continuity_check merged) as [e|warnings]; [reflexivity|].
  rewrite print_all_run. unfold to_csv. simpl.
  destruct (melt merged) as [e|long_df]; reflexivity.
Qed.

Lemma load_all_fails (files : list CsvFile) (f : CsvFile) :
  In f files -> is_ok (load_trends_csv f) = false -> is_ok (load_all files) = false.
Proof.
  induction files as [|x files IH]; simpl; intros Hin Hf; [easy|].
  destruct (load_trends_csv x) as [e|df] eqn:E; [reflexivity|].
  destruct Hin as [->|Hin]; [rewrite E in Hf; discriminate|].
  specialize (IH Hin Hf). now destruct (load_all files).
Qed.

Lemma load_all_canonical (files : list CsvFile) (dfs : list DataFrame) :
  load_all files = inr dfs -> Forall canonical dfs /\ length dfs = length files.
Proof.
  revert dfs. induction files as [|f files IH]; simpl; intros dfs H.
  - inversion H. auto.
  - destruct (load_trends_csv f) as [e|df] eqn:E; [discriminate|].
    destruct (load_all files) as [e|dfs']; [discriminate|].
    inversion H; subst. destruct (IH dfs' eq_refl) as [C L].
    split; [constructor; eauto using load_canonical | simpl; congruence].
Qed.

Lemma load_missing_time (f : CsvFile) :
  has_label "Time" (stripped_columns f) = false ->
  load_trends_csv f = inl (MissingTimeColumn (fname f) (stripped_columns f)).
Proof. unfold load_trends_csv. now intros ->. Qed.

Lemma load_ambiguous (f : CsvFile) :
  length (filter is_not_time (stripped_columns f)) <> 1%nat ->
  is_ok (load_trends_csv f) = false.
Proof.
  intro H. destruct (load_trends_csv f) as [e|df] eqn:E; [reflexivity|].
  apply load_inr in E. destruct E as (E & _). unfold header_ok in E.
  apply andb_true_iff in E. destruct E as [_ E].
  destruct (filter is_not_time (stripped_columns f)) as [|v [|v' vs]];
    simpl in *; congruence.
Qed.


(** What the check prints when it returns: nothing, or the warning,
    followed, when months are missing, by the first ten of them and the
    mark that there are more. *)
Lemma continuity_check_prints (merged : DataFrame) (warnings : list Output) :
  continuity_check merged = inr warnings ->
  warnings = [] \/
  warnings = [ContinuityWarning] \/
  exists missing,
    warnings = [ContinuityWarning;
                MissingMonths (firstn 10 missing) (10 <? length missing)%nat] /\
    (length (firstn 10 missing) <= 10)%nat /\
    ((10 <? length missing)%nat = true <-> (10 < length missing)%nat).
Proof.
  unfold continuity_check.
  destruct (date_range_MS _ _) as [e|expected]; [discriminate|].
  destruct (negb _ || negb _); [|intro H; inversion H; auto].
  set (missing := difference expected (times (rows merged))).
  destruct (0 <? length missing)%nat; intro H; inversion H; auto.
  right. right. exists missing. split; [reflexivity|]. split.
  - rewrite length_firstn. lia.
  - apply Nat.ltb_lt.
Qed.

(** The check leaves the merged table alone: a run that ends has written
    the merged table and its long form as they stood before the check. *)
Lemma run_writes_merged (files : list CsvFile) (w w' : World) :
  run files w = (w', inr tt) ->
  exists dfs merged long_df,
    load_all files = inr dfs /\ merged_of dfs = inr merged /\
    melt merged = inr long_df /\
    disk w' = (out_long, long_csv long_df)
                :: (out_wide, wide_csv merged) :: disk w.
Proof.
  rewrite run_steps.
  destruct (length files <? 4)%nat; [discriminate|].
  destruct (load_all files) as [e|dfs]; [discriminate|].
  destruct (merged_of dfs) as [e|merged] eqn:M; [discriminate|].
  destruct (continuity_check merged) as [e|warnings]; [discriminate|].
  destruct (melt merged) as [e|long_df] eqn:L; [discriminate|].
  intro H. inversion H; subst. simpl. exists dfs, merged, long_df. auto.
Qed.

(** Series without a common timestamp merge to a table without rows, and
    on it the check raises: the run ends there. *)
Lemma join_rows_disjoint (L R : list Row) :
  (forall t, In t (times L) -> ~ In t (times R)) -> join_rows L R = [].
Proof.
  intro H. destruct (join_rows L R) as [|x m] eqn:E; [reflexivity|].
  assert (Hin : In (time x) (times (join_rows L R))) by (rewrite E; now left).
  apply join_rows_times in Hin. destruct Hin as [H1 H2]. now apply H in H1.
Qed.

Lemma continuity_check_no_rows (merged : DataFrame) :
  rows merged = [] -> continuity_check merged = inl RangeBoundIsNaT.
Proof. unfold continuity_check. now intros ->. Qed.

(** A run whose merged table has no row ends in the check, and nothing is
    written. *)
Lemma run_ends_on_empty_merge (files : list CsvFile) (dfs : list DataFrame)
      (merged : DataFrame) (w : World) :
  (4 <= length files)%nat ->
  load_all files = inr dfs ->
  merged_of dfs = inr merged ->
  rows merged = [] ->
  run files w = (announced files w, inl RangeBoundIsNaT).
Proof.
  intros H4 L M E. rewrite run_steps, L, M, (continuity_check_no_rows merged E).
  apply Nat.ltb_ge in H4. now rewrite H4.
Qed.

Lemma series_min_NaT (ts : list (option Timestamp)) :
  series_min ts = NaT <-> Forall (fun t => t = NaT) ts.
Proof.
  unfold NaT. induction ts as [|[t|] ts IH]; simpl.
  - split; auto.
  - split; intro H.
    + destruct (series_min ts); discriminate.
    + inversion H as [|? ? E _]. discriminate E.
  - rewrite IH. split; intro H; [now constructor | now inversion H].
Qed.

Lemma series_max_NaT (ts : list (option Timestamp)) :
  series_max ts = NaT <-> Forall (fun t => t = NaT) ts.
Proof.
  unfold NaT. induction ts as [|[t|] ts IH]; simpl.
  - split; auto.
  - split; intro H.
    + destruct (series_max ts); discriminate.
    + inversion H as [|? ? E _]. discriminate E.
  - rewrite IH. split; intro H; [now constructor | now inversion H].
Qed.

Lemma continuity_check_is_ok (merged : DataFrame) :
  is_ok (continuity_check merged) =
  is_ok (date_range_MS (series_min (times (rows merged)))
                       (series_max (times (rows merged)))).
Proof.
  unfold continuity_check.
  destruct (date_range_MS _ _) as [e|expected]; [reflexivity|].
  now destruct (negb _ || negb _).
Qed.

(** C10 fails where the [Time] column of the merged table holds no
    timestamp, so on every merged table without rows: the column has
    neither minimum nor maximum, [pd.date_range] raises on the NaT bounds,
    and the check ends the run instead of only observing.  On every other
    table the check returns. *)
Theorem continuity_check_raises_without_rows (merged : DataFrame) :
  (is_ok (continuity_check merged) = false <->
   Forall (fun t => t = NaT) (times (rows merged))) /\
  continuity_check {| labels := labels merged; rows := [] |} = inl RangeBoundIsNaT.
Proof.
  split; [|reflexivity].
  rewrite continuity_check_is_ok, <- series_min_NaT.
  pose proof (series_min_NaT (times (rows merged))) as Hmin.
  pose proof (series_max_NaT (times (rows merged))) as Hmax.
  unfold date_range_MS.
  destruct (series_min (times (rows merged))) as [lo|] eqn:Emin;
    destruct (series_max (times (rows merged))) as [hi|] eqn:Emax; simpl.
  - split; intro H; discriminate H.
  - split; [|reflexivity]. intros _. exfalso.
    assert (F : Forall (fun t => t = NaT) (times (rows merged)))
      by now apply Hmax.
    apply Hmin in F. discriminate F.
  - split; reflexivity.
  - split; reflexivity.
Qed.

Lemma merged_of_inr (dfs : list DataFrame) (merged : DataFrame) :
  merged_of dfs = inr merged ->
  exists first rest, dfs = first :: rest /\ merged = merge_all_result first rest.
Proof.
  destruct dfs as [|first rest]; simpl; [discriminate|].
  intro H. apply merge_all_inr in H. eauto.
Qed.

Lemma merged_of_inl (dfs : list DataFrame) (e : Error) :
  dfs <> [] -> merged_of dfs = inl e -> exists duplicates, e = MergeError duplicates.
Proof.
  destruct dfs as [|first rest]; simpl; [easy|]. intros _. apply merge_all_inl.
Qed.

Lemma merged_of_distinct (dfs : list DataFrame) :
  dfs <> [] -> NoDup (concat (map labels dfs)) ->
  exists merged, merged_of dfs = inr merged.
Proof.
  destruct dfs as [|first rest]; [easy|]. intros _ N. simpl merged_of.
  eexists. now apply merge_all_distinct.
Qed.

(** C3 fails on every input with two series that share no timestamp: the
    run ends in an error and neither file is written.  When the merge
    returns, as it does for series whose labels are all different, it is the
    table without rows, as it should be, and not an error; but on it the
    continuity check raises, and the run ends there. *)
Theorem no_common_timestamp_ends_the_run
        (files : list CsvFile) (dfs : list DataFrame) (a b : DataFrame) (w : World) :
  (4 <= length files)%nat ->
  load_all files = inr dfs ->
  In a dfs -> In b dfs ->
  (forall t, In t (times (rows a)) -> ~ In t (times (rows b))) ->
  (exists e, run files w = (announced files w, inl e)) /\
  disk (announced files w) = disk w /\
  (NoDup (concat (map labels dfs)) -> exists merged, merged_of dfs = inr merged) /\
  (forall merged, merged_of dfs = inr merged ->
     rows merged = [] /\
     run files w = (announced files w, inl RangeBoundIsNaT)).
Proof.
  intros H4 L Ha Hb Hdis.
  assert (Hne : dfs <> []) by (intros ->; easy).
  assert (K : forall merged, merged_of dfs = inr merged ->
                rows merged = [] /\
                run files w = (announced files w, inl RangeBoundIsNaT)).
  { intros merged M.
    assert (E : rows merged = []).
    { destruct (merged_of_inr _ _ M) as (first & rest & -> & ->).
      destruct (rows (merge_all_result first rest)) as [|r m] eqn:R; [reflexivity|].
      exfalso.
      assert (Hin : In (time r) (times (rows (fold_left merge_result rest first)))).
      { apply (Permutation_in _ (merge_all_result_times first rest)).
        rewrite R. now left. }
      rewrite fold_merge_times in Hin.
      apply (Hdis (time r)); now apply Hin. }
    split; [exact E|].
    now apply (run_ends_on_empty_merge files dfs merged). }
  split; [|split; [reflexivity|split; [now apply merged_of_distinct|exact K]]].
  destruct (merged_of dfs) as [e|merged] eqn:M.
  - exists e. rewrite run_steps, L, M. apply Nat.ltb_ge in H4. now rewrite H4.
  - exists RangeBoundIsNaT. now apply (K merged).
Qed.

(** C9.  A run that ends in an error has written no file, unless the error
    is that of [melt] on line 92, which comes after the first [to_csv].
    With fewer than four files the run ends at once, with the error that
    carries the expected count, the count found and the names found.  A file
    that [load_trends_csv] rejects ends the run with an error and nothing
    written; a file without a [Time] column is rejected as such, and so is a
    file that does not have one value column. *)
Theorem fatal_errors_write_nothing (files : list CsvFile) (w : World) :
  (forall w' e, run files w = (w', inl e) ->
     (forall value_name, e <> ValueNameIsColumn value_name) -> disk w' = disk w) /\
  ((length files < 4)%nat ->
     run files w =
     (w, inl (InsufficientInputFiles 4 (length files) (map fname files)))) /\
  (forall f, In f files -> is_ok (load_trends_csv f) = false ->
     exists w' e, run files w = (w', inl e) /\ disk w' = disk w) /\
  (forall f, has_label "Time" (stripped_columns f) = false ->
     load_trends_csv f = inl (MissingTimeColumn (fname f) (stripped_columns f))) /\
  (forall f, length (filter is_not_time (stripped_columns f)) <> 1%nat ->
     is_ok (load_trends_csv f) = false).
Proof.
  split; [|split; [|split; [|split]]].
  - intros w' e. rewrite run_steps.
    destruct (length files <? 4)%nat; [intro H; now inversion H|].
    destruct (load_all files) as [e1|dfs]; [intro H; now inversion H|].
    destruct (merged_of dfs) as [e2|merged]; [intro H; now inversion H|].
    destruct (continuity_check merged) as [e3|warnings]; [intro H; now inversion H|].
    unfold melt. destruct (has_label "Interest" (labels merged)); [|discriminate].
    intros H N. inversion H; subst. now destruct (N "Interest"%string).
  - intro H. rewrite run_steps. apply Nat.ltb_lt in H. now rewrite H.
  - intros f Hin Hf. pose proof (load_all_fails files f Hin Hf) as L.
    rewrite run_steps.
    destruct (length files <? 4)%nat; [eauto|].
    destruct (load_all files) as [e|dfs]; [|discriminate].
    eauto.
  - apply load_missing_time.
  - apply load_ambiguous.
Qed.

End RunFacts.

(** ** From the long table back to the wide one *)

Section PivotFacts.
Context {RT : Runtime}.



(** Two strictly ascending lists of timestamps with the same elements are
    the same list. *)
Lemma strict_sorted_set_ext (l1 l2 : list (option Timestamp)) :
  StronglySorted time_lt l1 -> StronglySorted time_lt l2 ->
  (forall t, In t l1 <-> In t l2) -> l1 = l2.
Proof.
  intro S1. revert l2. induction S1 as [|a l1 S1 IH Ha]; intros l2 S2 H.
  - destruct l2 as [|b l2]; [reflexivity|]. exfalso. apply (H b). now left.
  - destruct S2 as [|b l2 S2 Hb].
    + exfalso. apply (H a). now left.
    + rewrite Forall_forall in Ha, Hb.
      assert (E : a = b).
      { destruct (proj1 (H a) (or_introl eq_refl)) as [E|Hin]; [now symmetry|].
        destruct (proj2 (H b) (or_introl eq_refl)) as [E|Hin']; [assumption|].
        apply Hb, time_ltb_leb in Hin. apply Ha, time_ltb_leb in Hin'.
        now apply time_leb_antisym. }
      subst b. f_equal. apply IH; [assumption|].
      intro t. split; intro Ht.
      * destruct (proj1 (H t) (or_intror Ht)) as [E|Hin]; [|assumption].
        subst t. apply Ha, time_ltb_neq in Ht. congruence.
      * destruct (proj2 (H t) (or_intror Ht)) as [E|Hin]; [|assumption].
        subst t. apply Hb, time_ltb_neq in Ht. congruence.
Qed.












End PivotFacts.

Section PivotGuarantees.
Context {RT : Runtime}.





End PivotGuarantees.

(** * Further properties of the script *)

(** ** The loader: when it returns and what it raises *)

Section LoaderOutcome.
Context {RT : Runtime}.

Lemma to_datetime_first_unreadable (col : list (option string)) (s : string) :
  find (fun c => negb (readable_time c)) col = Some (Some s) ->
  to_datetime col = inl (UnparsableTimestamp s).
Proof.
  induction col as [|c col IH]; simpl; intro H; [discriminate|].
  destruct c as [s0|]; simpl in H.
  - destruct (to_datetime_scalar s0) as [t|] eqn:E; simpl in H.
    + now rewrite (IH H).
    + now inversion H.
  - now rewrite (IH H).
Qed.

(** X1.  On the table [pd.read_csv] has handed over, lines 12-40 return
    exactly when [Time] labels one column and only one once the labels are
    stripped, one other column remains, the cleaned label of that column is
    not [Time] again, and every entry of the [Time] column is empty or one
    that [pd.to_datetime] reads; in every other case they raise. *)
Theorem load_returns_iff (f : CsvFile) :
  is_ok (load_trends_csv f) =
  header_ok f && forallb readable_time (time_entries f).
Proof.
  destruct (header_ok f) eqn:H; simpl.
  - now apply load_is_ok.
  - destruct (load_trends_csv f) as [e|df] eqn:E; [reflexivity|].
    apply load_inr in E. destruct E as (E & _). congruence.
Qed.

(** X2.  When [Time] labels one column, the first entry of that column
    that does not parse is the one [load_trends_csv] raises on, whatever the
    other columns are: line 17 runs before the value columns are counted
    on line 21. *)
Theorem load_raises_on_first_unreadable (f : CsvFile) (s : string) :
  has_label "Time" (stripped_columns f) = true ->
  (count_label "Time" (stripped_columns f) <= 1)%nat ->
  find (fun c => negb (readable_time c)) (time_entries f) = Some (Some s) ->
  load_trends_csv f = inl (UnparsableTimestamp s).
Proof.
  intros H1 H2 H3. unfold load_trends_csv. rewrite H1. simpl.
  apply Nat.ltb_ge in H2. rewrite H2.
  now rewrite (to_datetime_first_unreadable _ _ H3).
Qed.

(** X3.  When [Time] labels one column and every entry of it reads, a file
    that does not have exactly one other column is rejected with the file
    name and the list of the other labels, stripped, in header order: none
    for a file with [Time] alone, two or more otherwise. *)
Theorem load_rejects_other_column_counts (f : CsvFile) :
  has_label "Time" (stripped_columns f) = true ->
  (count_label "Time" (stripped_columns f) <= 1)%nat ->
  forallb readable_time (time_entries f) = true ->
  length (filter is_not_time (stripped_columns f)) <> 1%nat ->
  load_trends_csv f =
  inl (AmbiguousValueColumn (fname f) (filter is_not_time (stripped_columns f))).
Proof.
  intros H1 H2 H3 H4. unfold load_trends_csv. rewrite H1. simpl.
  apply Nat.ltb_ge in H2. rewrite H2.
  rewrite (to_datetime_readable _ H3).
  destruct (filter is_not_time (stripped_columns f)) as [|v [|v' vs]];
    simpl in H4; [reflexivity|congruence|reflexivity].
Qed.

End LoaderOutcome.

(** ** The basic checks, lines 37-38 *)

Section BasicChecks.
Context {RT : Runtime}.

Lemma dropna_id (l : list Row) :
  Forall (fun r => time r <> NaT) l -> dropna l = l.
Proof.
  unfold dropna, NaT. induction 1 as [|r l Hr Hl IH]; simpl; [reflexivity|].
  destruct (time r); [now rewrite IH|congruence].
Qed.

Lemma reindex_from_id (i : nat) (l : list Row) :
  map idx l = seq i (length l) -> reindex_from i l = l.
Proof.
  revert i. induction l as [|r l IH]; intros i H; simpl in *; [reflexivity|].
  inversion H as [[H1 H2]]. rewrite (IH _ H2). f_equal.
  destruct r; simpl in *; congruence.
Qed.

Lemma reindex_from_cells_eq (i : nat) (l l' : list Row) :
  map cells l = map cells l' -> reindex_from i l = reindex_from i l'.
Proof.
  revert i l'. induction l as [|r l IH]; intros i [|r' l'] H; simpl in *;
    try discriminate; [reflexivity|].
  inversion H as [[H1 H2 H3]]. now rewrite H1, H2, (IH _ _ H3).
Qed.

Lemma reindex_from_sorted (i : nat) (l : list Row) :
  StronglySorted row_le l -> StronglySorted row_le (reindex_from i l).
Proof.
  intro H.
  assert (S1 : StronglySorted time_le (times l)).
  { apply (sorted_times time_le). exact H. }
  rewrite <- (reindex_from_times i l) in S1.
  apply (sorted_times time_le) in S1. exact S1.
Qed.

Lemma basic_checks_no_NaT (l : list Row) :
  Forall (fun r => time r <> NaT) (basic_checks l).
Proof.
  apply Forall_forall. intros r Hr E.
  assert (Hin : In (time r) (times (basic_checks l))) by now apply in_map.
  apply basic_checks_times in Hin. tauto.
Qed.

Lemma basic_checks_sorted (l : list Row) : StronglySorted row_le (basic_checks l).
Proof. apply reindex_from_sorted, sort_values_sorted. Qed.

Lemma sort_values_id (l : list Row) : StronglySorted row_le l -> sort_values l = l.
Proof. exact (sort_by_id time time_leb l). Qed.

(** X4.  The basic checks of lines 37-38 change nothing when run a second
    time: what they return has no null timestamp, no repeated timestamp, is
    sorted and is indexed from zero already. *)
Theorem basic_checks_idempotent (l : list Row) :
  basic_checks (basic_checks l) = basic_checks l.
Proof.
  unfold basic_checks at 1.
  rewrite (dropna_id _ (basic_checks_no_NaT l)).
  rewrite (drop_duplicates_id _ (basic_checks_NoDup l)).
  rewrite (sort_values_id _ (basic_checks_sorted l)).
  apply reindex_from_id. unfold basic_checks at 1. apply reset_index_idx.
Qed.

Lemma filter_length_eq {A : Type} (p : A -> bool) (l : list A) :
  length (filter p l) = length l <-> forallb p l = true.
Proof.
  induction l as [|x l IH]; simpl; [tauto|].
  pose proof (filter_length_le p l) as B.
  destruct (p x); simpl.
  - rewrite <- IH. split; intro H; lia.
  - split; [lia|discriminate].
Qed.

Lemma keep_first_length_eq {A K : Type} (key : A -> K) (keqb : K -> K -> bool)
      (keqb_eq : forall a b, keqb a b = true <-> a = b) (l : list A) :
  length (keep_first (fun x y => keqb (key x) (key y)) l) = length l <->
  NoDup (map key l).
Proof.
  split; [|intro H; now rewrite (keep_first_id key keqb keqb_eq l H)].
  induction l as [|x l IH]; simpl; intro H; [constructor|].
  pose proof (keep_first_length key keqb l) as B1.
  pose proof (filter_length_le (fun y => negb (keqb (key x) (key y)))
                (keep_first (fun x y => keqb (key x) (key y)) l)) as B2.
  assert (E1 : length (keep_first (fun x y => keqb (key x) (key y)) l) = length l)
    by lia.
  assert (E2 : length (filter (fun y => negb (keqb (key x) (key y)))
                         (keep_first (fun x y => keqb (key x) (key y)) l)) =
               length (keep_first (fun x y => keqb (key x) (key y)) l)) by lia.
  constructor; [|now apply IH].
  intro Hin. apply (keep_first_keys key keqb keqb_eq l) in Hin.
  apply in_map_iff in Hin. destruct Hin as (y & Ey & Hy).
  apply filter_length_eq in E2. rewrite forallb_forall in E2.
  specialize (E2 y Hy). apply negb_true_iff in E2.
  assert (keqb (key x) (key y) = true) by (apply keqb_eq; congruence).
  congruence.
Qed.

Lemma frame_rows_times (i : nat) (ts : list (option Timestamp)) (vs : list (option num)) :
  length ts = length vs -> times (frame_rows i ts vs) = ts.
Proof.
  revert i vs. induction ts as [|t ts IH]; intros i [|v vs] H; simpl in *;
    try discriminate; [reflexivity|].
  f_equal. apply IH. lia.
Qed.

Lemma parsed_rows_times (f : CsvFile) :
  times (parsed_rows f) = map read_time (time_entries f).
Proof.
  unfold parsed_rows. apply frame_rows_times.
  unfold to_numeric_coerce, time_entries, value_entries, column.
  now rewrite !length_map.
Qed.

Lemma time_entries_length (f : CsvFile) :
  length (time_entries f) = length (body (content f)).
Proof. unfold time_entries, column. apply length_map. Qed.

Lemma basic_checks_length (l : list Row) :
  length (basic_checks l) = length (drop_duplicates (dropna l)).
Proof.
  unfold basic_checks. rewrite reset_index_length.
  apply Permutation_length, sort_values_perm.
Qed.

(** X5.  A loaded series has at most as many rows as the file has lines,
    and exactly as many when no timestamp of the file is empty and no two
    lines have the same timestamp. *)
Theorem load_row_count (f : CsvFile) (df : DataFrame) :
  load_trends_csv f = inr df ->
  (nrows df <= length (body (content f)))%nat /\
  (nrows df = length (body (content f)) <->
   NoDup (map read_time (time_entries f)) /\
   ~ In NaT (map read_time (time_entries f))).
Proof.
  intro H. apply load_inr in H. destruct H as (_ & _ & _ & H).
  unfold nrows. rewrite H, basic_checks_length.
  rewrite <- time_entries_length, <- (length_map read_time), <- parsed_rows_times.
  set (l := parsed_rows f). unfold times. rewrite length_map.
  assert (B1 : (length (drop_duplicates (dropna l)) <= length (dropna l))%nat)
    by exact (keep_first_length time time_eqb (dropna l)).
  assert (B2 : (length (dropna l) <= length l)%nat) by apply filter_length_le.
  split; [lia|].
  assert (A : length (dropna l) = length l <-> ~ In NaT (map time l)).
  { unfold dropna. rewrite filter_length_eq, forallb_forall. unfold NaT. split.
    - intros F Hin. apply in_map_iff in Hin. destruct Hin as (r & E & Hr).
      specialize (F r Hr). rewrite E in F. discriminate.
    - intros N r Hr. destruct (time r) eqn:E; [reflexivity|].
      exfalso. apply N. rewrite <- E. now apply in_map. }
  split.
  - intro E.
    assert (E1 : length (dropna l) = length l) by lia.
    assert (E2 : length (drop_duplicates (dropna l)) = length (dropna l)) by lia.
    pose proof (proj1 A E1) as N.
    apply (keep_first_length_eq time time_eqb time_eqb_eq) in E2.
    assert (D : dropna l = l).
    { apply dropna_id. apply Forall_forall. intros r Hr Er. apply N.
      rewrite <- Er. now apply in_map. }
    rewrite D in E2. split; assumption.
  - intros [N1 N2].
    assert (D : dropna l = l).
    { apply dropna_id. apply Forall_forall. intros r Hr Er. apply N2.
      rewrite <- Er. now apply in_map. }
    rewrite D. unfold drop_duplicates.
    now apply (keep_first_length_eq time time_eqb time_eqb_eq).
Qed.

End BasicChecks.

(** ** The basic checks do not depend on the order of the rows *)

Section RowOrder.
Context {RT : Runtime}.

Lemma filter_perm {A : Type} (p : A -> bool) (l l' : list A) :
  Permutation l l' -> Permutation (filter p l) (filter p l').
Proof.
  induction 1 as [|x l l' H IH|x y l|l l' l'' H1 IH1 H2 IH2]; simpl.
  - constructor.
  - destruct (p x); [now constructor|assumption].
  - destruct (p x), (p y); try reflexivity. apply perm_swap.
  - now transitivity (filter p l').
Qed.

(** Two lists that ascend strictly by a key and have the same elements are
    the same list. *)
Lemma strict_sorted_by_key_ext {A : Type} (key : A -> option Timestamp)
      (l1 l2 : list A) :
  StronglySorted (fun a b => time_lt (key a) (key b)) l1 ->
  StronglySorted (fun a b => time_lt (key a) (key b)) l2 ->
  (forall x, In x l1 <-> In x l2) -> l1 = l2.
Proof.
  intro S1. revert l2. induction S1 as [|a l1 S1 IH Ha]; intros l2 S2 H.
  - destruct l2 as [|b l2]; [reflexivity|]. exfalso. apply (H b). now left.
  - destruct S2 as [|b l2 S2 Hb].
    + exfalso. apply (H a). now left.
    + rewrite Forall_forall in Ha, Hb.
      assert (E : a = b).
      { destruct (proj1 (H a) (or_introl eq_refl)) as [E|Hin]; [now symmetry|].
        destruct (proj2 (H b) (or_introl eq_refl)) as [E|Hin']; [assumption|].
        apply Hb in Hin. apply Ha in Hin'.
        pose proof (time_ltb_neq _ _ Hin) as N.
        apply time_ltb_leb in Hin, Hin'.
        exfalso. apply N. now apply time_leb_antisym. }
      subst b. f_equal. apply IH; [assumption|].
      intro x. split; intro Hx.
      * destruct (proj1 (H x) (or_intror Hx)) as [E|Hin]; [|assumption].
        subst x. apply Ha, time_ltb_neq in Hx. congruence.
      * destruct (proj2 (H x) (or_intror Hx)) as [E|Hin]; [|assumption].
        subst x. apply Hb, time_ltb_neq in Hx. congruence.
Qed.

Lemma cells_sorted (l : list Row) :
  StronglySorted row_lt l ->
  StronglySorted (fun a b => time_lt (fst a) (fst b)) (map cells l).
Proof.
  induction 1 as [|x l Hl IH Hx]; simpl; constructor; [assumption|].
  apply Forall_forall. intros c Hc. apply in_map_iff in Hc.
  destruct Hc as (y & <- & Hy). rewrite Forall_forall in Hx. now apply Hx.
Qed.

Lemma dropna_cells (l : list Row) :
  map cells (dropna l) =
  filter (fun c => match fst c with Some _ => true | None => false end) (map cells l).
Proof.
  unfold dropna. induction l as [|r l IH]; simpl; [reflexivity|].
  destruct (time r); simpl; now rewrite IH.
Qed.

Lemma times_of_cells (l : list Row) : times l = map fst (map cells l).
Proof. unfold times. now rewrite map_map. Qed.

(** X6.  The rows the basic checks of lines 37-38 return depend on what
    the rows hold only, not on the order the rows come in or on their index,
    provided no two rows with a timestamp have the same timestamp (among
    rows of the same timestamp the first one is kept, so there the order
    shows). *)
Theorem basic_checks_ignore_row_order (l l' : list Row) :
  Permutation (map cells l) (map cells l') ->
  NoDup (times (dropna l)) ->
  basic_checks l = basic_checks l'.
Proof.
  intros P N.
  assert (P' : Permutation (map cells (dropna l)) (map cells (dropna l'))).
  { rewrite !dropna_cells. now apply filter_perm. }
  assert (N' : NoDup (times (dropna l'))).
  { eapply Permutation_NoDup; [|exact N].
    rewrite !times_of_cells. now apply Permutation_map. }
  unfold basic_checks. rewrite (drop_duplicates_id _ N), (drop_duplicates_id _ N').
  unfold reset_index. apply reindex_from_cells_eq.
  apply (strict_sorted_by_key_ext fst).
  - apply cells_sorted, sorted_NoDup_strict; [apply sort_values_sorted|].
    eapply Permutation_NoDup; [symmetry; apply sort_values_times_perm|exact N].
  - apply cells_sorted, sorted_NoDup_strict; [apply sort_values_sorted|].
    eapply Permutation_NoDup; [symmetry; apply sort_values_times_perm|exact N'].
  - intro c.
    assert (Q : Permutation (map cells (sort_values (dropna l)))
                            (map cells (sort_values (dropna l')))).
    { rewrite (Permutation_map cells (sort_values_perm (dropna l))).
      rewrite (Permutation_map cells (sort_values_perm (dropna l'))).
      exact P'. }
    split; apply Permutation_in; [exact Q|symmetry; exact Q].
Qed.

End RowOrder.

(** ** The merge: values, labels, repeated timestamps *)

Section MergeContents.
Context {RT : Runtime}.

Lemma first_at_unique (l : list Row) (x : Row) :
  NoDup (times l) -> In x l -> first_at (time x) l = Some x.
Proof.
  intros N Hx. destruct (first_at (time x) l) as [y|] eqn:E.
  - apply first_at_In in E. destruct E as [Hy E]. f_equal.
    unfold times in N.
    induction l as [|z l IH]; simpl in *; [easy|].
    inversion N; subst.
    destruct Hx as [->|Hx], Hy as [->|Hy]; auto.
    + exfalso. apply H1. rewrite <- E. now apply in_map.
    + exfalso. apply H1. rewrite E. now apply in_map.
  - exfalso. unfold first_at in E.
    apply (find_none _ _ E) in Hx. now rewrite time_eqb_refl in Hx.
Qed.

Lemma canonical_row (df : DataFrame) (x : Row) :
  canonical df -> In x (rows df) -> vals x = [value_at df (time x)].
Proof.
  intros (L & R & N) Hx. unfold value_at. rewrite (first_at_unique _ _ N Hx).
  unfold rectangular in R. rewrite Forall_forall in R. specialize (R x Hx).
  rewrite L in R. destruct (vals x) as [|v [|v' vs]]; simpl in *; congruence.
Qed.

Lemma join_rows_In (L R : list Row) (x : Row) :
  In x (join_rows L R) ->
  exists l r, In l L /\ In r R /\ time l = time r /\
              time x = time l /\ vals x = vals l ++ vals r.
Proof.
  intro H. apply in_flat_map in H. destruct H as (l & Hl & H).
  apply in_map_iff in H. destruct H as (r & <- & Hr).
  apply filter_In in Hr. destruct Hr as [Hr E]. apply time_eqb_eq in E.
  exists l, r. simpl. auto.
Qed.

Lemma fold_merge_vals (rest : list DataFrame) (acc : DataFrame) (r : Row) :
  Forall canonical rest ->
  In r (rows (fold_left merge_result rest acc)) ->
  exists r0, In r0 (rows acc) /\ time r0 = time r /\
             vals r = vals r0 ++ map (fun df => value_at df (time r)) rest.
Proof.
  revert acc. induction rest as [|df rest IH]; intros acc C Hr; simpl in *.
  - exists r. rewrite app_nil_r. auto.
  - inversion C as [|? ? Cdf Crest]; subst.
    destruct (IH _ Crest Hr) as (r1 & H1 & T1 & V1).
    simpl in H1. apply reindex_from_In in H1.
    destruct H1 as (r1' & H1 & E1). unfold cells in E1. inversion E1 as [[E2 E3]].
    apply join_rows_In in H1. destruct H1 as (l & x & Hl & Hx & Tlx & Tl & Vl).
    exists l. split; [assumption|]. split; [congruence|].
    rewrite V1, <- E3, Vl, (canonical_row df x Cdf Hx), <- app_assoc. simpl.
    do 3 f_equal. congruence.
Qed.

(** X7.  In the merged table of canonical series, a row holds, series by
    series in the order of the files, the value each series has at the
    timestamp of the row. *)
Theorem merge_row_values (first : DataFrame) (rest : list DataFrame)
        (merged : DataFrame) (r : Row) :
  Forall canonical (first :: rest) ->
  merge_all first rest = inr merged ->
  In r (rows merged) ->
  vals r = map (fun df => value_at df (time r)) (first :: rest).
Proof.
  intros C M Hr. apply merge_all_inr in M. subst merged.
  inversion C as [|? ? Cf Cr]; subst.
  unfold merge_all_result in Hr. simpl in Hr. apply reindex_from_In in Hr.
  destruct Hr as (r' & Hr' & E). unfold cells in E. injection E as E1 E2.
  apply (Permutation_in _ (sort_values_perm _)) in Hr'.
  destruct (fold_merge_vals rest first r' Cr Hr') as (r0 & H0 & T0 & V0).
  rewrite <- E2, V0, (canonical_row first r0 Cf H0). simpl.
  rewrite T0, E1. reflexivity.
Qed.

(** X8.  When no label occurs twice among the series, lines 70-75 return
    without an error, and the value columns of the merged table carry the
    labels of the series, unchanged, in the order of the files: no suffix is
    added. *)
Theorem merge_labels_in_file_order (first : DataFrame) (rest : list DataFrame) :
  NoDup (concat (map labels (first :: rest))) ->
  exists merged,
    merge_all first rest = inr merged /\
    labels merged = concat (map labels (first :: rest)).
Proof.
  intro N. exists (merge_all_result first rest).
  split; [now apply merge_all_distinct|].
  unfold merge_all_result. simpl in *. now apply fold_merge_labels_distinct.
Qed.

Lemma rows_at_reindex (t : option Timestamp) (i : nat) (l : list Row) :
  length (rows_at t (reindex_from i l)) = length (rows_at t l).
Proof.
  unfold rows_at. revert i. induction l as [|r l IH]; intro i; cbn -[time_eqb];
    [reflexivity|].
  destruct (time_eqb t (time r)); cbn -[time_eqb]; now rewrite IH.
Qed.

Lemma rows_at_join (t : option Timestamp) (L R : list Row) :
  length (rows_at t (join_rows L R)) =
  (length (rows_at t L) * length (rows_at t R))%nat.
Proof.
  unfold rows_at. induction L as [|l L IH]; [reflexivity|].
  change (join_rows (l :: L) R)
    with (map (fun r => {| idx := O; time := time l; vals := vals l ++ vals r |})
              (filter (same_time l) R) ++ join_rows L R).
  rewrite filter_app, length_app, IH. clear IH.
  cbn [filter]. unfold same_time.
  destruct (time_eqb t (time l)) eqn:E; cbn [length Nat.mul].
  - apply time_eqb_eq in E. subst t. f_equal.
    induction R as [|r R IHR]; [reflexivity|].
    cbn [filter]. destruct (time_eqb (time l) (time r)) eqn:F; [|exact IHR].
    cbn [map filter time]. rewrite time_eqb_refl. cbn [length]. now rewrite IHR.
  - rewrite <- (Nat.add_0_l (_ * _)). f_equal.
    induction (filter (fun r => time_eqb (time l) (time r)) R) as [|r m IHm];
      [reflexivity|].
    cbn [map filter time]. now rewrite E.
Qed.

(** X9.  The inner join multiplies the rows of a repeated timestamp: when
    the merge of two frames returns, it has, at every timestamp, as many
    rows as the left frame has there times as many as the right frame has
    there.  With unique timestamps on both sides that is one row or none. *)
Theorem merge_inner_multiplies_rows (left right joined : DataFrame)
        (t : option Timestamp) :
  merge_inner left right = inr joined ->
  length (rows_at t (rows joined)) =
  (length (rows_at t (rows left)) * length (rows_at t (rows right)))%nat.
Proof.
  intro M. apply merge_inner_inr in M. subst joined.
  unfold merge_result. simpl. unfold reset_index.
  now rewrite rows_at_reindex, rows_at_join.
Qed.




End MergeContents.

(** ** The calendar *)

Ltac dlia := Z.div_mod_to_equations; lia.

Lemma month_index_march (z : Z) : month_index z = march_month z + 2.
Proof.
  unfold month_index, civil_from_days, march_month. cbv zeta.
  set (z' := z + 719468). set (era := z' / 146097).
  set (doe := z' - era * 146097).
  assert (Hdoe : 0 <= doe < 146097) by (subst doe era; dlia).
  set (yoe := (doe - doe / 1460 + doe / 36524 - doe / 146096) / 365).
  set (doy := doe - (365 * yoe + yoe / 4 - yoe / 100)).
  assert (Hdoy : 0 <= doy <= 365) by (subst doy yoe; dlia).
  set (mp := (5 * doy + 2) / 153).
  assert (Hmp : 0 <= mp <= 11) by (subst mp; dlia).
  destruct (mp <? 10) eqn:E1.
  - apply Z.ltb_lt in E1.
    destruct (mp + 3 <=? 2) eqn:E2; [apply Z.leb_le in E2; lia|].
    cbv beta iota. lia.
  - apply Z.ltb_ge in E1.
    destruct (mp - 9 <=? 2) eqn:E2; [|apply Z.leb_gt in E2; lia].
    cbv beta iota. lia.
Qed.

Lemma month_start_march (k : Z) : month_start k = march_begin (k - 2) - 719468.
Proof.
  unfold month_start, days_from_civil, march_begin. cbv zeta.
  assert (H : 0 <= k mod 12 < 12) by (apply Z.mod_pos_bound; lia).
  destruct (k mod 12 + 1 <=? 2) eqn:E1.
  - apply Z.leb_le in E1.
    destruct (2 <? k mod 12 + 1) eqn:E2; [apply Z.ltb_lt in E2; lia|].
    replace ((k - 2) / 12) with (k / 12 - 1) by dlia.
    replace ((k - 2) mod 12) with (k mod 12 + 1 + 9) by dlia.
    lia.
  - apply Z.leb_gt in E1.
    destruct (2 <? k mod 12 + 1) eqn:E2; [|apply Z.ltb_ge in E2; lia].
    replace ((k - 2) / 12) with (k / 12) by dlia.
    replace ((k - 2) mod 12) with (k mod 12 + 1 - 3) by dlia.
    lia.
Qed.

Lemma march_begin_lt (M : Z) : march_begin M < march_begin (M + 1).
Proof. unfold march_begin. cbv zeta. dlia. Qed.

(** A date lies in its month: on or after the day the month begins, before
    the day the next month begins, and its day of the month counts from
    there. *)
Lemma march_bracket (z : Z) :
  march_begin (march_month z) <= z + 719468 < march_begin (march_month z + 1) /\
  z + 719468 = march_begin (march_month z) + (snd (civil_from_days z) - 1).
Proof.
  unfold march_month, civil_from_days. cbv zeta.
  set (z' := z + 719468). set (era := z' / 146097).
  set (doe := z' - era * 146097).
  assert (Hdoe : 0 <= doe < 146097) by (subst doe era; dlia).
  set (yoe := (doe - doe / 1460 + doe / 36524 - doe / 146096) / 365).
  assert (Hyoe : 0 <= yoe <= 399) by (subst yoe; dlia).
  set (doy := doe - (365 * yoe + yoe / 4 - yoe / 100)).
  assert (Hdoy : 0 <= doy <= 365) by (subst doy yoe; dlia).
  set (mp := (5 * doy + 2) / 153).
  assert (Hmp : 0 <= mp <= 11) by (subst mp; dlia).
  assert (Z1 : z' = era * 146097 + doe) by (subst doe; lia).
  assert (D1 : doe = 365 * yoe + yoe / 4 - yoe / 100 + doy) by (subst doy; lia).
  unfold march_begin. cbv zeta.
  replace ((12 * (yoe + era * 400) + mp) / 12) with (yoe + era * 400) by dlia.
  replace ((12 * (yoe + era * 400) + mp) mod 12) with mp by dlia.
  replace ((yoe + era * 400) / 400) with era by dlia.
  split; [split|].
  - subst mp. dlia.
  - assert (mp < 11 \/ mp = 11) as [C|C] by lia.
    + replace ((12 * (yoe + era * 400) + mp + 1) / 12) with (yoe + era * 400) by dlia.
      replace ((12 * (yoe + era * 400) + mp + 1) mod 12) with (mp + 1) by dlia.
      replace ((yoe + era * 400) / 400) with era by dlia.
      subst mp. dlia.
    + replace ((12 * (yoe + era * 400) + mp + 1) / 12) with (yoe + 1 + era * 400)
        by dlia.
      replace ((12 * (yoe + era * 400) + mp + 1) mod 12) with 0 by dlia.
      assert (yoe < 399 \/ yoe = 399) as [Y|Y] by lia.
      * replace ((yoe + 1 + era * 400) / 400) with era by dlia.
        rewrite Z1, D1. clear Z1.
        assert (doy < 365 + ((yoe + 1) / 4 - yoe / 4) - ((yoe + 1) / 100 - yoe / 100))
          by (subst doy yoe; dlia).
        dlia.
      * replace ((yoe + 1 + era * 400) / 400) with (era + 1) by dlia.
        rewrite Y. dlia.
  - cbv beta iota delta [snd]. replace (yoe + era * 400 - era * 400) with yoe by lia. lia.
Qed.

Lemma month_bracket (z : Timestamp) :
  month_start (month_index z) <= z < month_start (month_index z + 1).
Proof.
  rewrite !month_start_march, month_index_march.
  replace (march_month z + 2 - 2) with (march_month z) by lia.
  replace (march_month z + 2 + 1 - 2) with (march_month z + 1) by lia.
  pose proof (proj1 (march_bracket z)). lia.
Qed.

Lemma month_start_next (k : Z) : month_start k < month_start (k + 1).
Proof.
  rewrite !month_start_march.
  replace (k + 1 - 2) with (k - 2 + 1) by lia.
  pose proof (march_begin_lt (k - 2)). lia.
Qed.

Lemma month_start_lt (k k' : Z) : k < k' -> month_start k < month_start k'.
Proof.
  intro H. replace k' with (k + 1 + Z.of_nat (Z.to_nat (k' - k - 1))) by lia.
  induction (Z.to_nat (k' - k - 1)) as [|n IH].
  - rewrite Z.add_0_r. apply month_start_next.
  - pose proof (month_start_next (k + 1 + Z.of_nat n)).
    replace (k + 1 + Z.of_nat (S n)) with (k + 1 + Z.of_nat n + 1) by lia. lia.
Qed.

Lemma month_start_le (k k' : Z) : k <= k' -> month_start k <= month_start k'.
Proof.
  intro H. assert (k = k' \/ k < k') as [->|L] by lia; [lia|].
  pose proof (month_start_lt k k' L). lia.
Qed.

(** The month of a date is the month whose days hold it. *)
Lemma month_index_unique (z : Timestamp) (k : Z) :
  month_start k <= z < month_start (k + 1) -> month_index z = k.
Proof.
  intro H. pose proof (month_bracket z) as B.
  assert (month_index z < k \/ month_index z = k \/ k < month_index z)
    as [C|[C|C]] by lia; [|assumption|].
  - pose proof (month_start_le (month_index z + 1) k). lia.
  - pose proof (month_start_le (k + 1) (month_index z)). lia.
Qed.

Lemma month_index_start (k : Z) : month_index (month_start k) = k.
Proof.
  apply month_index_unique. pose proof (month_start_next k). lia.
Qed.

Lemma month_index_mono (z z' : Timestamp) :
  z <= z' -> month_index z <= month_index z'.
Proof.
  intro H. pose proof (month_bracket z) as B. pose proof (month_bracket z') as B'.
  assert (month_index z <= month_index z' \/ month_index z' + 1 <= month_index z)
    as [C|C] by lia; [assumption|].
  pose proof (month_start_le _ _ C). lia.
Qed.

(** The first of a month is the date its month begins on. *)
Lemma is_month_start_iff (z : Timestamp) :
  is_month_start z = true <-> month_start (month_index z) = z.
Proof.
  pose proof (proj2 (march_bracket z)) as D.
  rewrite month_start_march, month_index_march.
  replace (march_month z + 2 - 2) with (march_month z) by lia.
  unfold is_month_start.
  destruct (civil_from_days z) as [[y m] d]. simpl in D.
  rewrite Z.eqb_eq. lia.
Qed.

Lemma month_start_is_month_start (k : Z) : is_month_start (month_start k) = true.
Proof. apply is_month_start_iff. now rewrite month_index_start. Qed.

(** *** The range of month starts *)

Lemma month_range_sorted (k : Z) (a n : nat) :
  StronglySorted Z.lt (map (fun i => month_start (k + Z.of_nat i)) (seq a n)).
Proof.
  revert a. induction n as [|n IH]; intro a; simpl; constructor; [apply IH|].
  apply Forall_forall. intros t Ht. apply in_map_iff in Ht.
  destruct Ht as (i & <- & Hi). apply in_seq in Hi.
  apply month_start_lt. lia.
Qed.

Lemma date_range_MS_In (s e : Timestamp) (expected : list Timestamp) (t : Timestamp) :
  date_range_MS (Some s) (Some e) = inr expected ->
  (In t expected <-> is_month_start t = true /\ s <= t <= e).
Proof.
  unfold date_range_MS. intro H. inversion H as [H']. clear H H'.
  set (k0 := if is_month_start s then month_index s else month_index s + 1).
  assert (K0 : forall k, k0 <= k <-> s <= month_start k).
  { intro k. subst k0. pose proof (month_bracket s) as B.
    destruct (is_month_start s) eqn:E.
    - apply is_month_start_iff in E. split; intro L.
      + pose proof (month_start_le _ _ L). lia.
      + assert (month_index s <= k \/ k + 1 <= month_index s) as [C|C] by lia;
          [assumption|].
        pose proof (month_start_next k). pose proof (month_start_le _ _ C). lia.
    - split; intro L.
      + pose proof (month_start_le _ _ L). lia.
      + assert (month_index s + 1 <= k \/ k <= month_index s) as [C|C] by lia;
          [assumption|].
        pose proof (month_start_le _ _ C).
        assert (month_start (month_index s) = s) by lia.
        apply is_month_start_iff in H0. congruence. }
  assert (K1 : forall k, k <= month_index e <-> month_start k <= e).
  { intro k. pose proof (month_bracket e) as B. split; intro L.
    - pose proof (month_start_le _ _ L). lia.
    - assert (k <= month_index e \/ month_index e + 1 <= k) as [C|C] by lia;
        [assumption|].
      pose proof (month_start_le _ _ C). lia. }
  rewrite in_map_iff. split.
  - intros (i & <- & Hi). apply in_seq in Hi.
    split; [apply month_start_is_month_start|].
    split; [apply K0; lia|apply K1; lia].
  - intros (M & Hs & He). apply is_month_start_iff in M.
    rewrite <- M in Hs, He. apply K0 in Hs. apply K1 in He.
    exists (Z.to_nat (month_index t - k0)). split.
    + rewrite Z2Nat.id by lia. rewrite <- M at 2. f_equal. lia.
    + apply in_seq. lia.
Qed.

Lemma date_range_MS_sorted (s e : Timestamp) (expected : list Timestamp) :
  date_range_MS (Some s) (Some e) = inr expected -> StronglySorted Z.lt expected.
Proof.
  unfold date_range_MS. intro H. inversion H. apply month_range_sorted.
Qed.

(** ** The continuity check on monthly data *)

Section ContinuityCheck.
Context {RT : Runtime}.

Lemma series_min_In (ts : list (option Timestamp)) (m : Timestamp) :
  series_min ts = Some m -> In (Some m) ts.
Proof.
  revert m. induction ts as [|[t|] ts IH]; simpl; intros m H; [discriminate| |].
  - destruct (series_min ts) as [m'|] eqn:E.
    + inversion H; subst. destruct (Z.min_spec t m') as [[_ ->]|[_ ->]]; auto.
    + inversion H; subst. now left.
  - right. now apply IH.
Qed.

Lemma series_max_In (ts : list (option Timestamp)) (m : Timestamp) :
  series_max ts = Some m -> In (Some m) ts.
Proof.
  revert m. induction ts as [|[t|] ts IH]; simpl; intros m H; [discriminate| |].
  - destruct (series_max ts) as [m'|] eqn:E.
    + inversion H; subst. destruct (Z.max_spec t m') as [[_ ->]|[_ ->]]; auto.
    + inversion H; subst. now left.
  - right. now apply IH.
Qed.

Lemma series_min_le (ts : list (option Timestamp)) (m t : Timestamp) :
  series_min ts = Some m -> In (Some t) ts -> m <= t.
Proof.
  revert m. induction ts as [|[x|] ts IH]; simpl; intros m H Hin; [easy| |].
  - destruct (series_min ts) as [m'|] eqn:E; inversion H; subst.
    + destruct Hin as [Hx|Hin]; [inversion Hx; lia|].
      specialize (IH m' eq_refl Hin). lia.
    + destruct Hin as [Hx|Hin]; [inversion Hx; lia|].
      apply series_min_NaT in E. rewrite Forall_forall in E.
      specialize (E _ Hin). discriminate.
  - destruct Hin as [Hx|Hin]; [discriminate|]. now apply IH.
Qed.

Lemma series_max_ge (ts : list (option Timestamp)) (m t : Timestamp) :
  series_max ts = Some m -> In (Some t) ts -> t <= m.
Proof.
  revert m. induction ts as [|[x|] ts IH]; simpl; intros m H Hin; [easy| |].
  - destruct (series_max ts) as [m'|] eqn:E; inversion H; subst.
    + destruct Hin as [Hx|Hin]; [inversion Hx; lia|].
      specialize (IH m' eq_refl Hin). lia.
    + destruct Hin as [Hx|Hin]; [inversion Hx; lia|].
      apply series_max_NaT in E. rewrite Forall_forall in E.
      specialize (E _ Hin). discriminate.
  - destruct Hin as [Hx|Hin]; [discriminate|]. now apply IH.
Qed.

Lemma all_equal_iff (ts : list (option Timestamp)) (expected : list Timestamp) :
  negb (length expected =? length ts)%nat || negb (all_equal ts expected) = false <->
  ts = map Some expected.
Proof.
  rewrite orb_false_iff, !negb_false_iff, Nat.eqb_eq.
  revert expected. induction ts as [|t ts IH]; intros [|e expected];
    cbn -[time_eqb];
    try solve [split; [intros [? ?]|intro]; (discriminate || auto)].
  rewrite andb_true_iff, time_eqb_eq. split.
  - intros (L & -> & A). f_equal. apply IH. split; [lia|assumption].
  - intro H. inversion H; subst. destruct (proj2 (IH expected) eq_refl) as [L A].
    rewrite length_map in *. auto.
Qed.

(** The check prints nothing where the [Time] column is the expected range,
    entry for entry. *)
Lemma continuity_check_silent (merged : DataFrame) :
  continuity_check merged = inr [] <->
  exists expected,
    date_range_MS (series_min (times (rows merged)))
                  (series_max (times (rows merged))) = inr expected /\
    times (rows merged) = map Some expected.
Proof.
  unfold continuity_check.
  destruct (date_range_MS _ _) as [e|expected]; [split; [discriminate|]|].
  - intros (x & H & _). discriminate.
  - pose proof (all_equal_iff (times (rows merged)) expected) as A.
    destruct (negb _ || negb _).
    + split; [discriminate|]. intros (x & H & E). inversion H; subst.
      apply A in E. discriminate.
    + split; [|reflexivity]. intros _. exists expected. split; [reflexivity|].
      now apply A.
Qed.

Lemma difference_In (expected : list Timestamp) (ts : list (option Timestamp))
      (z : Timestamp) :
  In z (difference expected ts) <-> In z expected /\ ~ In (Some z) ts.
Proof.
  unfold difference. rewrite filter_In, negb_true_iff. split; intros [H1 H2];
    (split; [assumption|]).
  - intro Hin. assert (E : existsb (time_eqb (Some z)) ts = true).
    { apply existsb_exists. exists (Some z). split; [assumption|apply time_eqb_refl]. }
    congruence.
  - destruct (existsb (time_eqb (Some z)) ts) eqn:E; [|reflexivity].
    apply existsb_exists in E. destruct E as (t & Ht & E).
    apply time_eqb_eq in E. subst t. contradiction.
Qed.

Lemma sorted_filter_lt (p : Z -> bool) (l : list Z) :
  StronglySorted Z.lt l -> StronglySorted Z.lt (filter p l).
Proof.
  induction 1 as [|x l Hl IH Hx]; simpl; [constructor|].
  destruct (p x); [|assumption]. constructor; [assumption|].
  apply Forall_forall. intros y Hy. apply filter_In in Hy.
  rewrite Forall_forall in Hx. now apply Hx.
Qed.

Lemma sorted_map_Some (l : list Timestamp) :
  StronglySorted Z.lt l -> StronglySorted time_lt (map Some l).
Proof.
  induction 1 as [|x l Hl IH Hx]; simpl; constructor; [assumption|].
  apply Forall_forall. intros t Ht. apply in_map_iff in Ht.
  destruct Ht as (y & <- & Hy). rewrite Forall_forall in Hx. specialize (Hx y Hy).
  unfold time_lt, time_ltb. simpl. apply andb_true_iff. split.
  - apply Z.leb_le. lia.
  - apply negb_true_iff, Z.eqb_neq. lia.
Qed.

Lemma expected_range_exists (lo hi : Timestamp) :
  exists expected,
    date_range_MS (Some lo) (Some hi) = inr expected /\
    StronglySorted Z.lt expected /\
    forall t, In t expected <-> is_month_start t = true /\ lo <= t <= hi.
Proof.
  eexists. split; [reflexivity|]. split.
  - eapply date_range_MS_sorted. reflexivity.
  - intro t. eapply date_range_MS_In. reflexivity.
Qed.

(** X10.  The range the check compares the [Time] column with holds the
    first days of the months from the first bound to the last, each once,
    in ascending order, and nothing else. *)
Theorem expected_is_the_month_starts (start stop : Timestamp) :
  exists expected,
    date_range_MS (Some start) (Some stop) = inr expected /\
    StronglySorted Z.lt expected /\
    forall t, In t expected <-> is_month_start t = true /\ start <= t <= stop.
Proof.
  eexists. split; [reflexivity|]. split.
  - eapply date_range_MS_sorted. reflexivity.
  - intro t. eapply date_range_MS_In. reflexivity.
Qed.

(** X11.  The check prints nothing exactly when the [Time] column of the
    merged table is a strictly ascending run of first days of months that
    skips no month: every first of a month between two of its timestamps is
    one of its timestamps. *)
Theorem continuity_check_silent_iff_monthly (merged : DataFrame) :
  continuity_check merged = inr [] <->
  rows merged <> [] /\
  StronglySorted time_lt (times (rows merged)) /\
  (forall t, In t (times (rows merged)) ->
     exists z, t = Some z /\ is_month_start z = true) /\
  (forall a b z, In (Some a) (times (rows merged)) ->
                 In (Some b) (times (rows merged)) ->
                 a <= z <= b -> is_month_start z = true ->
                 In (Some z) (times (rows merged))).
Proof.
  rewrite continuity_check_silent. set (ts := times (rows merged)). split.
  - intros (expected & D & E).
    destruct (series_min ts) as [lo|] eqn:Emin; [|discriminate].
    destruct (series_max ts) as [hi|] eqn:Emax; [|discriminate].
    pose proof (date_range_MS_In lo hi expected) as M.
    pose proof (date_range_MS_sorted lo hi expected D) as S.
    split; [|split; [|split]].
    + intro R. subst ts. rewrite R in Emin. discriminate.
    + rewrite E. now apply sorted_map_Some.
    + intros t Ht. rewrite E in Ht. apply in_map_iff in Ht.
      destruct Ht as (z & <- & Hz). exists z. split; [reflexivity|].
      now apply (M z D).
    + intros a b z Ha Hb Hz Mz.
      rewrite E in Ha, Hb. apply in_map_iff in Ha, Hb.
      destruct Ha as (a' & Ea & Ha), Hb as (b' & Eb & Hb).
      inversion Ea; inversion Eb; subst a' b'.
      apply (M a D) in Ha. apply (M b D) in Hb.
      rewrite E. apply in_map. apply (M z D). split; [assumption|lia].
  - intros (N & S & M & G).
    destruct (series_min ts) as [lo|] eqn:Emin.
    2:{ exfalso. apply series_min_NaT in Emin. subst ts.
        destruct (rows merged) as [|r l]; [now apply N|].
        simpl in *. inversion Emin as [|? ? E _]; subst.
        destruct (M (time r) (or_introl eq_refl)) as (z & Ez & _).
        unfold NaT in E. congruence. }
    destruct (series_max ts) as [hi|] eqn:Emax.
    2:{ exfalso. apply series_max_NaT in Emax.
        apply series_min_In in Emin. rewrite Forall_forall in Emax.
        specialize (Emax _ Emin). discriminate. }
    destruct (expected_range_exists lo hi) as (expected & D & Se & Me).
    exists expected. split; [exact D|].
    apply strict_sorted_set_ext; [assumption|now apply sorted_map_Some|].
    intro t. split.
    + intro Ht. destruct (M t Ht) as (z & -> & Mz). apply in_map. apply Me.
      split; [assumption|].
      split; [now apply (series_min_le ts)|now apply (series_max_ge ts)].
    + intro Ht. apply in_map_iff in Ht. destruct Ht as (z & <- & Hz).
      apply Me in Hz. destruct Hz as [Mz Bz].
      apply (G lo hi z); auto using series_min_In, series_max_In.
Qed.

(** X12.  When the check warns, the months it has found missing are the
    first days of months between the first and the last timestamp that are
    not in the [Time] column, in ascending order; it prints the first ten of
    them, with the mark for more when there are more than ten, and prints
    the warning alone when there are none (the column is then not the
    expected range for another reason: another anchor, a repeated or a
    misplaced date). *)
Theorem continuity_check_reports_missing (merged : DataFrame) (warnings : list Output) :
  continuity_check merged = inr warnings ->
  warnings <> [] ->
  exists lo hi missing,
    series_min (times (rows merged)) = Some lo /\
    series_max (times (rows merged)) = Some hi /\
    StronglySorted Z.lt missing /\
    (forall z, In z missing <->
               is_month_start z = true /\ lo <= z <= hi /\
               ~ In (Some z) (times (rows merged))) /\
    warnings =
      ContinuityWarning ::
      match missing with
      | [] => []
      | _ :: _ => [MissingMonths (firstn 10 missing) (10 <? length missing)%nat]
      end.
Proof.
  unfold continuity_check. set (ts := times (rows merged)).
  destruct (series_min ts) as [lo|] eqn:Emin; [|discriminate].
  destruct (series_max ts) as [hi|] eqn:Emax; [|discriminate].
  destruct (expected_range_exists lo hi) as (expected & D & Se & Me).
  rewrite D. destruct (negb _ || negb _); intros H N; inversion H; subst;
    [|now contradiction N].
  exists lo, hi, (difference expected ts).
  split; [reflexivity|]. split; [reflexivity|]. split.
  - now apply sorted_filter_lt.
  - split.
    + intro z. rewrite difference_In, Me. tauto.
    + now destruct (difference expected ts).
Qed.

End ContinuityCheck.

(** ** The run: when it completes and what it leaves *)

Section RunOutcome.
Context {RT : Runtime}.

Lemma load_all_no_NaT (files : list CsvFile) (dfs : list DataFrame) :
  load_all files = inr dfs ->
  Forall (fun df => Forall (fun r => time r <> NaT) (rows df)) dfs.
Proof.
  revert dfs. induction files as [|f files IH]; simpl; intros dfs H.
  - inversion H. constructor.
  - destruct (load_trends_csv f) as [e|df] eqn:E; [discriminate|].
    destruct (load_all files) as [e|dfs']; [discriminate|].
    inversion H; subst. constructor; [|now apply IH].
    apply load_inr in E. destruct E as (_ & _ & _ & ->). apply basic_checks_no_NaT.
Qed.

Lemma merged_common_time (first : DataFrame) (rest : list DataFrame)
      (t : option Timestamp) :
  In t (times (rows (merge_all_result first rest))) <->
  forall df, In df (first :: rest) -> In t (times (rows df)).
Proof.
  rewrite <- fold_merge_times.
  split; apply Permutation_in; [|symmetry]; apply merge_all_result_times.
Qed.

Lemma continuity_check_returns (merged : DataFrame) (t : Timestamp) :
  In (Some t) (times (rows merged)) ->
  exists warnings, continuity_check merged = inr warnings.
Proof.
  intro H. destruct (continuity_check merged) as [e|ws] eqn:E; [|eauto].
  exfalso.
  assert (K : is_ok (continuity_check merged) = false) by now rewrite E.
  rewrite continuity_check_is_ok in K. unfold date_range_MS in K.
  destruct (series_min (times (rows merged))) as [lo|] eqn:Emin.
  - destruct (series_max (times (rows merged))) as [hi|] eqn:Emax; [discriminate|].
    apply series_max_NaT in Emax. rewrite Forall_forall in Emax.
    specialize (Emax _ H). discriminate.
  - apply series_min_NaT in Emin. rewrite Forall_forall in Emin.
    specialize (Emin _ H). discriminate.
Qed.

Lemma continuity_check_has_time (merged : DataFrame) (warnings : list Output) :
  continuity_check merged = inr warnings ->
  exists t, In (Some t) (times (rows merged)).
Proof.
  unfold continuity_check. intro H.
  destruct (series_min (times (rows merged))) as [lo|] eqn:Emin; [|discriminate].
  exists lo. now apply series_min_In.
Qed.

(** X13.  The run completes exactly when the glob found four files or
    more, every file loads, the merges of line 72 raise no [MergeError], some
    timestamp is in all the series, and no value column of the merged table
    is labelled [Interest]; in every other case it ends in an error. *)
Theorem run_completes_iff (files : list CsvFile) (w : World) :
  (exists w', run files w = (w', inr tt)) <->
  (4 <= length files)%nat /\
  exists dfs merged,
    load_all files = inr dfs /\
    merged_of dfs = inr merged /\
    (exists t, forall df, In df dfs -> In (Some t) (times (rows df))) /\
    has_label "Interest" (labels merged) = false.
Proof.
  rewrite run_steps. split.
  - intros (w' & H).
    destruct (length files <? 4)%nat eqn:L; [discriminate|]. apply Nat.ltb_ge in L.
    destruct (load_all files) as [e|dfs]; [discriminate|].
    destruct (merged_of dfs) as [e|merged] eqn:M; [discriminate|].
    destruct (continuity_check merged) as [e|ws] eqn:C; [discriminate|].
    destruct (melt merged) as [e|long_df] eqn:Ml; [discriminate|].
    split; [assumption|]. exists dfs, merged.
    split; [reflexivity|]. split; [exact M|]. split.
    + destruct (continuity_check_has_time _ _ C) as (t & Ht).
      destruct (merged_of_inr _ _ M) as (first & rest & -> & ->).
      exists t. now apply merged_common_time.
    + pose proof (melt_is_ok merged) as K. rewrite Ml in K. simpl in K.
      now destruct (has_label "Interest" (labels merged)).
  - intros (L & dfs & merged & H & M & (t & Ht) & Hi).
    apply Nat.ltb_ge in L. rewrite L, H, M.
    destruct (merged_of_inr _ _ M) as (first & rest & -> & ->).
    destruct (continuity_check_returns (merge_all_result first rest) t) as (ws & ->);
      [now apply merged_common_time|].
    unfold melt. rewrite Hi. eauto.
Qed.

(** X14.  A run that completes has appended to the console the two lists
    of file names and then what the check printed, and has written two
    files: the merged table, and after it its long table.  The merged
    table has a row, one value column per file, none labelled [Interest],
    every row with one entry per value column, and strictly ascending
    timestamps, none null; the long table has a row for every row and
    file. *)
Theorem run_postcondition (files : list CsvFile) (w w' : World) :
  run files w = (w', inr tt) ->
  exists dfs merged warnings long_df,
    load_all files = inr dfs /\
    merged_of dfs = inr merged /\
    continuity_check merged = inr warnings /\
    melt merged = inr long_df /\
    stdout w' = stdout w ++ FoundRawCsvs (map fname files)
                         :: FoundCsvs (map fname files) :: warnings /\
    disk w' = (out_long, long_csv long_df)
                :: (out_wide, wide_csv merged) :: disk w /\
    (1 <= nrows merged)%nat /\
    ncols merged = S (length files) /\
    has_label "Interest" (labels merged) = false /\
    rectangular merged /\
    StronglySorted time_lt (times (rows merged)) /\
    Forall (fun r => time r <> NaT) (rows merged) /\
    length long_df = (nrows merged * length files)%nat.
Proof.
  rewrite run_steps.
  destruct (length files <? 4)%nat; [discriminate|].
  destruct (load_all files) as [e|dfs] eqn:L; [discriminate|].
  destruct (merged_of dfs) as [e|merged] eqn:M; [discriminate|].
  destruct (continuity_check merged) as [e|ws] eqn:C; [discriminate|].
  destruct (melt merged) as [e|long_df] eqn:Ml; [discriminate|].
  intro H. inversion H; subst; clear H.
  exists dfs, merged, ws, long_df.
  split; [reflexivity|]. split; [exact M|]. split; [assumption|].
  split; [exact Ml|].
  split; [simpl; now rewrite <- !app_assoc|]. split; [reflexivity|].
  assert (Hi : has_label "Interest" (labels merged) = false).
  { pose proof (melt_is_ok merged) as K. rewrite Ml in K. simpl in K.
    now destruct (has_label "Interest" (labels merged)). }
  apply melt_inr in Ml. subst long_df.
  destruct (merged_of_inr _ _ M) as (first & rest & -> & ->).
  pose proof (load_all_canonical _ _ L) as [Cn Len].
  pose proof (load_all_no_NaT _ _ L) as Nn.
  assert (U : Forall unique_times (first :: rest)).
  { eapply Forall_impl; [|exact Cn]. apply canonical_unique. }
  assert (R : Forall rectangular (first :: rest)).
  { eapply Forall_impl; [|exact Cn]. intros df (_ & R & _). exact R. }
  inversion U; subst. inversion R; subst.
  pose proof (merge_all_result_labels first rest Cn) as Lb.
  split; [|split; [|split; [|split; [|split; [|split]]]]].
  - destruct (continuity_check_has_time _ _ C) as (t & Ht).
    unfold nrows, times in *.
    destruct (rows (merge_all_result first rest)); [easy|simpl; lia].
  - unfold ncols. now rewrite Lb, Len.
  - exact Hi.
  - now apply merge_all_result_rectangular.
  - now apply merge_all_result_strict.
  - apply Forall_forall. intros r Hr E.
    assert (Hin : In (time r) (times (rows (merge_all_result first rest))))
      by now apply in_map.
    pose proof (proj1 (merged_common_time first rest (time r)) Hin
                      first (or_introl eq_refl)) as Hf.
    apply in_map_iff in Hf. destruct Hf as (r0 & E0 & H0).
    inversion Nn as [|? ? N1 _]; subst. rewrite Forall_forall in N1.
    apply (N1 r0 H0). congruence.
  - rewrite melted_length, Lb, Len. reflexivity.
Qed.

(** X15.  The [Time] column of the merged table does not depend on the
    order in which the glob lists the files: when lines 70-75 return for the
    series in two orders, the two merged tables have the same [Time]
    column. *)
Theorem merged_times_ignore_file_order
        (first first' : DataFrame) (rest rest' : list DataFrame)
        (merged merged' : DataFrame) :
  Forall unique_times (first :: rest) ->
  Permutation (first :: rest) (first' :: rest') ->
  merge_all first rest = inr merged ->
  merge_all first' rest' = inr merged' ->
  times (rows merged) = times (rows merged').
Proof.
  intros U P M M'. apply merge_all_inr in M, M'. subst merged merged'.
  assert (U' : Forall unique_times (first' :: rest'))
    by (eapply Permutation_Forall; eassumption).
  inversion U; subst. inversion U'; subst.
  apply strict_sorted_set_ext; try now apply merge_all_result_strict.
  intro t. rewrite !merged_common_time.
  split; intros H df Hdf; apply H;
    [apply (Permutation_in _ (Permutation_sym P))|apply (Permutation_in _ P)];
    exact Hdf.
Qed.

(** X16.  The one error that leaves a file behind: when [melt] raises on
    line 92, the run has printed what a complete run prints and has written
    the merged table, and only it; a value column of that table is labelled
    [Interest]. *)
Theorem melt_error_leaves_wide_file (files : list CsvFile) (w w' : World)
        (value_name : string) :
  run files w = (w', inl (ValueNameIsColumn value_name)) ->
  exists dfs merged warnings,
    load_all files = inr dfs /\
    merged_of dfs = inr merged /\
    continuity_check merged = inr warnings /\
    value_name = "Interest"%string /\
    In "Interest"%string (labels merged) /\
    stdout w' = stdout w ++ FoundRawCsvs (map fname files)
                         :: FoundCsvs (map fname files) :: warnings /\
    disk w' = (out_wide, wide_csv merged) :: disk w.
Proof.
  rewrite run_steps.
  destruct (length files <? 4)%nat; [discriminate|].
  destruct (load_all files) as [e|dfs] eqn:L.
  { intro H. inversion H; subst. exfalso. clear H.
    revert L. clear. revert value_name.
    induction files as [|f files IH]; simpl; intros value_name; [discriminate|].
    destruct (load_trends_csv f) as [e|df] eqn:E.
    - intro H. inversion H; subst. unfold load_trends_csv in E.
      destruct (negb _); [discriminate|].
      destruct (1 <? _)%nat; [discriminate|].
      destruct (to_datetime (time_entries f)) as [e|ts] eqn:T.
      + inversion E; subst. clear -T.
        induction (time_entries f) as [|[s|] col IHc]; simpl in T; [discriminate| |].
        * destruct (to_datetime_scalar s); [|discriminate].
          destruct (to_datetime col); [|discriminate]. inversion T; subst. now apply IHc.
        * destruct (to_datetime col); [|discriminate]. inversion T; subst. now apply IHc.
      + destruct (filter is_not_time (stripped_columns f)) as [|v [|v' vs]];
          try discriminate.
        destruct (_ =? "Time")%string; discriminate.
    - destruct (load_all files) as [e|dfs]; [|discriminate].
      intro H. inversion H; subst. now apply (IH value_name). }
  destruct (merged_of dfs) as [e|merged] eqn:M.
  { intro H. inversion H; subst. exfalso.
    destruct dfs as [|first rest]; [discriminate|].
    destruct (merged_of_inl (first :: rest) _ (fun E => nil_cons (eq_sym E)) M)
      as (d & D). discriminate. }
  destruct (continuity_check merged) as [e|ws] eqn:C.
  { intro H. inversion H; subst. exfalso. unfold continuity_check in C.
    destruct (date_range_MS _ _) as [e|expected] eqn:D.
    - inversion C; subst. unfold date_range_MS in D.
      destruct (series_min _); [destruct (series_max _)|]; discriminate.
    - destruct (negb _ || negb _); discriminate. }
  unfold melt. destruct (has_label "Interest" (labels merged)) eqn:Hi; [|discriminate].
  intro H. inversion H; subst.
  exists dfs, merged, ws.
  split; [reflexivity|]. split; [exact M|]. split; [exact C|].
  split; [reflexivity|]. split.
  - unfold has_label in Hi. apply existsb_exists in Hi.
    destruct Hi as (c & Hc & E). apply String.eqb_eq in E. now subst c.
  - split; [simpl; now rewrite <- !app_assoc|reflexivity].
Qed.

End RunOutcome.

(** ** The example files, run *)

Import AsciiRuntime Examples.

Ltac distinct_times := repeat constructor; simpl; intuition discriminate.

Ltac is_canonical :=
  split; [reflexivity | split; [repeat constructor | distinct_times]].

Example load_jan_mar : load_trends_csv jan_mar_csv = inr boots.
Proof. reflexivity. Qed.

Example load_summer : load_trends_csv summer_csv = inr sandals.
Proof. reflexivity. Qed.

Example load_jeans : load_trends_csv jeans_csv = inr skinny_jeans.
Proof. reflexivity. Qed.

(** The scenario of the specification: January to March merged with
    February to April leaves February and March. *)
Example merge_boots_scarf :
  merge_all boots [scarf] = inr
  {| labels := ["Boots"; "Scarf"]%string;
     rows := [ {| idx := 0; time := Some 18293; vals := [Some 2; Some 10] |};
               {| idx := 1; time := Some 18322; vals := [Some 3; Some 20] |} ] |}.
Proof. reflexivity. Qed.

(** January and March without February: the check names February. *)
Example continuity_check_gap :
  continuity_check (series "Boots" [(18262, 1); (18322, 3)]) =
  inr [ContinuityWarning; MissingMonths [18293] false].
Proof. reflexivity. Qed.

(** C1 fails on four series of one name: the third merge would give a
    second column [Boots_x], and line 72 raises; there is no merged table. *)
Lemma same_name_series_do_not_merge :
  unique_times boots /\
  Forall unique_times [boots_north; boots_south; boots_west] /\
  merge_all boots [boots_north; boots_south; boots_west] =
    inl (MergeError ["Boots_x"%string]) /\
  ~ exists merged, merge_all boots [boots_north; boots_south; boots_west] = inr merged.
Proof.
  assert (M : merge_all boots [boots_north; boots_south; boots_west] =
              inl (MergeError ["Boots_x"%string])) by reflexivity.
  split; [distinct_times|]. split; [repeat constructor; simpl; intuition discriminate|].
  split; [exact M|]. intros (merged & H). rewrite M in H. discriminate H.
Qed.

(** C1, as the code has it, on the four example series. *)
Lemma merge_times_are_intersection_witness :
  unique_times boots /\ Forall unique_times [scarf; coat; hat] /\
  merge_all boots [scarf; coat; hat] = inr four_wide /\
  (forall t, In t (times (rows four_wide)) <->
             forall df, In df [boots; scarf; coat; hat] -> In t (times (rows df))) /\
  StronglySorted time_lt (times (rows four_wide)).
Proof.
  assert (H1 : unique_times boots) by distinct_times.
  assert (H2 : Forall unique_times [scarf; coat; hat]).
  { repeat constructor; simpl; intuition discriminate. }
  assert (M : merge_all boots [scarf; coat; hat] = inr four_wide) by reflexivity.
  split; [exact H1|]. split; [exact H2|]. split; [exact M|].
  exact (proj2 (proj2 (merge_times_are_intersection boots [scarf; coat; hat] H1 H2))
               four_wide M).
Defined.

(** C2 fails on [soon_csv]: the file has a [Time] column and one value
    column, one entry of the [Time] column is not a date, and the load
    raises instead of dropping the line. *)
Lemma unreadable_time_is_not_dropped :
  has_label "Time" (stripped_columns soon_csv) = true /\
  In (Some "soon"%string) (time_entries soon_csv) /\
  load_trends_csv soon_csv = inl (UnparsableTimestamp "soon") /\
  ~ drops_unreadable_times soon_csv.
Proof.
  assert (L : load_trends_csv soon_csv = inl (UnparsableTimestamp "soon"))
    by reflexivity.
  split; [reflexivity|]. split; [simpl; auto|]. split; [exact L|].
  intros (df & H & _). rewrite L in H. discriminate H.
Qed.

(** C2, as the code has it, on [jeans_csv]. *)
Lemma load_unreadable_time_is_fatal_witness :
  header_ok jeans_csv = true /\
  is_ok (load_trends_csv jeans_csv) = forallb readable_time (time_entries jeans_csv) /\
  (forall e, load_trends_csv jeans_csv = inl e ->
     exists s, e = UnparsableTimestamp s /\ In (Some s) (time_entries jeans_csv) /\
               to_datetime_scalar s = None) /\
  (forall df, load_trends_csv jeans_csv = inr df ->
     Forall (fun r => time r <> NaT) (rows df) /\
     forall t, In (Some t) (times (rows df)) <->
               In (Some t) (map read_time (time_entries jeans_csv))).
Proof.
  split; [reflexivity|].
  exact (load_unreadable_time_is_fatal jeans_csv eq_refl).
Defined.

(** The four files of [disjoint_files] load, their merge is the table
    without rows, and on it [pd.date_range] raises: the run ends in the
    continuity check, and neither file is written. *)
Example disjoint_series_end_the_run :
  load_all disjoint_files = inr [boots; scarf; coat; sandals] /\
  merged_of [boots; scarf; coat; sandals] =
    inr {| labels := ["Boots"; "Scarf"; "Coat"; "Sandals"]%string; rows := [] |} /\
  run disjoint_files fresh_world =
    (announced disjoint_files fresh_world, inl RangeBoundIsNaT) /\
  disk (announced disjoint_files fresh_world) = [].
Proof. repeat split; reflexivity. Qed.

(** C3 fails on [disjoint_files]: [boots] and [sandals] share no month. *)
Lemma no_common_timestamp_ends_the_run_witness :
  (4 <= length disjoint_files)%nat /\
  load_all disjoint_files = inr [boots; scarf; coat; sandals] /\
  (forall t, In t (times (rows boots)) -> ~ In t (times (rows sandals))) /\
  merged_of [boots; scarf; coat; sandals] =
    inr {| labels := ["Boots"; "Scarf"; "Coat"; "Sandals"]%string; rows := [] |} /\
  run disjoint_files fresh_world =
    (announced disjoint_files fresh_world, inl RangeBoundIsNaT) /\
  disk (announced disjoint_files fresh_world) = disk fresh_world.
Proof.
  assert (H4 : (4 <= length disjoint_files)%nat) by (simpl; lia).
  assert (L : load_all disjoint_files = inr [boots; scarf; coat; sandals])
    by reflexivity.
  assert (D : forall t, In t (times (rows boots)) -> ~ In t (times (rows sandals))).
  { intros t H1 H2. simpl in H1, H2.
    destruct H1 as [<-|[<-|[<-|[]]]]; destruct H2 as [H2|[H2|[]]]; discriminate H2. }
  assert (M : merged_of [boots; scarf; coat; sandals] =
              inr {| labels := ["Boots"; "Scarf"; "Coat"; "Sandals"]%string;
                     rows := [] |}) by reflexivity.
  pose proof (no_common_timestamp_ends_the_run disjoint_files
                [boots; scarf; coat; sandals] boots sandals fresh_world H4 L
                (or_introl eq_refl)
                (or_intror (or_intror (or_intror (or_introl eq_refl)))) D)
    as (_ & W & _ & K).
  split; [exact H4|]. split; [exact L|]. split; [exact D|]. split; [exact M|].
  split; [exact (proj2 (K _ M))|exact W].
Defined.

(** C4 on [jeans_csv]. *)
Lemma load_dedup_sort_reindex_witness :
  load_trends_csv jeans_csv = inr skinny_jeans /\
  rows skinny_jeans =
    reset_index (drop_duplicates (sort_values (dropna (parsed_rows jeans_csv)))) /\
  (forall t, In (Some t) (times (parsed_rows jeans_csv)) ->
     exists r, filter (fun x => time_eqb (Some t) (time x)) (rows skinny_jeans) = [r] /\
               option_map cells
                 (first_at (Some t) (sort_values (dropna (parsed_rows jeans_csv))))
               = Some (cells r)) /\
  StronglySorted time_lt (times (rows skinny_jeans)) /\
  map idx (rows skinny_jeans) = seq 0 (nrows skinny_jeans).
Proof.
  split; [reflexivity|].
  exact (load_dedup_sort_reindex jeans_csv skinny_jeans eq_refl).
Defined.

(** C5 fails on [same_name_files]: the four files load to four canonical
    series named [Boots], line 72 raises on the third merge, and the run
    ends there; there is no merged table of five columns. *)
Lemma same_name_files_do_not_merge :
  load_all same_name_files = inr [boots; boots_north; boots_south; boots_west] /\
  Forall canonical [boots; boots_north; boots_south; boots_west] /\
  merged_of [boots; boots_north; boots_south; boots_west] =
    inl (MergeError ["Boots_x"%string]) /\
  run same_name_files fresh_world =
    (announced same_name_files fresh_world, inl (MergeError ["Boots_x"%string])).
Proof.
  split; [reflexivity|]. split; [|split; reflexivity].
  repeat constructor; simpl; intuition discriminate.
Qed.

(** C5, as the code has it, on the four example series. *)
Lemma merge_shape_witness :
  Forall canonical [boots; scarf; coat; hat] /\
  merge_all boots [scarf; coat; hat] = inr four_wide /\
  (nrows four_wide <= fold_right Nat.min (nrows boots) (map nrows [scarf; coat; hat]))%nat /\
  ncols four_wide = 5%nat /\
  rectangular four_wide.
Proof.
  assert (H : Forall canonical [boots; scarf; coat; hat]).
  { repeat constructor; simpl; intuition discriminate. }
  assert (M : merge_all boots [scarf; coat; hat] = inr four_wide) by reflexivity.
  split; [exact H|]. split; [exact M|].
  exact (proj2 (merge_shape boots [scarf; coat; hat] H) four_wide M).
Defined.

(** C6 fails on [four_wide], the merged table of [overlapping_files]: the
    long table lists the two rows of the first metric before the second
    metric, not the four metrics of the first row before the second row. *)
Lemma melt_is_not_row_major :
  merge_all boots [scarf; coat; hat] = inr four_wide /\
  exists long, melt four_wide = inr long /\ tuples long <> tidy_row_major four_wide.
Proof.
  split; [reflexivity|]. exists (melted four_wide). split; [reflexivity|].
  discriminate.
Qed.

(** C6, as the code has it, on [four_wide]: the tuple of the first row and
    the second metric stands at position 2. *)
Lemma melt_is_column_major_witness :
  melt four_wide = inr (melted four_wide) /\
  nth_error (labels four_wide) 1 = Some "Scarf"%string /\
  nth_error (rows four_wide) 0 =
    Some {| idx := 0; time := Some 18293;
            vals := [Some 2; Some 10; Some 5; Some 9] |} /\
  nth_error (melted four_wide) 2 =
    Some {| l_idx := 2; l_time := Some 18293; trend := "Scarf";
            interest := Some 10 |}.
Proof.
  assert (M : melt four_wide = inr (melted four_wide)) by reflexivity.
  split; [exact M|]. split; [reflexivity|]. split; [reflexivity|].
  exact (proj2 (proj2 (proj2 (melt_is_column_major four_wide) _ M))
               1%nat 0%nat _ _ eq_refl eq_refl).
Defined.



(** C8 fails on [repeat_csv]: the timestamp of the second line reads, its
    value is not a number, and the series has no row for it. *)
Lemma repeated_time_is_not_retained : ~ retains_every_timed_line repeat_csv.
Proof.
  intros (df & H & K).
  assert (L : load_trends_csv repeat_csv = inr (series "Jeans" [(18262, 5)]))
    by reflexivity.
  rewrite L in H. injection H as <-.
  assert (T : nth_error (time_entries repeat_csv) 1 = Some (Some "2020-01-01"%string))
    by reflexivity.
  assert (V : nth_error (value_entries repeat_csv) 1 = Some (Some "N/A"%string))
    by reflexivity.
  assert (R : read_time (Some "2020-01-01"%string) = Some 18262) by reflexivity.
  destruct (K 1%nat _ _ 18262 T V R) as (r & Hin & _ & Hv).
  destruct Hin as [<-|[]]. discriminate Hv.
Qed.

(** C8, as the code has it, on [jeans_csv]. *)
Lemma load_coerces_values_witness :
  header_ok jeans_csv = true /\
  forallb readable_time (time_entries jeans_csv) = true /\
  exists df, load_trends_csv jeans_csv = inr df /\
    (forall i tc vc t,
      nth_error (time_entries jeans_csv) i = Some tc ->
      nth_error (value_entries jeans_csv) i = Some vc ->
      read_time tc = Some t ->
      (forall j tc', (j < i)%nat -> nth_error (time_entries jeans_csv) j = Some tc' ->
                     read_time tc' <> Some t) ->
      exists r, In r (rows df) /\ time r = Some t /\ vals r = [to_numeric_entry vc]) /\
    (forall r, In r (rows df) ->
      exists i tc vc,
        nth_error (time_entries jeans_csv) i = Some tc /\
        nth_error (value_entries jeans_csv) i = Some vc /\
        time r = read_time tc /\ vals r = [to_numeric_entry vc]).
Proof.
  split; [reflexivity|]. split; [reflexivity|].
  exact (load_coerces_values jeans_csv eq_refl eq_refl).
Defined.

(** C9 on two files: the run ends with the count expected, the count found
    and the two names, and the world is as it was. *)
Lemma fatal_errors_write_nothing_witness :
  (length [jan_mar_csv; feb_apr_csv] < 4)%nat /\
  run [jan_mar_csv; feb_apr_csv] fresh_world =
  (fresh_world,
   inl (InsufficientInputFiles 4 2 ["time_series_a.csv"; "time_series_b.csv"]%string)).
Proof.
  assert (H : (length [jan_mar_csv; feb_apr_csv] < 4)%nat) by (simpl; lia).
  split; [exact H|].
  exact (proj1 (proj2 (fatal_errors_write_nothing [jan_mar_csv; feb_apr_csv] fresh_world))
               H).
Defined.

(** C10 fails on [boots_sandals], the merge of [boots] and [sandals]: the
    table has no row, so no timestamp, and the check raises. *)
Lemma continuity_check_raises_without_rows_witness :
  merge_all boots [sandals] = inr boots_sandals /\
  Forall (fun t => t = NaT) (times (rows boots_sandals)) /\
  is_ok (continuity_check boots_sandals) = false.
Proof.
  assert (H : Forall (fun t => t = NaT) (times (rows boots_sandals)))
    by constructor.
  split; [reflexivity|]. split; [exact H|].
  exact (proj2 (proj1 (continuity_check_raises_without_rows boots_sandals)) H).
Defined.

(** ** The further properties on the example files *)

(** X2 on [two_metrics_soon_csv]: of the two entries that are not dates the
    first is raised on, and the two value columns are not looked at. *)
Lemma load_raises_on_first_unreadable_witness :
  has_label "Time" (stripped_columns two_metrics_soon_csv) = true /\
  (count_label "Time" (stripped_columns two_metrics_soon_csv) <= 1)%nat /\
  find (fun c => negb (readable_time c)) (time_entries two_metrics_soon_csv)
    = Some (Some "soon"%string) /\
  load_trends_csv two_metrics_soon_csv = inl (UnparsableTimestamp "soon").
Proof.
  assert (H1 : has_label "Time" (stripped_columns two_metrics_soon_csv) = true)
    by reflexivity.
  assert (H2 : (count_label "Time" (stripped_columns two_metrics_soon_csv) <= 1)%nat)
    by (vm_compute; lia).
  assert (H3 : find (fun c => negb (readable_time c))
                    (time_entries two_metrics_soon_csv) = Some (Some "soon"%string))
    by reflexivity.
  split; [exact H1|]. split; [exact H2|]. split; [exact H3|].
  exact (load_raises_on_first_unreadable two_metrics_soon_csv "soon" H1 H2 H3).
Defined.

(** X3 on [two_metrics_csv]. *)
Lemma load_rejects_other_column_counts_witness :
  has_label "Time" (stripped_columns two_metrics_csv) = true /\
  (count_label "Time" (stripped_columns two_metrics_csv) <= 1)%nat /\
  forallb readable_time (time_entries two_metrics_csv) = true /\
  length (filter is_not_time (stripped_columns two_metrics_csv)) <> 1%nat /\
  load_trends_csv two_metrics_csv =
  inl (AmbiguousValueColumn "time_series_two.csv" ["boots"; "scarf"]%string).
Proof.
  assert (H1 : has_label "Time" (stripped_columns two_metrics_csv) = true)
    by reflexivity.
  assert (H2 : (count_label "Time" (stripped_columns two_metrics_csv) <= 1)%nat)
    by (vm_compute; lia).
  assert (H3 : forallb readable_time (time_entries two_metrics_csv) = true)
    by reflexivity.
  assert (H4 : length (filter is_not_time (stripped_columns two_metrics_csv)) <> 1%nat)
    by (vm_compute; lia).
  split; [exact H1|]. split; [exact H2|]. split; [exact H3|]. split; [exact H4|].
  exact (load_rejects_other_column_counts two_metrics_csv H1 H2 H3 H4).
Defined.

(** X5 on [jeans_csv]: five lines, three rows. *)
Lemma load_row_count_witness :
  load_trends_csv jeans_csv = inr skinny_jeans /\
  (nrows skinny_jeans <= length (body (content jeans_csv)))%nat /\
  (nrows skinny_jeans = length (body (content jeans_csv)) <->
   NoDup (map read_time (time_entries jeans_csv)) /\
   ~ In NaT (map read_time (time_entries jeans_csv))).
Proof.
  split; [reflexivity|].
  exact (load_row_count jeans_csv skinny_jeans eq_refl).
Defined.

(** X6 on the rows of [feb_mar_csv] and of [mar_feb_sorted_csv]. *)
Lemma basic_checks_ignore_row_order_witness :
  Permutation (map cells (parsed_rows feb_mar_csv))
              (map cells (parsed_rows mar_feb_sorted_csv)) /\
  NoDup (times (dropna (parsed_rows feb_mar_csv))) /\
  basic_checks (parsed_rows feb_mar_csv) = basic_checks (parsed_rows mar_feb_sorted_csv).
Proof.
  assert (H1 : Permutation (map cells (parsed_rows feb_mar_csv))
                           (map cells (parsed_rows mar_feb_sorted_csv))).
  { assert (E : map cells (parsed_rows feb_mar_csv) =
                [(Some 18322, [Some 8]); (Some 18293, [Some 9])]) by reflexivity.
    assert (E' : map cells (parsed_rows mar_feb_sorted_csv) =
                 [(Some 18293, [Some 9]); (Some 18322, [Some 8])]) by reflexivity.
    rewrite E, E'. apply perm_swap. }
  assert (H2 : NoDup (times (dropna (parsed_rows feb_mar_csv)))).
  { assert (E : times (dropna (parsed_rows feb_mar_csv)) = [Some 18322; Some 18293])
      by reflexivity.
    rewrite E. distinct_times. }
  split; [exact H1|]. split; [exact H2|].
  exact (basic_checks_ignore_row_order _ _ H1 H2).
Defined.

(** X7 on the merge of the four example series, at February 2020. *)
Lemma merge_row_values_witness :
  Forall canonical [boots; scarf; coat; hat] /\
  merge_all boots [scarf; coat; hat] = inr four_wide /\
  In {| idx := 0; time := Some 18293; vals := [Some 2; Some 10; Some 5; Some 9] |}
     (rows four_wide) /\
  [Some 2; Some 10; Some 5; Some 9] =
  map (fun df => value_at df (Some 18293)) [boots; scarf; coat; hat].
Proof.
  assert (H1 : Forall canonical [boots; scarf; coat; hat]).
  { repeat constructor; simpl; intuition discriminate. }
  assert (M : merge_all boots [scarf; coat; hat] = inr four_wide) by reflexivity.
  assert (H2 : In {| idx := 0; time := Some 18293;
                     vals := [Some 2; Some 10; Some 5; Some 9] |}
                  (rows four_wide))
    by (left; reflexivity).
  split; [exact H1|]. split; [exact M|]. split; [exact H2|].
  exact (merge_row_values boots [scarf; coat; hat] four_wide _ H1 M H2).
Defined.

(** X8 on the four example series. *)
Lemma merge_labels_in_file_order_witness :
  NoDup (concat (map labels [boots; scarf; coat; hat])) /\
  exists merged,
    merge_all boots [scarf; coat; hat] = inr merged /\
    labels merged = ["Boots"; "Scarf"; "Coat"; "Hat"]%string.
Proof.
  assert (H : NoDup (concat (map labels [boots; scarf; coat; hat]))).
  { repeat constructor; simpl; intuition discriminate. }
  split; [exact H|].
  exact (merge_labels_in_file_order boots [scarf; coat; hat] H).
Defined.

(** X9 on [two_februaries] and [three_februaries]: six rows at February
    2020, none at March. *)
Lemma merge_inner_multiplies_rows_witness :
  merge_inner two_februaries three_februaries =
    inr (merge_result two_februaries three_februaries) /\
  length (rows_at (Some 18293)
                  (rows (merge_result two_februaries three_februaries))) = (2 * 3)%nat /\
  length (rows_at (Some 18322)
                  (rows (merge_result two_februaries three_februaries))) = (1 * 0)%nat.
Proof.
  assert (M : merge_inner two_februaries three_februaries =
              inr (merge_result two_februaries three_februaries)) by reflexivity.
  split; [exact M|]. split.
  - exact (merge_inner_multiplies_rows two_februaries three_februaries _ (Some 18293) M).
  - exact (merge_inner_multiplies_rows two_februaries three_februaries _ (Some 18322) M).
Defined.

(** X10 on the first quarter of 2020. *)
Lemma expected_is_the_month_starts_witness :
  exists expected,
    date_range_MS (Some 18270) (Some 18353) = inr expected /\
    StronglySorted Z.lt expected /\
    forall t, In t expected <-> is_month_start t = true /\ 18270 <= t <= 18353.
Proof. exact (expected_is_the_month_starts 18270 18353). Defined.

(** X11 on [four_wide], February and March 2020. *)
Lemma continuity_check_silent_iff_monthly_witness :
  continuity_check four_wide = inr [] /\
  rows four_wide <> [] /\
  StronglySorted time_lt (times (rows four_wide)) /\
  (forall t, In t (times (rows four_wide)) ->
     exists z, t = Some z /\ is_month_start z = true) /\
  (forall a b z, In (Some a) (times (rows four_wide)) ->
                 In (Some b) (times (rows four_wide)) ->
                 a <= z <= b -> is_month_start z = true ->
                 In (Some z) (times (rows four_wide))).
Proof.
  assert (H : continuity_check four_wide = inr []) by reflexivity.
  split; [exact H|].
  exact (proj1 (continuity_check_silent_iff_monthly four_wide) H).
Defined.

(** X12 on [jan_and_mar]: February 2020 is the month missing. *)
Lemma continuity_check_reports_missing_witness :
  continuity_check jan_and_mar = inr [ContinuityWarning; MissingMonths [18293] false] /\
  exists lo hi missing,
    series_min (times (rows jan_and_mar)) = Some lo /\
    series_max (times (rows jan_and_mar)) = Some hi /\
    StronglySorted Z.lt missing /\
    (forall z, In z missing <->
               is_month_start z = true /\ lo <= z <= hi /\
               ~ In (Some z) (times (rows jan_and_mar))) /\
    [ContinuityWarning; MissingMonths [18293] false] =
      ContinuityWarning ::
      match missing with
      | [] => []
      | _ :: _ => [MissingMonths (firstn 10 missing) (10 <? length missing)%nat]
      end.
Proof.
  assert (H : continuity_check jan_and_mar =
              inr [ContinuityWarning; MissingMonths [18293] false]) by reflexivity.
  split; [exact H|].
  refine (continuity_check_reports_missing jan_and_mar _ H _). discriminate.
Defined.

(** X13 on [overlapping_files]: four files that load, merge without an
    error to [four_wide], and share February and March 2020. *)
Lemma run_completes_iff_witness :
  (4 <= length overlapping_files)%nat /\
  load_all overlapping_files = inr [boots; scarf; coat; hat] /\
  merged_of [boots; scarf; coat; hat] = inr four_wide /\
  (forall df, In df [boots; scarf; coat; hat] -> In (Some 18293) (times (rows df))) /\
  has_label "Interest" (labels four_wide) = false /\
  exists w', run overlapping_files fresh_world = (w', inr tt).
Proof.
  assert (H1 : (4 <= length overlapping_files)%nat) by (simpl; lia).
  assert (H2 : load_all overlapping_files = inr [boots; scarf; coat; hat])
    by reflexivity.
  assert (M : merged_of [boots; scarf; coat; hat] = inr four_wide) by reflexivity.
  assert (H3 : forall df, In df [boots; scarf; coat; hat] ->
                          In (Some 18293) (times (rows df))).
  { intros df [<-|[<-|[<-|[<-|[]]]]]; simpl; auto. }
  assert (H4 : has_label "Interest" (labels four_wide) = false) by reflexivity.
  split; [exact H1|]. split; [exact H2|]. split; [exact M|]. split; [exact H3|].
  split; [exact H4|].
  exact (proj2 (run_completes_iff overlapping_files fresh_world)
               (conj H1 (ex_intro _ _ (ex_intro _ _
                  (conj H2 (conj M (conj (ex_intro _ 18293 H3) H4))))))).
Defined.

(** X14 on [overlapping_files]. *)
Lemma run_postcondition_witness :
  run overlapping_files fresh_world = (after_overlapping, inr tt) /\
  exists dfs merged warnings long_df,
    load_all overlapping_files = inr dfs /\
    merged_of dfs = inr merged /\
    continuity_check merged = inr warnings /\
    melt merged = inr long_df /\
    stdout after_overlapping =
      stdout fresh_world ++ FoundRawCsvs (map fname overlapping_files)
                         :: FoundCsvs (map fname overlapping_files) :: warnings /\
    disk after_overlapping =
      (out_long, long_csv long_df)
        :: (out_wide, wide_csv merged) :: disk fresh_world /\
    (1 <= nrows merged)%nat /\
    ncols merged = S (length overlapping_files) /\
    has_label "Interest" (labels merged) = false /\
    rectangular merged /\
    StronglySorted time_lt (times (rows merged)) /\
    Forall (fun r => time r <> NaT) (rows merged) /\
    length long_df = (nrows merged * length overlapping_files)%nat.
Proof.
  assert (H : run overlapping_files fresh_world = (after_overlapping, inr tt))
    by reflexivity.
  split; [exact H|].
  exact (run_postcondition overlapping_files fresh_world after_overlapping H).
Defined.

(** X15 on [boots] and [scarf], in the two orders. *)
Lemma merged_times_ignore_file_order_witness :
  Forall unique_times [boots; scarf] /\
  Permutation [boots; scarf] [scarf; boots] /\
  merge_all boots [scarf] = inr (merge_all_result boots [scarf]) /\
  merge_all scarf [boots] = inr (merge_all_result scarf [boots]) /\
  labels (merge_all_result boots [scarf]) <> labels (merge_all_result scarf [boots]) /\
  times (rows (merge_all_result boots [scarf])) =
  times (rows (merge_all_result scarf [boots])).
Proof.
  assert (H1 : Forall unique_times [boots; scarf]).
  { repeat constructor; simpl; intuition discriminate. }
  assert (H2 : Permutation [boots; scarf] [scarf; boots]) by apply perm_swap.
  assert (M : merge_all boots [scarf] = inr (merge_all_result boots [scarf]))
    by reflexivity.
  assert (M' : merge_all scarf [boots] = inr (merge_all_result scarf [boots]))
    by reflexivity.
  split; [exact H1|]. split; [exact H2|]. split; [exact M|]. split; [exact M'|].
  split; [discriminate|].
  exact (merged_times_ignore_file_order boots scarf [scarf] [boots] _ _ H1 H2 M M').
Defined.

(** X16 on [interest_files]: the run ends on line 92 and leaves the wide
    table [interest_wide] on the disk. *)
Lemma melt_error_leaves_wide_file_witness :
  run interest_files fresh_world =
    (after_interest, inl (ValueNameIsColumn "Interest")) /\
  disk after_interest = [(out_wide, wide_csv interest_wide)] /\
  exists dfs merged warnings,
    load_all interest_files = inr dfs /\
    merged_of dfs = inr merged /\
    continuity_check merged = inr warnings /\
    "Interest"%string = "Interest"%string /\
    In "Interest"%string (labels merged) /\
    stdout after_interest =
      stdout fresh_world ++ FoundRawCsvs (map fname interest_files)
                         :: FoundCsvs (map fname interest_files) :: warnings /\
    disk after_interest = (out_wide, wide_csv merged) :: disk fresh_world.
Proof.
  assert (H : run interest_files fresh_world =
              (after_interest, inl (ValueNameIsColumn "Interest"))) by reflexivity.
  split; [exact H|]. split; [reflexivity|].
  exact (melt_error_leaves_wide_file interest_files fresh_world after_interest
           "Interest" H).
Defined.

